(** * Git analytics server: parsers and aggregators

    A shallow embedding of the text parsers and the aggregation functions of
    the git analytics server ([tools/git_commit_history.py],
    [tools/git_file_changes.py], [tools/git_branches.py], [tools/git_sync.py],
    [tools/git_developer_stats.py], [tools/git_compare_developers.py],
    [tools/git_dashboard.py], [git_runner.py]), with the properties the
    specification states about them.

    Conventions of the embedding:
    - Python [str] is a Rocq [string]; a character stands for the code point
      of the same number, so texts are restricted to code points below 256.
    - Python [int] is [Z].
    - A function that can raise returns a [result]; the exception kinds are
      the ones the code raises.
    - A [dict] whose iteration order is observable is an association list in
      insertion order. *)

From Stdlib Require Import String Ascii List ZArith Lia Bool Arith.
From Stdlib Require Import Sorted Permutation.
From Stdlib Require Import DecimalString.
Import ListNotations.

Open Scope string_scope.
Open Scope list_scope.
Open Scope nat_scope.

(* ------------------------------------------------------------------ *)
(** ** Exceptions and fallible computations *)

Inductive exn : Type :=
| ValueError
| GitNotFoundError
| GitRepositoryError
| GitCommandError
| GitTimeoutError.

Inductive result (A : Type) : Type :=
| Ok (a : A)
| Raise (e : exn).

Arguments Ok {A} a.
Arguments Raise {A} e.

Definition bind {A B : Type} (m : result A) (k : A -> result B) : result B :=
  match m with
  | Ok a => k a
  | Raise e => Raise e
  end.

Notation "x <- m ;; k" := (bind m (fun x => k))
  (at level 61, m at next level, right associativity).

Definition returns {A : Type} (m : result A) : Prop := exists a, m = Ok a.

(** Left-to-right loop with early exit on the first exception. *)
Fixpoint foldM {S A : Type} (f : S -> A -> result S) (l : list A) (s : S)
  : result S :=
  match l with
  | [] => Ok s
  | x :: l' => s' <- f s x ;; foldM f l' s'
  end.

(* ------------------------------------------------------------------ *)
(** ** The string methods the parsers call *)

Module PyStr.

Definition code (c : ascii) : nat := nat_of_ascii c.

Definition chr (n : nat) : ascii := ascii_of_nat n.

Definition str1 (c : ascii) : string := String c "".

(** [str.isspace] on one character: TAB, LF, VT, FF, CR, FS, GS, RS, US,
    SPACE, NEL and NBSP are the white-space code points below 256. *)
Definition is_space (c : ascii) : bool :=
  let n := code c in
  ((9 <=? n) && (n <=? 13)) || ((28 <=? n) && (n <=? 32))
  || (n =? 133) || (n =? 160).

(** Line boundaries of [str.splitlines]: LF, VT, FF, CR, FS, GS, RS and NEL
    (CR LF counts once). *)
Definition is_linebreak (c : ascii) : bool :=
  let n := code c in
  ((10 <=? n) && (n <=? 13)) || ((28 <=? n) && (n <=? 30)) || (n =? 133).

Definition cons_head (c : ascii) (l : list string) : list string :=
  match l with
  | [] => [str1 c]
  | f :: fs => String c f :: fs
  end.

(** [s.splitlines()]: no final empty line after a trailing line break. *)
Fixpoint splitlines (s : string) : list string :=
  match s with
  | "" => []
  | String c r =>
      if is_linebreak c then
        match r with
        | String c2 r2 =>
            if (code c =? 13) && (code c2 =? 10)
            then "" :: splitlines r2
            else "" :: splitlines r
        | "" => [""]
        end
      else cons_head c (splitlines r)
  end.

Fixpoint lstrip (s : string) : string :=
  match s with
  | "" => ""
  | String c r => if is_space c then lstrip r else s
  end.

Fixpoint rstrip (s : string) : string :=
  match s with
  | "" => ""
  | String c r =>
      match rstrip r with
      | "" => if is_space c then "" else str1 c
      | r' => String c r'
      end
  end.

(** [s.strip()] *)
Definition strip (s : string) : string := rstrip (lstrip s).

(** [s.startswith(p)] *)
Definition startswith (p s : string) : bool := String.prefix p s.

(** [sub in s] *)
Fixpoint contains (sub s : string) : bool :=
  String.prefix sub s ||
  match s with
  | "" => false
  | String _ r => contains sub r
  end.

(** Truthiness of a string: [if s] *)
Definition nonempty (s : string) : bool :=
  match s with "" => false | _ => true end.

(** [s.split(sep, k)] for a non-empty separator, cutting at the first [k]
    occurrences from the left; [skip] counts the characters of a matched
    separator still to be consumed. *)
Fixpoint split_go (sep : string) (k skip : nat) (s : string) : list string :=
  match s with
  | "" => [""]
  | String c r =>
      match skip with
      | S sk => split_go sep k sk r
      | O =>
          match k with
          | O => [s]
          | S k' =>
              if String.prefix sep s
              then "" :: split_go sep k' (String.length sep - 1) r
              else cons_head c (split_go sep k 0 r)
          end
      end
  end.

Definition split_max (sep : string) (k : nat) (s : string) : list string :=
  split_go sep k 0 s.

(** [s.split(sep)]: a string of length [n] has at most [n] cuts. *)
Definition split (sep : string) (s : string) : list string :=
  split_go sep (String.length s) 0 s.

(** [s.split()]: split at runs of white space, no empty fields. *)
Fixpoint split_ws (s : string) : list string :=
  match s with
  | "" => []
  | String c r =>
      if is_space c then
        split_ws r
      else
        match r with
        | "" => [str1 c]
        | String c2 _ =>
            if is_space c2 then str1 c :: split_ws r
            else cons_head c (split_ws r)
        end
  end.

(** [l[i]] on a list of strings, where the index is known to be in range. *)
Definition item (i : nat) (l : list string) : string := nth i l "".

(** [l[-1]] *)
Definition last_item (l : list string) : string := last l "".

Definition is_digit (c : ascii) : bool :=
  let n := code c in (48 <=? n) && (n <=? 57).

Definition digit_val (c : ascii) : Z := Z.of_nat (code c - 48).

(** Decimal digits with single underscores between digits, as [int]
    accepts them. [prev] tells whether the previous character was a digit. *)
Fixpoint parse_digits (acc : Z) (prev : bool) (s : string) : option Z :=
  match s with
  | "" => if prev then Some acc else None
  | String c r =>
      if is_digit c then parse_digits (10 * acc + digit_val c) true r
      else if (code c =? 95) && prev then
        match r with
        | "" => None
        | _ => parse_digits acc false r
        end
      else None
  end.

(** White space that [int] skips around the number: the control characters
    FS, GS, RS and US are not among it. *)
Definition is_int_space (c : ascii) : bool :=
  let n := code c in
  ((9 <=? n) && (n <=? 13)) || (n =? 32) || (n =? 133) || (n =? 160).

Fixpoint int_lstrip (s : string) : string :=
  match s with
  | "" => ""
  | String c r => if is_int_space c then int_lstrip r else s
  end.

Fixpoint int_rstrip (s : string) : string :=
  match s with
  | "" => ""
  | String c r =>
      match int_rstrip r with
      | "" => if is_int_space c then "" else str1 c
      | r' => String c r'
      end
  end.

(** [int(s)] in base 10: surrounding white space, an optional sign, digits.
    [None] stands for [ValueError]. The interpreter's configurable limit on
    the number of digits is not modelled. *)
Definition int_of_string (s : string) : option Z :=
  match int_rstrip (int_lstrip s) with
  | String c r =>
      if code c =? 43 then parse_digits 0 false r
      else if code c =? 45 then option_map Z.opp (parse_digits 0 false r)
      else parse_digits 0 false (String c r)
  | "" => None
  end.

Definition int (s : string) : result Z :=
  match int_of_string s with
  | Some z => Ok z
  | None => Raise ValueError
  end.

(** [s.isdigit()]: besides 0-9, the superscripts 1, 2, 3 count as digits. *)
Definition is_digit_char (c : ascii) : bool :=
  let n := code c in
  is_digit c || (n =? 178) || (n =? 179) || (n =? 185).

Fixpoint all_chars (p : ascii -> bool) (s : string) : bool :=
  match s with
  | "" => true
  | String c r => p c && all_chars p r
  end.

Definition isdigit (s : string) : bool := nonempty s && all_chars is_digit_char s.

Fixpoint rev_string (s : string) : string :=
  match s with
  | "" => ""
  | String c r => (rev_string r ++ str1 c)%string
  end.

(** [s.rsplit(sep, k)]: the cuts are the last [k] occurrences, found from the
    right; that is [split] on the mirrored text. *)
Definition rsplit_max (sep : string) (k : nat) (s : string) : list string :=
  rev (map rev_string (split_max (rev_string sep) k (rev_string s))).

(** [s[n:]] *)
Fixpoint drop (n : nat) (s : string) : string :=
  match n, s with
  | O, _ => s
  | S n', String _ r => drop n' r
  | S _, "" => ""
  end.

(** Order of strings by code points: [a < b]. *)
Fixpoint str_ltb (a b : string) : bool :=
  match a, b with
  | _, "" => false
  | "", String _ _ => true
  | String x a', String y b' =>
      (code x <? code y) || ((code x =? code y) && str_ltb a' b')
  end.

Definition TAB : string := str1 (chr 9).
Definition LF : string := str1 (chr 10).

End PyStr.

Import PyStr.

Definition sum_Z (l : list Z) : Z := fold_left Z.add l 0%Z.

Definition len {A : Type} (l : list A) : Z := Z.of_nat (length l).

(* ------------------------------------------------------------------ *)
(** ** Commit-log parser ([tools/git_commit_history.py]) *)

Module CommitHistory.

Record FileChange : Type := mkFileChange {
  path : string;
  additions : Z;
  deletions : Z
}.

Record Stats : Type := mkStats {
  total_files : Z;
  total_additions : Z;
  total_deletions : Z
}.

(** The five header fields taken from a sentinel line. *)
Record Header : Type := mkHeader {
  hash : string;
  author_name : string;
  author_email : string;
  date : string;
  message : string
}.

(** A finished record: [stats] is the key added when the record is closed. *)
Record CommitRecord : Type := mkCommit {
  header : Header;
  files : list FileChange;
  stats : Stats
}.

(** [current_commit] while it is being built: the dictionary has no
    ["stats"] key yet. *)
Record Pending : Type := mkPending {
  p_header : Header;
  p_files : list FileChange
}.

(** State of the loop: [commits] and [current_commit]. *)
Record pstate : Type := mkState {
  commits : list CommitRecord;
  current_commit : option Pending
}.

(** Lines 45-52 and 82-89: compute the stats of the record and append it. *)
Definition close_commit (c : Pending) : CommitRecord :=
  {| header := p_header c;
     files := p_files c;
     stats := {| total_files := len (p_files c);
                 total_additions := sum_Z (map additions (p_files c));
                 total_deletions := sum_Z (map deletions (p_files c)) |} |}.

Definition flush (st : pstate) : list CommitRecord :=
  match current_commit st with
  | Some c => commits st ++ [close_commit c]
  | None => commits st
  end.

(** Lines 59-66. *)
Definition header_of_parts (parts : list string) : Header :=
  {| hash := strip (item 1 parts);
     author_name := strip (item 2 parts);
     author_email := strip (item 3 parts);
     date := strip (item 4 parts);
     message := strip (item 5 parts) |}.

(** Lines 72-73: [0 if s.strip() == "-" else int(s)]. *)
Definition numstat_field (s : string) : result Z :=
  if String.eqb (strip s) "-" then Ok 0%Z else int s.

(** Lines 69-79, on an active record. *)
Definition file_line (line : string) (c : Pending) : result Pending :=
  let parts := split TAB line in
  if length parts =? 3 then
    a <- numstat_field (item 0 parts) ;;
    d <- numstat_field (item 1 parts) ;;
    Ok {| p_header := p_header c;
          p_files := p_files c ++
            [ {| path := strip (item 2 parts); additions := a; deletions := d |} ] |}
  else Ok c.

(** One iteration of the loop of lines 40-79. *)
Definition step (st : pstate) (raw_line : string) : result pstate :=
  let line := strip raw_line in
  if startswith "COMMIT|" line then
    let commits' := flush st in
    let parts := split_max "|" 5 line in
    if negb (length parts =? 6) then
      Ok {| commits := commits'; current_commit := None |}
    else
      Ok {| commits := commits';
            current_commit :=
              Some {| p_header := header_of_parts parts; p_files := [] |} |}
  else
    match current_commit st with
    | Some c =>
        if nonempty line then
          c' <- file_line line c ;;
          Ok {| commits := commits st; current_commit := Some c' |}
        else Ok st
    | None => Ok st
    end.

Definition initial : pstate := {| commits := []; current_commit := None |}.

Definition parse_lines (lines : list string) : result (list CommitRecord) :=
  st <- foldM step lines initial ;; Ok (flush st).

Definition parse_commit_history (raw : string) : result (list CommitRecord) :=
  if negb (nonempty raw) then Ok []
  else parse_lines (splitlines raw).

End CommitHistory.

(* ------------------------------------------------------------------ *)
(** ** Lists, sorting and insertion-ordered dictionaries *)

Module PyList.

Section Sorting.
Context {A : Type}.
Variable key : A -> Z.

(** Place [x] in front of a list sorted by decreasing key, after the
    elements with a strictly greater key only: [x] comes from an earlier
    position than the elements of the list. *)
Fixpoint insert_desc (x : A) (l : list A) : list A :=
  match l with
  | [] => [x]
  | y :: l' =>
      if (key x <? key y)%Z then y :: insert_desc x l' else x :: y :: l'
  end.

(** [l.sort(key=key, reverse=True)]: a stable sort, elements of equal key
    keep their order. *)
Definition sort_desc (l : list A) : list A := fold_right insert_desc [] l.

(** [max(x :: l, key=key)]: the first element of maximal key. *)
Definition max_by (x : A) (l : list A) : A :=
  fold_left (fun best y => if (key best <? key y)%Z then y else best) l x.
End Sorting.

(** [sorted(list(set(l)))] on strings. *)
Fixpoint insert_str (x : string) (l : list string) : list string :=
  match l with
  | [] => [x]
  | y :: l' =>
      if String.eqb x y then l
      else if str_ltb x y then x :: l
      else y :: insert_str x l'
  end.

Definition sorted_set (l : list string) : list string :=
  fold_right insert_str [] l.

(** A set of strings as the list of its elements: [s.add(x)]. *)
Definition set_add (x : string) (s : list string) : list string :=
  if existsb (String.eqb x) s then s else s ++ [x].

(** [enumerate(l, 1)] *)
Fixpoint enumerate_from {A : Type} (i : Z) (l : list A) : list (Z * A) :=
  match l with
  | [] => []
  | x :: l' => (i, x) :: enumerate_from (i + 1)%Z l'
  end.

End PyList.

Module Dict.

Section Dict.
Context {V : Type}.

Definition t : Type := list (string * V).

(** [d[k] = f(d.get(k))]: a present key keeps its position, a new key goes
    to the end. *)
Fixpoint upsert (k : string) (f : option V -> V) (d : t) : t :=
  match d with
  | [] => [(k, f None)]
  | (k', v) :: d' =>
      if String.eqb k' k then (k', f (Some v)) :: d'
      else (k', v) :: upsert k f d'
  end.

Fixpoint get (k : string) (d : t) : option V :=
  match d with
  | [] => None
  | (k', v) :: d' => if String.eqb k' k then Some v else get k d'
  end.

Definition keys (d : t) : list string := map fst d.
End Dict.

Arguments t V : clear implicits.

End Dict.

(** [Counter]: [c[k] += 1] and [c.most_common(n)]. *)
Module Counter.

Definition t : Type := Dict.t Z.

Definition incr (k : string) (c : t) : t :=
  Dict.upsert k (fun o => match o with Some n => n + 1 | None => 1 end)%Z c.

Definition count_all (ks : list string) : t :=
  fold_left (fun c k => incr k c) ks [].

Definition most_common (n : nat) (c : t) : list (string * Z) :=
  firstn n (PyList.sort_desc snd c).

End Counter.

(* ------------------------------------------------------------------ *)
(** ** Single-file history parser ([tools/git_file_changes.py]) *)

Module FileChanges.

Record Changes : Type := mkChanges {
  additions : Z;
  deletions : Z;
  file_path : option string
}.

Record FileHistoryRecord : Type := mkRecord {
  header : CommitHistory.Header;
  changes : Changes
}.

Record pstate : Type := mkState {
  commits : list FileHistoryRecord;
  current_commit : option FileHistoryRecord
}.

Definition flush (st : pstate) : list FileHistoryRecord :=
  match current_commit st with
  | Some c => commits st ++ [c]
  | None => commits st
  end.

(** Lines 78-83: the field is stripped first, then read. *)
Definition numstat_field (s : string) : result Z :=
  let s' := strip s in
  if String.eqb s' "-" then Ok 0%Z else int s'.

(** Lines 74-87, on an active record: the last numstat line wins. *)
Definition file_line (line : string) (c : FileHistoryRecord)
  : result FileHistoryRecord :=
  let parts := split TAB line in
  if length parts =? 3 then
    a <- numstat_field (item 0 parts) ;;
    d <- numstat_field (item 1 parts) ;;
    Ok {| header := header c;
          changes := {| additions := a; deletions := d;
                        file_path := Some (strip (item 2 parts)) |} |}
  else Ok c.

Definition step (st : pstate) (raw_line : string) : result pstate :=
  let line_stripped := strip raw_line in
  if startswith "COMMIT|" line_stripped then
    let commits' := flush st in
    let parts := split_max "|" 5 line_stripped in
    if negb (length parts =? 6) then
      Ok {| commits := commits'; current_commit := None |}
    else
      Ok {| commits := commits';
            current_commit :=
              Some {| header := CommitHistory.header_of_parts parts;
                      changes := {| additions := 0; deletions := 0;
                                    file_path := None |} |} |}
  else
    match current_commit st with
    | Some c =>
        if nonempty line_stripped then
          c' <- file_line line_stripped c ;;
          Ok {| commits := commits st; current_commit := Some c' |}
        else Ok st
    | None => Ok st
    end.

Definition initial : pstate := {| commits := []; current_commit := None |}.

(** [target_file] is not used by the body. *)
Definition parse_file_history (raw : string) (target_file : string)
  : result (list FileHistoryRecord) :=
  if negb (nonempty raw) then Ok []
  else st <- foldM step (splitlines raw) initial ;; Ok (flush st).

End FileChanges.

(* ------------------------------------------------------------------ *)
(** ** Branch-list parser ([tools/git_branches.py]) *)

Module Branches.

Record BranchRecord : Type := mkBranch {
  name : string;
  last_commit_date : string
}.

(** Body of the loop of lines 22-34: the record the line adds, if any. *)
Definition branch_of_line (raw_line : string) : option BranchRecord :=
  let line := strip raw_line in
  if negb (nonempty line) then None
  else
    let parts := split_max "|" 1 line in
    if negb (length parts =? 2) || negb (nonempty (strip (item 0 parts)))
    then None
    else Some {| name := strip (item 0 parts);
                 last_commit_date := strip (item 1 parts) |}.

Definition parse_branches (raw : string) : list BranchRecord :=
  fold_left
    (fun branches line =>
       match branch_of_line line with
       | Some b => branches ++ [b]
       | None => branches
       end)
    (splitlines raw) [].

End Branches.

(* ------------------------------------------------------------------ *)
(** ** Fetch-output and status parsers ([tools/git_sync.py]) *)

Module Sync.

Inductive Action : Type := new | updated.

Record BranchUpdate : Type := mkUpdate {
  remote : string;
  branch : string;
  action : Action
}.

Record FetchSummary : Type := mkFetch {
  remotes_synced : list string;
  branches_updated : list BranchUpdate;
  branches_pruned : list string;
  raw_output : string
}.

(** Loop state of [parse_fetch_output]. *)
Record fstate : Type := mkFState {
  remotes_set : list string;
  f_updated : list BranchUpdate;
  f_pruned : list string
}.

(** Lines 63-67: the remote and the branch on the right of the arrow. *)
Definition arrow_target (line : string) : option (string * string) :=
  let parts := split "->" line in
  if length parts =? 2 then
    let branch_info := strip (item 1 parts) in
    if contains "/" branch_info then
      let rb := split_max "/" 1 branch_info in
      Some (item 0 rb, item 1 rb)
    else None
  else None.

Definition fetch_step (st : fstate) (raw_line : string) : fstate :=
  let line := strip raw_line in
  if negb (nonempty line) then st
  else
    let st1 :=
      if contains "Fetching" line then
        let parts := split_ws line in
        if 2 <=? length parts
        then {| remotes_set := PyList.set_add (item 1 parts) (remotes_set st);
                f_updated := f_updated st; f_pruned := f_pruned st |}
        else st
      else st in
    if contains "->" line then
      if contains "[new branch]" line then
        match arrow_target line with
        | Some (r, b) =>
            {| remotes_set := remotes_set st1;
               f_updated := f_updated st1 ++
                 [ {| remote := r; branch := b; action := new |} ];
               f_pruned := f_pruned st1 |}
        | None => st1
        end
      else if contains "[deleted]" line || contains "x " line then
        match arrow_target line with
        | Some (_, b) =>
            {| remotes_set := remotes_set st1;
               f_updated := f_updated st1;
               f_pruned := f_pruned st1 ++ [b] |}
        | None => st1
        end
      else
        match arrow_target line with
        | Some (r, b) =>
            {| remotes_set := remotes_set st1;
               f_updated := f_updated st1 ++
                 [ {| remote := r; branch := b; action := updated |} ];
               f_pruned := f_pruned st1 |}
        | None => st1
        end
    else st1.

Definition parse_fetch_output (raw : string) : FetchSummary :=
  if negb (nonempty raw) then
    {| remotes_synced := []; branches_updated := []; branches_pruned := [];
       raw_output := "" |}
  else
    let st := fold_left fetch_step (splitlines raw)
                {| remotes_set := []; f_updated := []; f_pruned := [] |} in
    {| remotes_synced := PyList.sorted_set (remotes_set st);
       branches_updated := f_updated st;
       branches_pruned := f_pruned st;
       raw_output := raw |}.

Inductive SyncStatus : Type :=
| up_to_date | ahead_of_remote | behind_remote | diverged | unknown.

Record StatusRecord : Type := mkStatus {
  current_branch : option string;
  tracking : option string;
  ahead : Z;
  behind : Z;
  sync_status : SyncStatus
}.

Definition unknown_status : StatusRecord :=
  {| current_branch := None; tracking := None; ahead := 0; behind := 0;
     sync_status := unknown |}.

(** Lines 152-158: the count that follows [word] inside the
    brackets; [int] is called on whatever [isdigit] lets through. *)
Definition count_after (word : string) (status_part : string) : result Z :=
  if contains word status_part then
    let s := strip (item 0 (split "," (strip (item 1 (split word status_part))))) in
    if isdigit s then int s else Ok 0%Z
  else Ok 0%Z.

(** Lines 164-170. *)
Definition decide_status (ahead behind : Z) : SyncStatus :=
  if (0 <? ahead)%Z && (0 <? behind)%Z then diverged
  else if (0 <? ahead)%Z then ahead_of_remote
  else if (0 <? behind)%Z then behind_remote
  else up_to_date.

Definition parse_status_output (raw : string) : result StatusRecord :=
  if negb (nonempty raw) then Ok unknown_status
  else
    match splitlines raw with
    | [] => Ok unknown_status
    | line0 :: _ =>
        let branch_line := strip line0 in
        if negb (startswith "##" branch_line) then Ok unknown_status
        else
          let branch_info := strip (drop 3 branch_line) in
          if contains "..." branch_info then
            let parts := split "..." branch_info in
            let cur := strip (item 0 parts) in
            let rest := strip (item 1 parts) in
            if contains "[" rest then
              let trk := strip (item 0 (split "[" rest)) in
              let status_part := item 0 (split "]" (item 1 (split "[" rest))) in
              a <- count_after "ahead" status_part ;;
              b <- count_after "behind" status_part ;;
              Ok {| current_branch := Some cur; tracking := Some trk;
                    ahead := a; behind := b;
                    sync_status := decide_status a b |}
            else
              Ok {| current_branch := Some cur; tracking := Some rest;
                    ahead := 0; behind := 0;
                    sync_status := decide_status 0 0 |}
          else
            Ok {| current_branch :=
                    if nonempty branch_info
                    then Some (item 0 (split_ws branch_info)) else None;
                  tracking := None; ahead := 0; behind := 0;
                  sync_status := decide_status 0 0 |}
    end.

End Sync.

(* ------------------------------------------------------------------ *)
(** ** Developer statistics ([tools/git_developer_stats.py]) *)

Module DeveloperStats.

Import CommitHistory.

(** Value of [file_stats[path]]. *)
Record FileAcc : Type := mkAcc {
  acc_commits : Z;
  acc_additions : Z;
  acc_deletions : Z
}.

Record FileActivity : Type := mkActivity {
  fa_path : string;
  fa_commits : Z;
  fa_additions : Z;
  fa_deletions : Z
}.

Record DevStats : Type := mkDevStats {
  total_commits : Z;
  total_files_changed : Z;
  total_additions : Z;
  total_deletions : Z;
  most_active_files : list FileActivity;
  file_types : list (string * Z)
}.

(** Lines 30-41: one file of one commit. *)
Definition touch (fs : Dict.t FileAcc) (f : FileChange) : Dict.t FileAcc :=
  Dict.upsert (path f)
    (fun o =>
       let a := match o with
                | Some a => a
                | None => {| acc_commits := 0; acc_additions := 0;
                             acc_deletions := 0 |}
                end in
       {| acc_commits := acc_commits a + 1;
          acc_additions := acc_additions a + additions f;
          acc_deletions := acc_deletions a + deletions f |})%Z
    fs.

(** Lines 28-41: the files of all commits, in order. *)
Definition all_files (commits : list CommitRecord) : list FileChange :=
  flat_map files commits.

Definition file_stats (commits : list CommitRecord) : Dict.t FileAcc :=
  fold_left touch (all_files commits) [].

(** Lines 56-60. *)
Definition file_type (p : string) : string :=
  if contains "." p then ("." ++ last_item (split "." p))%string
  else "(no extension)".

Definition analyze_developer_stats (commits : list CommitRecord) : DevStats :=
  match commits with
  | [] =>
      {| total_commits := 0; total_files_changed := 0; total_additions := 0;
         total_deletions := 0; most_active_files := []; file_types := [] |}
  | _ =>
      let fs := file_stats commits in
      let most_active :=
        PyList.sort_desc fa_commits
          (map (fun '(p, a) =>
                  {| fa_path := p; fa_commits := acc_commits a;
                     fa_additions := acc_additions a;
                     fa_deletions := acc_deletions a |}) fs) in
      let file_type_counter := Counter.count_all (map file_type (Dict.keys fs)) in
      {| total_commits := len commits;
         total_files_changed :=
           sum_Z (map (fun c => total_files (stats c)) commits);
         total_additions :=
           sum_Z (map (fun c => CommitHistory.total_additions (stats c)) commits);
         total_deletions :=
           sum_Z (map (fun c => CommitHistory.total_deletions (stats c)) commits);
         most_active_files := firstn 20 most_active;
         file_types := Counter.most_common 10 file_type_counter |}
  end.

End DeveloperStats.

(* ------------------------------------------------------------------ *)
(** ** Developer comparison ([tools/git_compare_developers.py]) *)

Module CompareDevelopers.

(** The ["stats"] dictionary of an entry: the keys [analyze_developer_stats]
    produced, and the key ["activity_score"] once [compare_developers] has
    stored it. *)
Record StatsDict : Type := mkStatsDict {
  base : DeveloperStats.DevStats;
  activity_score : option Z
}.

Record Entry : Type := mkEntry {
  developer : string;
  stats : StatsDict
}.

Record Pick : Type := mkPick {
  pick_developer : string;
  value : Z
}.

Record Rankings : Type := mkRankings {
  most_commits : option Pick;
  most_files_changed : option Pick;
  most_additions : option Pick;
  most_deletions : option Pick;
  most_active : option Pick
}.

Record Totals : Type := mkTotals {
  total_commits : Z;
  total_files_changed : Z;
  total_additions : Z;
  total_deletions : Z
}.

Record Comparison : Type := mkComparison {
  rankings : Rankings;
  totals : Totals
}.

Definition commits_of (e : Entry) : Z :=
  DeveloperStats.total_commits (base (stats e)).
Definition files_changed_of (e : Entry) : Z :=
  DeveloperStats.total_files_changed (base (stats e)).
Definition additions_of (e : Entry) : Z :=
  DeveloperStats.total_additions (base (stats e)).
Definition deletions_of (e : Entry) : Z :=
  DeveloperStats.total_deletions (base (stats e)).

(** Lines 28-30: the assignment into the caller's dictionary. *)
Definition store_score (e : Entry) : Entry :=
  {| developer := developer e;
     stats := {| base := base (stats e);
                 activity_score := Some (additions_of e + deletions_of e)%Z |} |}.

(** [x["stats"]["activity_score"]], read after the loop has stored it. *)
Definition score_of (e : Entry) : Z :=
  match activity_score (stats e) with
  | Some v => v
  | None => 0%Z
  end.

Definition pick (key : Entry -> Z) (e : Entry) : option Pick :=
  Some {| pick_developer := developer e; value := key e |}.

Definition empty_comparison : Comparison :=
  {| rankings := {| most_commits := None; most_files_changed := None;
                    most_additions := None; most_deletions := None;
                    most_active := None |};
     totals := {| total_commits := 0; total_files_changed := 0;
                  total_additions := 0; total_deletions := 0 |} |}.

(** The function with its effect made explicit: the first component is the
    argument list as the call leaves it, the second the returned value. *)
Definition compare_developers (developer_stats : list Entry)
  : list Entry * Comparison :=
  match developer_stats with
  | [] => ([], empty_comparison)
  | e :: es =>
      let d := store_score e in
      let ds := map store_score es in
      let all := d :: ds in
      (all,
       {| rankings :=
            {| most_commits := pick commits_of (PyList.max_by commits_of d ds);
               most_files_changed :=
                 pick files_changed_of (PyList.max_by files_changed_of d ds);
               most_additions :=
                 pick additions_of (PyList.max_by additions_of d ds);
               most_deletions :=
                 pick deletions_of (PyList.max_by deletions_of d ds);
               most_active := pick score_of (PyList.max_by score_of d ds) |};
          totals :=
            {| total_commits := sum_Z (map commits_of all);
               total_files_changed := sum_Z (map files_changed_of all);
               total_additions := sum_Z (map additions_of all);
               total_deletions := sum_Z (map deletions_of all) |} |})
  end.

(** An entry as [build_comparison_json] creates it. *)
Definition fresh_entry (author : string) (s : DeveloperStats.DevStats) : Entry :=
  {| developer := author; stats := {| base := s; activity_score := None |} |}.

(** The dictionaries of the test [test_compare_developers_function]. *)
Definition totals_only (c f a d : Z) : DeveloperStats.DevStats :=
  {| DeveloperStats.total_commits := c;
     DeveloperStats.total_files_changed := f;
     DeveloperStats.total_additions := a;
     DeveloperStats.total_deletions := d;
     DeveloperStats.most_active_files := [];
     DeveloperStats.file_types := [] |}.

Definition example_team : list Entry :=
  [ fresh_entry "Erik" (totals_only 45 120 2500 800);
    fresh_entry "John" (totals_only 30 150 1800 1200);
    fresh_entry "Jane" (totals_only 38 95 2100 600) ].

End CompareDevelopers.

(* ------------------------------------------------------------------ *)
(** ** The comparison of a quotient with the stability threshold *)

Module PyFloat.

(** A positive binary64 number [significand * 2 ^ exponent] with
    [2^52 <= significand < 2^53]. The results that lie outside the range of
    the normal numbers are not modelled: a quotient too small for it
    compares as the model says, a quotient of [2^1024] or more raises
    [OverflowError] in the interpreter, which no additions and deletions
    that are non-negative can produce. *)
Record binary64 : Type := mkFloat {
  significand : Z;
  exponent : Z
}.

(** The integer nearest to [num / den], the even one of two that are
    equally near. *)
Definition round_half_even (num den : Z) : Z :=
  let q := (num / den)%Z in
  let r := (num mod den)%Z in
  if (2 * r <? den)%Z then q
  else if (den <? 2 * r)%Z then (q + 1)%Z
  else if Z.even q then q else (q + 1)%Z.

(** [n / c] on integers [n > 0] and [c > 0]: the binary64 number nearest to
    the exact quotient. With [a] and [b] the positions of the leading bits
    of [n] and [c], the quotient lies between [2^(a-b-1)] and [2^(a-b+1)];
    [above] tells on which side of [2^(a-b)], which fixes the exponent. *)
Definition true_div (n c : Z) : binary64 :=
  let a := Z.log2 n in
  let b := Z.log2 c in
  let num := (n * 2 ^ (53 + b))%Z in
  let den0 := (c * 2 ^ a)%Z in
  let above := (2 ^ 53 * den0 <=? num)%Z in
  let den := if above then (2 * den0)%Z else den0 in
  let e := if above then (a - b - 52)%Z else (a - b - 53)%Z in
  let m := round_half_even num den in
  if (m =? 2 ^ 53)%Z
  then {| significand := 2 ^ 52; exponent := e + 1 |}
  else {| significand := m; exponent := e |}.

(** [x > y] *)
Definition gtb (x y : binary64) : bool :=
  (exponent y <? exponent x)%Z
  || ((exponent x =? exponent y)%Z && (significand y <? significand x)%Z).

(** The constant [0.3], that is [0x1.3333333333333p-2]. *)
Definition STABILITY_THRESHOLD : binary64 :=
  {| significand := 5404319552844595; exponent := -54 |}.

(** [n / c > STABILITY_THRESHOLD] for [n >= 0] and [c > 0]. *)
Definition gt_stability_threshold (n c : Z) : bool :=
  if (n =? 0)%Z then false else gtb (true_div n c) STABILITY_THRESHOLD.

(** Twice the threshold plus half a unit in its last place, over [2^55]:
    the midpoint between [0.3] and the next binary64 number. *)
Definition MIDPOINT_NUMERATOR : Z := 10808639105689191.

End PyFloat.

(* ------------------------------------------------------------------ *)
(** ** Dashboard analyses ([tools/git_dashboard.py]) *)

Module Dashboard.

Import CommitHistory.

Definition RISK_HIGH_COMMITS : Z := 15.
Definition RISK_MEDIUM_COMMITS : Z := 8.
Definition RISK_HIGH_DEVELOPERS : Z := 5.
Definition RISK_MEDIUM_DEVELOPERS : Z := 3.
Definition LOW_ACTIVITY_PERCENTAGE : Z := 5.
Definition LOW_ACTIVITY_COMMITS : Z := 3.
Definition HIGH_CHURN_THRESHOLD : Z := 100.

Inductive Risk : Type := high | medium | low.

Inductive Stability : Type := stable | unstable.

(** Value of [file_stats[path]] in [analyze_code_health]; [fs_developers] is
    the set of author names. *)
Record FileStat : Type := mkFileStat {
  fs_commits : Z;
  fs_developers : list string;
  fs_additions : Z;
  fs_deletions : Z
}.

Record Hotspot : Type := mkHotspot {
  h_path : string;
  h_commits : Z;
  h_developers : Z;
  h_additions : Z;
  h_deletions : Z;
  h_churn : Z;
  risk_level : Risk;
  rank : option Z
}.

Record ChurnFile : Type := mkChurnFile {
  c_path : string;
  c_additions : Z;
  c_deletions : Z;
  churn : Z;
  net_change : Z;
  stability : Stability
}.

(** Lines 185-188: the new value of [file_stats[path]]; a missing key
    starts from the default of the [defaultdict]. *)
Definition bump (developer : string) (f : FileChange) (o : option FileStat)
  : FileStat :=
  let a := match o with
           | Some a => a
           | None => {| fs_commits := 0; fs_developers := [];
                        fs_additions := 0; fs_deletions := 0 |}
           end in
  {| fs_commits := fs_commits a + 1;
     fs_developers := PyList.set_add developer (fs_developers a);
     fs_additions := fs_additions a + additions f;
     fs_deletions := fs_deletions a + deletions f |}%Z.

(** Lines 183-188: one file of one commit by [developer]. *)
Definition touch (developer : string) (fs : Dict.t FileStat) (f : FileChange)
  : Dict.t FileStat :=
  Dict.upsert (path f) (bump developer f) fs.

(** Lines 180-188. *)
Definition file_stats (commits : list CommitRecord) : Dict.t FileStat :=
  fold_left
    (fun fs c => fold_left (touch (author_name (header c))) (files c) fs)
    commits [].

(** Lines 195-200. *)
Definition classify_risk (commits developer_count : Z) : Risk :=
  if (RISK_HIGH_COMMITS <? commits)%Z
     || (RISK_HIGH_DEVELOPERS <? developer_count)%Z then high
  else if (RISK_MEDIUM_COMMITS <? commits)%Z
          || (RISK_MEDIUM_DEVELOPERS <? developer_count)%Z then medium
  else low.

(** Lines 191-210: the row of one file, before ranks are assigned. *)
Definition hotspot_row (entry : string * FileStat) : Hotspot :=
  let '(p, s) := entry in
  let developer_count := len (fs_developers s) in
  {| h_path := p;
     h_commits := fs_commits s;
     h_developers := developer_count;
     h_additions := fs_additions s;
     h_deletions := fs_deletions s;
     h_churn := (fs_additions s + fs_deletions s)%Z;
     risk_level := classify_risk (fs_commits s) developer_count;
     rank := None |}.

Definition with_rank (ih : Z * Hotspot) : Hotspot :=
  let '(i, h) := ih in
  {| h_path := h_path h; h_commits := h_commits h;
     h_developers := h_developers h; h_additions := h_additions h;
     h_deletions := h_deletions h; h_churn := h_churn h;
     risk_level := risk_level h; rank := Some i |}.

(** Lines 212-216. *)
Definition top_hotspots (fs : Dict.t FileStat) : list Hotspot :=
  map with_rank
    (PyList.enumerate_from 1
       (firstn 10 (PyList.sort_desc h_commits (map hotspot_row fs)))).

(** Lines 224-225. *)
Definition classify_stability (net churn : Z) : Stability :=
  let above :=
    if (0 <? churn)%Z then PyFloat.gt_stability_threshold net churn
    else false in
  if above then stable else unstable.

(** Lines 219-234: the rows of the files above the churn threshold. *)
Definition churn_row (entry : string * FileStat) : list ChurnFile :=
  let '(p, s) := entry in
  let ch := (fs_additions s + fs_deletions s)%Z in
  let net := Z.abs (fs_additions s - fs_deletions s) in
  if (HIGH_CHURN_THRESHOLD <? ch)%Z then
    [ {| c_path := p;
         c_additions := fs_additions s;
         c_deletions := fs_deletions s;
         churn := ch;
         net_change := (fs_additions s - fs_deletions s)%Z;
         stability := classify_stability net ch |} ]
  else [].

Definition high_churn (fs : Dict.t FileStat) : list ChurnFile :=
  flat_map churn_row fs.

(** Lines 236-237. *)
Definition high_churn_files (fs : Dict.t FileStat) : list ChurnFile :=
  firstn 5 (PyList.sort_desc churn (high_churn fs)).

(** Lines 241-245. *)
Definition file_type (p : string) : string :=
  if contains "." p then ("." ++ item 1 (rsplit_max "." 1 p))%string
  else "(no extension)".

Definition file_types (fs : Dict.t FileStat) : Counter.t :=
  Counter.count_all (map file_type (Dict.keys fs)).

(** Per-developer value of [dev_stats] in [analyze_team_performance];
    [ds_files] is the set of touched paths. *)
Record DevAcc : Type := mkDevAcc {
  ds_commits : Z;
  ds_additions : Z;
  ds_deletions : Z;
  ds_files : list string
}.

Definition dev_zero : DevAcc :=
  {| ds_commits := 0; ds_additions := 0; ds_deletions := 0; ds_files := [] |}.

Definition dev_get (o : option DevAcc) : DevAcc :=
  match o with Some a => a | None => dev_zero end.

(** Lines 113-120: one commit. *)
Definition dev_touch (ds : Dict.t DevAcc) (c : CommitRecord) : Dict.t DevAcc :=
  let dev_name := author_name (header c) in
  let ds1 :=
    Dict.upsert dev_name
      (fun o => let a := dev_get o in
                {| ds_commits := ds_commits a + 1;
                   ds_additions := ds_additions a;
                   ds_deletions := ds_deletions a;
                   ds_files := ds_files a |})%Z ds in
  fold_left
    (fun d f =>
       Dict.upsert dev_name
         (fun o => let a := dev_get o in
                   {| ds_commits := ds_commits a;
                      ds_additions := ds_additions a + additions f;
                      ds_deletions := ds_deletions a + deletions f;
                      ds_files := PyList.set_add (path f) (ds_files a) |})%Z d)
    (files c) ds1.

Definition dev_stats (commits : list CommitRecord) : Dict.t DevAcc :=
  fold_left dev_touch commits [].

(** Distinct values, as the size of the set built from them. *)
Definition distinct (l : list string) : list string :=
  fold_left (fun s x => PyList.set_add x s) l [].

Section Analyses.

(** The floating-point and calendar computations of the module are left
    abstract: no integer field and no list of the results depends on
    them, except the alerts through [float_ltb]. *)
Variable pyfloat : Type.
(** [(fromisoformat(a) - fromisoformat(b)).days], [None] when either
    text is not a date. *)
Variable days_between : string -> string -> option Z.
(** [round(a / b, 1)] *)
Variable round1_div : Z -> Z -> pyfloat.
(** [round((a / b) * 100, 1)] *)
Variable round1_percent : Z -> Z -> pyfloat.
(** [x < n] *)
Variable float_ltb : pyfloat -> Z -> bool.

Inductive number : Type :=
| Int (z : Z)
| Float (x : pyfloat).

Record ExecutiveSummary : Type := mkSummary {
  total_commits : Z;
  total_developers : Z;
  total_files_changed : Z;
  total_additions : Z;
  total_deletions : Z;
  net_lines : Z;
  avg_commits_per_day : number
}.

(** Lines 70-83. *)
Definition average_per_day (commits : list CommitRecord) : number :=
  match commits with
  | [] => Int 0
  | c0 :: _ =>
      let latest_date := date (header c0) in
      let earliest_date := date (header (last commits c0)) in
      match days_between (item 0 (rsplit_max " " 1 latest_date))
                         (item 0 (rsplit_max " " 1 earliest_date)) with
      | Some d => Float (round1_div (len commits) (Z.max 1 (d + 1)))
      | None => Int 0
      end
  end.

Definition analyze_executive_summary (commits : list CommitRecord)
  : ExecutiveSummary :=
  match commits with
  | [] =>
      {| total_commits := 0; total_developers := 0;
         total_files_changed := 0; total_additions := 0;
         total_deletions := 0; net_lines := 0;
         avg_commits_per_day := Int 0 |}
  | _ =>
      let developers :=
        distinct (map (fun c => author_name (header c)) commits) in
      let fl := flat_map files commits in
      let all_files := distinct (map path fl) in
      let adds := sum_Z (map additions fl) in
      let dels := sum_Z (map deletions fl) in
      {| total_commits := len commits;
         total_developers := len developers;
         total_files_changed := len all_files;
         total_additions := adds;
         total_deletions := dels;
         net_lines := (adds - dels)%Z;
         avg_commits_per_day := average_per_day commits |}
  end.

Record Contributor : Type := mkContributor {
  developer : string;
  commits : Z;
  percentage : number;
  additions : Z;
  deletions : Z;
  files_touched : Z;
  activity_score : Z;
  contributor_rank : option Z
}.

(** A [low_activity] warning; its message is formatted from [commits]. *)
Record Alert : Type := mkAlert {
  alert_developer : string;
  alert_commits : Z
}.

Record TeamPerformance : Type := mkTeam {
  top_contributors : list Contributor;
  developer_count : Z;
  active_developers : Z;
  alerts : list Alert
}.

Definition contributor_row (total_commits : Z) (entry : string * DevAcc)
  : Contributor :=
  let '(dev_name, s) := entry in
  {| developer := dev_name;
     commits := ds_commits s;
     percentage :=
       if (0 <? total_commits)%Z
       then Float (round1_percent (ds_commits s) total_commits)
       else Int 0;
     additions := ds_additions s;
     deletions := ds_deletions s;
     files_touched := len (ds_files s);
     activity_score := (ds_additions s + ds_deletions s)%Z;
     contributor_rank := None |}.

Definition contributor_with_rank (ic : Z * Contributor) : Contributor :=
  let '(i, c) := ic in
  {| developer := developer c; commits := commits c;
     percentage := percentage c; additions := additions c;
     deletions := deletions c; files_touched := files_touched c;
     activity_score := activity_score c; contributor_rank := Some i |}.

Definition number_ltb (x : number) (n : Z) : bool :=
  match x with
  | Int z => (z <? n)%Z
  | Float f => float_ltb f n
  end.

Definition low_activity (c : Contributor) : bool :=
  number_ltb (percentage c) LOW_ACTIVITY_PERCENTAGE
  && (commits c <? LOW_ACTIVITY_COMMITS)%Z.

Definition analyze_team_performance (cs : list CommitRecord)
  : TeamPerformance :=
  match cs with
  | [] =>
      {| top_contributors := []; developer_count := 0;
         active_developers := 0; alerts := [] |}
  | _ =>
      let ds := dev_stats cs in
      let contributors :=
        map contributor_with_rank
          (PyList.enumerate_from 1
             (PyList.sort_desc commits (map (contributor_row (len cs)) ds))) in
      {| top_contributors := firstn 5 contributors;
         developer_count := len ds;
         active_developers := len ds;
         alerts :=
           map (fun c => {| alert_developer := developer c;
                            alert_commits := commits c |})
               (filter low_activity contributors) |}
  end.

Record TypeShare : Type := mkShare {
  count : Z;
  share : number
}.

Record CodeHealth : Type := mkHealth {
  hotspots : list Hotspot;
  health_high_churn_files : list ChurnFile;
  file_types_distribution : list (string * TypeShare)
}.

(** Lines 247-255: shares of the ten most common keys. *)
Definition distribution (types : Counter.t) : list (string * TypeShare) :=
  let total_files := sum_Z (map snd types) in
  map (fun '(ext, n) =>
         (ext, {| count := n;
                  share := if (0 <? total_files)%Z
                           then Float (round1_percent n total_files)
                           else Int 0 |}))
      (Counter.most_common 10 types).

Definition analyze_code_health (cs : list CommitRecord) : CodeHealth :=
  match cs with
  | [] =>
      {| hotspots := []; health_high_churn_files := [];
         file_types_distribution := [] |}
  | _ =>
      let fs := file_stats cs in
      {| hotspots := top_hotspots fs;
         health_high_churn_files := high_churn_files fs;
         file_types_distribution := distribution (file_types fs) |}
  end.

End Analyses.

End Dashboard.

(* ------------------------------------------------------------------ *)
(** ** The external tool and the comparison operation
       ([git_runner.py], [tools/git_compare_developers.py]) *)

Module Tools.

(** What one run of the executable gives back. *)
Inductive outcome : Type :=
| Output (out : string)
| Failed
| TimedOut.

(** The environment of a call: the file system, the search path and the
    executable, whose [n]-th run may depend on [n]. *)
Record World : Type := mkWorld {
  isdir : string -> bool;
  git_on_path : bool;
  git : nat -> string -> list string -> outcome
}.

(** The commands started so far: working directory and arguments. *)
Definition Trace : Type := list (string * list string).

Definition io (A : Type) : Type := Trace -> Trace * result A.

Definition ret {A : Type} (a : A) : io A := fun t => (t, Ok a).

Definition raise {A : Type} (e : exn) : io A := fun t => (t, Raise e).

Definition lift {A : Type} (r : result A) : io A := fun t => (t, r).

Definition bind_io {A B : Type} (m : io A) (k : A -> io B) : io B :=
  fun t =>
    match m t with
    | (t', Ok a) => k a t'
    | (t', Raise e) => (t', Raise e)
    end.

Notation "x <~ m ;; k" := (bind_io m (fun x => k))
  (at level 61, m at next level, right associativity).

Section InWorld.

Variable w : World.

(** [run_git]: [git_exe] fails before anything is started. *)
Definition run_git (repo_path : string) (args : list string) : io string :=
  fun t =>
    if git_on_path w then
      (t ++ [(repo_path, args)],
       match git w (length t) repo_path args with
       | Output out => Ok out
       | Failed => Raise GitCommandError
       | TimedOut => Raise GitTimeoutError
       end)
    else (t, Raise GitNotFoundError).

Definition ensure_is_git_repo (repo_path : string) : io unit :=
  if negb (nonempty repo_path) then raise ValueError
  else if negb (isdir w repo_path) then raise GitRepositoryError
  else _ <~ run_git repo_path ["rev-parse"; "--git-dir"] ;; ret tt.

Definition option_arg (flag : string) (v : option string) : list string :=
  match v with
  | Some s => if nonempty s then [(flag ++ s)%string] else []
  | None => []
  end.

(** [get_commit_history_raw] as the comparison calls it: no branch and no
    [max_count]. *)
Definition get_commit_history_raw (repo_path : string)
    (since until author : option string) : io string :=
  run_git repo_path
    (["log"; "--numstat"; "--pretty=format:COMMIT|%H|%an|%ae|%ai|%s"; "--all"]
     ++ option_arg "--since=" since
     ++ option_arg "--until=" until
     ++ option_arg "--author=" author).

Record ComparisonJson : Type := mkJson {
  developers : list CompareDevelopers.Entry;
  comparison : CompareDevelopers.Comparison
}.

(** Lines 81-95: the loop over the authors. *)
Fixpoint collect (repo_path : string) (since until : option string)
    (authors : list string) (acc : list CompareDevelopers.Entry)
  : io (list CompareDevelopers.Entry) :=
  match authors with
  | [] => ret acc
  | author :: rest =>
      raw <~ get_commit_history_raw repo_path since until (Some author) ;;
      commits <~ lift (CommitHistory.parse_commit_history raw) ;;
      collect repo_path since until rest
        (acc ++ [CompareDevelopers.fresh_entry author
                   (DeveloperStats.analyze_developer_stats commits)])
  end.

Definition build_comparison_json (repo_path : string) (authors : list string)
    (since until : option string) : io ComparisonJson :=
  developer_stats <~ collect repo_path since until authors [] ;;
  let '(developer_stats', c) :=
    CompareDevelopers.compare_developers developer_stats in
  ret {| developers := developer_stats'; comparison := c |}.

(** The registered operation, lines 131-144. *)
Definition compare_developer_stats (repo_path : string)
    (authors : list string) (since until : option string)
  : io ComparisonJson :=
  _ <~ ensure_is_git_repo repo_path ;;
  if (length authors <? 2) then raise ValueError
  else if (10 <? length authors) then raise ValueError
  else build_comparison_json repo_path authors since until.

End InWorld.

(** Whether a command asks for the commit log. *)
Definition is_log_command (cmd : string * list string) : bool :=
  match snd cmd with
  | a :: _ => String.eqb a "log"
  | [] => false
  end.

(** A place that is no directory, and one where every command succeeds
    with no output. *)
Definition no_repository : World :=
  {| isdir := fun _ => false; git_on_path := true;
     git := fun _ _ _ => Output "" |}.

Definition quiet_repository : World :=
  {| isdir := fun _ => true; git_on_path := true;
     git := fun _ _ _ => Output "" |}.

End Tools.

(* ------------------------------------------------------------------ *)
(** ** Texts and separators *)

Module TextSpec.

(** Occurrences in [s] of the character with code [n]. *)
Fixpoint count_char (n : nat) (s : string) : nat :=
  match s with
  | "" => 0
  | String x r => (if code x =? n then 1 else 0) + count_char n r
  end.

(** The text before and after the first character with code [n]. *)
Fixpoint cut_at (n : nat) (s : string) : option (string * string) :=
  match s with
  | "" => None
  | String c r =>
      if code c =? n then Some ("", r)
      else match cut_at n r with
           | Some (a, b) => Some (String c a, b)
           | None => None
           end
  end.

Definition PIPE : nat := 124.
Definition DOT : nat := 46.

End TextSpec.

(* ------------------------------------------------------------------ *)
(** ** The commit-log format in the words of the specification *)

Module CommitLogSpec.

Import CommitHistory.

Definition is_sentinel (line : string) : bool := startswith "COMMIT|" line.

(** A sentinel with six pipe fields: at least five pipes. *)
Definition valid_sentinel (line : string) : bool :=
  is_sentinel line && (5 <=? TextSpec.count_char 124 line).

(** The lines before the first sentinel, and from there on each sentinel
    with the lines up to the next one. *)
Fixpoint blocks (lines : list string)
  : list string * list (string * list string) :=
  match lines with
  | [] => ([], [])
  | l :: rest =>
      let '(body, bs) := blocks rest in
      if is_sentinel l then ([], (l, body) :: bs) else (l :: body, bs)
  end.

(** The file changes of the lines of one block, in order. *)
Fixpoint file_changes (body : list string) (c : Pending) : result Pending :=
  match body with
  | [] => Ok c
  | l :: rest =>
      c' <- (if nonempty l then file_line l c else Ok c) ;;
      file_changes rest c'
  end.

(** The record of one block: none for a sentinel without six fields, whose
    lines are not looked at. *)
Definition record_of_block (b : string * list string)
  : result (list CommitRecord) :=
  let '(sentinel, body) := b in
  if valid_sentinel sentinel then
    c <- file_changes body
           {| p_header := header_of_parts (split_max "|" 5 sentinel);
              p_files := [] |} ;;
    Ok [close_commit c]
  else Ok [].

Fixpoint records_of_blocks (bs : list (string * list string))
  : result (list CommitRecord) :=
  match bs with
  | [] => Ok []
  | b :: rest =>
      r <- record_of_block b ;;
      rs <- records_of_blocks rest ;;
      Ok (r ++ rs)
  end.

(** The records of a text given by its stripped lines: the lines before the
    first sentinel belong to no record. *)
Definition records (stripped_lines : list string) : result (list CommitRecord) :=
  records_of_blocks (snd (blocks stripped_lines)).

(** The header a sentinel line gives. *)
Definition header_of_line (line : string) : Header :=
  header_of_parts (split_max "|" 5 line).

(** The record a sentinel line opens, if it is valid. *)
Definition opened (line : string) : option Pending :=
  if valid_sentinel line
  then Some {| p_header := header_of_line line; p_files := [] |}
  else None.

(** The loop and the final flush, from any state. *)
Definition run (lines : list string) (st : pstate) : result (list CommitRecord) :=
  st' <- foldM step lines st ;; Ok (flush st').

(** The invariant of the data model. *)
Definition stats_consistent (c : CommitRecord) : Prop :=
  total_files (stats c) = len (files c)
  /\ total_additions (stats c) = sum_Z (map additions (files c))
  /\ total_deletions (stats c) = sum_Z (map deletions (files c)).

End CommitLogSpec.

(* ------------------------------------------------------------------ *)
(** ** The branch list in the words of the specification *)

Module BranchListSpec.

Import Branches.

(** The lines the parser keeps: a pipe, and a name before it that is not
    blank. *)
Definition record_of (stripped_line : string) : option BranchRecord :=
  match TextSpec.cut_at TextSpec.PIPE stripped_line with
  | Some (a, b) =>
      if nonempty (strip a)
      then Some {| name := strip a; last_commit_date := strip b |}
      else None
  | None => None
  end.

Fixpoint keep_some {A B : Type} (f : A -> option B) (l : list A) : list B :=
  match l with
  | [] => []
  | x :: l' =>
      match f x with
      | Some y => y :: keep_some f l'
      | None => keep_some f l'
      end
  end.

(** The claim as the specification words it: exactly two fields between
    pipes, both non-empty. *)
Definition two_nonempty_fields (stripped_line : string) : option BranchRecord :=
  match split "|" stripped_line with
  | [a; b] =>
      if nonempty (strip a) && nonempty (strip b)
      then Some {| name := strip a; last_commit_date := strip b |}
      else None
  | _ => None
  end.

Definition claimed_branches (raw : string) : list BranchRecord :=
  keep_some two_nonempty_fields (map strip (splitlines raw)).

End BranchListSpec.

(* ------------------------------------------------------------------ *)
(** ** Rankings and file accumulators in the words of the specification *)

Module AggregateSpec.

Import CommitHistory.

(** [x] is the first element of [l] with the greatest key. *)
Definition first_max {A : Type} (key : A -> Z) (l : list A) (x : A) : Prop :=
  exists l1 l2,
    l = l1 ++ x :: l2
    /\ (forall y, In y l1 -> (key y < key x)%Z)
    /\ (forall y, In y l2 -> (key y <= key x)%Z).

(** The file changes of all commits in order, each with the author of its
    commit. *)
Definition events (cs : list CommitRecord) : list (string * FileChange) :=
  flat_map (fun c => map (fun f => (author_name (header c), f)) (files c)) cs.

(** Those of the path [p]. *)
Definition events_of (p : string) (cs : list CommitRecord)
  : list (string * FileChange) :=
  filter (fun e => String.eqb (path (snd e)) p) (events cs).

(** The authors of the file changes with path [p], one per change. *)
Definition touches (p : string) (cs : list CommitRecord) : list string :=
  map fst (events_of p cs).

Definition changes_of (p : string) (cs : list CommitRecord) : list FileChange :=
  map snd (events_of p cs).

(** Commit count, distinct developers, additions and deletions of a path
    over the window. *)
Definition commit_count (p : string) (cs : list CommitRecord) : Z :=
  len (changes_of p cs).

Definition developer_count (p : string) (cs : list CommitRecord) : Z :=
  len (Dashboard.distinct (touches p cs)).

Definition additions_of (p : string) (cs : list CommitRecord) : Z :=
  sum_Z (map additions (changes_of p cs)).

Definition deletions_of (p : string) (cs : list CommitRecord) : Z :=
  sum_Z (map deletions (changes_of p cs)).

(** The dashboard's accumulator as one loop over the events. *)
Definition event_step (d : Dict.t Dashboard.FileStat) (e : string * FileChange)
  : Dict.t Dashboard.FileStat :=
  Dict.upsert (path (snd e)) (Dashboard.bump (fst e) (snd e)) d.

Definition acc_of (o : option Dashboard.FileStat) : Dashboard.FileStat :=
  match o with
  | Some a => a
  | None => {| Dashboard.fs_commits := 0; Dashboard.fs_developers := [];
               Dashboard.fs_additions := 0; Dashboard.fs_deletions := 0 |}
  end.

Definition bump_all (E : list (string * FileChange))
    (o : option Dashboard.FileStat) : option Dashboard.FileStat :=
  fold_left (fun o e => Some (Dashboard.bump (fst e) (snd e) o)) E o.

(** Order by decreasing key. *)
Definition ge_key {A : Type} (key : A -> Z) (a b : A) : Prop :=
  (key b <= key a)%Z.

Definition high_risk (commits developers : Z) : Prop :=
  (Dashboard.RISK_HIGH_COMMITS < commits \/ Dashboard.RISK_HIGH_DEVELOPERS < developers)%Z.

Definition medium_risk (commits developers : Z) : Prop :=
  (Dashboard.RISK_MEDIUM_COMMITS < commits \/ Dashboard.RISK_MEDIUM_DEVELOPERS < developers)%Z.

(** A row of the hotspot table reports what the window holds for its
    path. *)
Definition row_sound (cs : list CommitRecord) (h : Dashboard.Hotspot) : Prop :=
  Dashboard.h_commits h = commit_count (Dashboard.h_path h) cs
  /\ Dashboard.h_developers h = developer_count (Dashboard.h_path h) cs
  /\ (Dashboard.risk_level h = Dashboard.high <-> high_risk (Dashboard.h_commits h) (Dashboard.h_developers h))
  /\ (Dashboard.risk_level h = Dashboard.medium <->
      ~ high_risk (Dashboard.h_commits h) (Dashboard.h_developers h)
      /\ medium_risk (Dashboard.h_commits h) (Dashboard.h_developers h))
  /\ (Dashboard.risk_level h = Dashboard.low <->
      ~ high_risk (Dashboard.h_commits h) (Dashboard.h_developers h)
      /\ ~ medium_risk (Dashboard.h_commits h) (Dashboard.h_developers h)).

(** The row of a file above the churn threshold. *)
Definition churn_entry (p : string) (s : Dashboard.FileStat) : Dashboard.ChurnFile :=
  {| Dashboard.c_path := p;
     Dashboard.c_additions := Dashboard.fs_additions s;
     Dashboard.c_deletions := Dashboard.fs_deletions s;
     Dashboard.churn := (Dashboard.fs_additions s + Dashboard.fs_deletions s)%Z;
     Dashboard.net_change := (Dashboard.fs_additions s - Dashboard.fs_deletions s)%Z;
     Dashboard.stability :=
       Dashboard.classify_stability (Z.abs (Dashboard.fs_additions s - Dashboard.fs_deletions s))
         (Dashboard.fs_additions s + Dashboard.fs_deletions s) |}.

(** The greatest churn for which the comparison with the threshold in
    binary64 is the comparison of the exact ratio with 3/10. *)
Definition EXACT_CHURN_BOUND : Z := 6004799503160661.

(** The distinct paths touched, in the order of their first touch. *)
Definition touched_paths (cs : list CommitRecord) : list string :=
  Dashboard.distinct (map path (flat_map files cs)).

(** The text after the last dot of a path, if it has a dot. *)
Fixpoint after_last_dot (s : string) : option string :=
  match s with
  | "" => None
  | String c r =>
      match after_last_dot r with
      | Some suffix => Some suffix
      | None => if code c =? 46 then Some r else None
      end
  end.

(** The last dot-separated field of a text: the text itself without dot. *)
Definition tail_field (s : string) : string :=
  match after_last_dot s with
  | Some suffix => suffix
  | None => s
  end.

(** The key of a path in the histograms. *)
Definition extension_key (p : string) : string :=
  match after_last_dot p with
  | Some suffix => ("." ++ suffix)%string
  | None => "(no extension)"
  end.

(** The key as the specification words it: the suffix itself. *)
Definition claimed_key (p : string) : string :=
  match after_last_dot p with
  | Some suffix => suffix
  | None => "(no extension)"
  end.

(** [c.get(k, 0)] *)
Definition counted (o : option Z) : Z :=
  match o with Some n => n | None => 0%Z end.

Definition count_key (k : string) (paths : list string) : Z :=
  len (filter (fun p => String.eqb (extension_key p) k) paths).

End AggregateSpec.

(* ------------------------------------------------------------------ *)
(** ** Sample texts *)

Module Samples.

(** Two records around a sentinel with too few fields; the first subject
    contains a pipe, the second record is a merge without files. *)
Definition sample_log : string :=
  ("COMMIT|abc|Erik|erik@x.org|2025-01-02 10:00:00 +0100|Fix a|b" ++ LF ++
   "3" ++ TAB ++ "1" ++ TAB ++ "src/a.py" ++ LF ++
   "-" ++ TAB ++ "-" ++ TAB ++ "img.png" ++ LF ++ LF ++
   "COMMIT|bad|line" ++ LF ++
   "7" ++ TAB ++ "7" ++ TAB ++ "dropped.c" ++ LF ++
   "COMMIT|def|John|j@x.org|2025-01-01 09:00:00 +0100|Merge")%string.

(** A record followed by a three-field line whose numbers are no numbers. *)
Definition malformed_log : string :=
  ("COMMIT|abc|Erik|erik@x.org|2025-01-02 10:00:00 +0100|Fix" ++ LF ++
   "x" ++ TAB ++ "y" ++ TAB ++ "z")%string.

End Samples.

(* ------------------------------------------------------------------ *)
(** ** Responses built from the parsers
       ([build_commit_history_json], [build_file_history_json],
        [build_branch_list_json], [build_developer_stats_json],
        [build_sync_json]) *)

Module Responses.

Import CommitHistory.

(** [str(n)] for an integer. *)
Definition str_of_Z (z : Z) : string := NilEmpty.string_of_int (Z.to_int z).

(** [f"{c['author_name']} <{c['author_email']}>"] *)
Definition author_label (h : Header) : string :=
  (author_name h ++ " <" ++ author_email h ++ ">")%string.

Record Filters : Type := mkFilters {
  f_branch : option string;
  f_max_count : option Z;
  f_since : option string;
  f_until : option string;
  f_author : option string
}.

Record HistorySummary : Type := mkHistorySummary {
  total_commits : Z;
  total_files_changed : Z;
  total_additions : Z;
  total_deletions : Z;
  authors : list string;
  earliest : option string;
  latest : option string
}.

Record HistoryJson : Type := mkHistoryJson {
  h_repo : string;
  h_filters : Filters;
  h_commits : list CommitRecord;
  h_summary : HistorySummary
}.

(** [git_commit_history.py], lines 106-124. *)
Definition history_summary (commits : list CommitRecord) : HistorySummary :=
  match commits with
  | [] =>
      {| total_commits := 0; total_files_changed := 0; total_additions := 0;
         total_deletions := 0; authors := []; earliest := None;
         latest := None |}
  | c0 :: _ =>
      {| total_commits := len commits;
         total_files_changed :=
           sum_Z (map (fun c => total_files (stats c)) commits);
         total_additions :=
           sum_Z (map (fun c => CommitHistory.total_additions (stats c)) commits);
         total_deletions :=
           sum_Z (map (fun c => CommitHistory.total_deletions (stats c)) commits);
         authors :=
           PyList.sorted_set (map (fun c => author_label (header c)) commits);
         earliest := Some (date (header (last commits c0)));
         latest := Some (date (header c0)) |}
  end.

Definition build_commit_history_json (repo_path : string) (commits_raw : string)
    (filters : Filters) : result HistoryJson :=
  commits <- parse_commit_history commits_raw ;;
  Ok {| h_repo := repo_path; h_filters := filters; h_commits := commits;
        h_summary := history_summary commits |}.

Record FileSummary : Type := mkFileSummary {
  fs_total_commits : Z;
  fs_total_additions : Z;
  fs_total_deletions : Z;
  unique_authors : list string;
  first_change : option string;
  last_change : option string
}.

Record FileJson : Type := mkFileJson {
  fj_repo : string;
  fj_path : string;
  fj_exists : bool;
  fj_commits : list FileChanges.FileHistoryRecord;
  fj_summary : FileSummary
}.

(** [git_file_changes.py], lines 109-126. *)
Definition file_summary (commits : list FileChanges.FileHistoryRecord)
  : FileSummary :=
  match commits with
  | [] =>
      {| fs_total_commits := 0; fs_total_additions := 0;
         fs_total_deletions := 0; unique_authors := []; first_change := None;
         last_change := None |}
  | c0 :: _ =>
      {| fs_total_commits := len commits;
         fs_total_additions :=
           sum_Z (map (fun c => FileChanges.additions (FileChanges.changes c))
                      commits);
         fs_total_deletions :=
           sum_Z (map (fun c => FileChanges.deletions (FileChanges.changes c))
                      commits);
         unique_authors :=
           PyList.sorted_set
             (map (fun c => author_label (FileChanges.header c)) commits);
         first_change := Some (date (FileChanges.header (last commits c0)));
         last_change := Some (date (FileChanges.header c0)) |}
  end.

(** [build_file_history_json]; [file_exists] is what [os.path.exists] says
    of the file in the repository. *)
Definition build_file_history_json (repo_path file_path : string)
    (file_exists : bool) (file_history_raw : string) : result FileJson :=
  commits <- FileChanges.parse_file_history file_history_raw file_path ;;
  Ok {| fj_repo := repo_path; fj_path := file_path; fj_exists := file_exists;
        fj_commits := commits; fj_summary := file_summary commits |}.

Record BranchJson : Type := mkBranchJson {
  b_repo : string;
  branches : list Branches.BranchRecord;
  total_branches : Z
}.

Definition build_branch_list_json (repo_path branches_raw : string)
  : BranchJson :=
  let bs := Branches.parse_branches branches_raw in
  {| b_repo := repo_path; branches := bs; total_branches := len bs |}.

Record DeveloperJson : Type := mkDeveloperJson {
  d_repo : string;
  identifier : string;
  matched_as : list string;
  d_since : option string;
  d_until : option string;
  first_commit : option string;
  last_commit : option string;
  d_stats : DeveloperStats.DevStats
}.

(** [git_developer_stats.py], lines 72-106. *)
Definition build_developer_stats_json (repo_path author commits_raw : string)
    (since until : option string) : result DeveloperJson :=
  commits <- parse_commit_history commits_raw ;;
  Ok {| d_repo := repo_path; identifier := author;
        matched_as :=
          PyList.sorted_set (map (fun c => author_label (header c)) commits);
        d_since := since; d_until := until;
        first_commit :=
          match commits with
          | [] => None
          | c0 :: _ => Some (date (header (last commits c0)))
          end;
        last_commit :=
          match commits with
          | [] => None
          | c0 :: _ => Some (date (header c0))
          end;
        d_stats := DeveloperStats.analyze_developer_stats commits |}.

Record SyncSummary : Type := mkSyncSummary {
  success : bool;
  s_remotes_synced : Z;
  s_branches_updated : Z;
  s_branches_pruned : Z;
  s_message : string
}.

Record SyncJson : Type := mkSyncJson {
  s_repo : string;
  operation : string;
  timestamp : string;
  sync_result : Sync.FetchSummary;
  status_after : Sync.StatusRecord;
  sync_summary : SyncSummary
}.

(** [git_sync.py], lines 193-204. *)
Definition sync_message (operation raw_output : string)
    (remotes updated pruned : Z) : string :=
  if String.eqb operation "fetch" then
    let m0 := ("Successfully fetched from " ++ str_of_Z remotes ++ " remote(s)")%string in
    let m1 := if (0 <? updated)%Z
              then (m0 ++ ", " ++ str_of_Z updated ++ " branch(es) updated")%string
              else m0 in
    if (0 <? pruned)%Z
    then (m1 ++ ", " ++ str_of_Z pruned ++ " branch(es) pruned")%string
    else m1
  else if contains "Already up to date" raw_output
          || contains "Already up-to-date" raw_output
  then "Already up to date with remote"
  else "Successfully pulled latest changes".

(** [build_sync_json]; [now] is the reading of the clock. *)
Definition build_sync_json (repo_path operation raw_output status_output now : string)
  : result SyncJson :=
  let sr := Sync.parse_fetch_output raw_output in
  status <- Sync.parse_status_output status_output ;;
  let remotes := len (Sync.remotes_synced sr) in
  let updated := len (Sync.branches_updated sr) in
  let pruned := len (Sync.branches_pruned sr) in
  Ok {| s_repo := repo_path; operation := operation; timestamp := now;
        sync_result := sr; status_after := status;
        sync_summary :=
          {| success := true;
             s_remotes_synced := remotes;
             s_branches_updated := updated;
             s_branches_pruned := pruned;
             s_message := sync_message operation raw_output
                            remotes updated pruned |} |}.

End Responses.

(* ------------------------------------------------------------------ *)
(** ** The registered operations ([register] of each tool module) *)

Module Operations.

Import Tools.

Section InWorld.

Variable w : World.

(** [get_commit_history_raw] with all its filters. *)
Definition get_commit_history_raw (repo_path : string)
    (f : Responses.Filters) : io string :=
  run_git w repo_path
    (["log"; "--numstat"; "--pretty=format:COMMIT|%H|%an|%ae|%ai|%s"]
     ++ [match Responses.f_branch f with
         | Some b => if nonempty b then b else "--all"
         | None => "--all"
         end]
     ++ match Responses.f_max_count f with
        | Some n => if (n =? 0)%Z then [] else [("-" ++ Responses.str_of_Z n)%string]
        | None => []
        end
     ++ option_arg "--since=" (Responses.f_since f)
     ++ option_arg "--until=" (Responses.f_until f)
     ++ option_arg "--author=" (Responses.f_author f)).

(** [get_commit_history] *)
Definition get_commit_history (repo_path : string) (f : Responses.Filters)
  : io Responses.HistoryJson :=
  _ <~ ensure_is_git_repo w repo_path ;;
  raw <~ get_commit_history_raw repo_path f ;;
  lift (Responses.build_commit_history_json repo_path raw f).

(** [get_branches_raw] and [get_branch_list] *)
Definition get_branches_raw (repo_path : string) : io string :=
  run_git w repo_path
    ["branch"; "--all"; "--format=%(refname:short)|%(committerdate:iso8601)";
     "--sort=-committerdate"].

Definition get_branch_list (repo_path : string) : io Responses.BranchJson :=
  _ <~ ensure_is_git_repo w repo_path ;;
  raw <~ get_branches_raw repo_path ;;
  ret (Responses.build_branch_list_json repo_path raw).

(** [get_developer_stats] *)
Definition get_developer_stats (repo_path author : string)
    (since until : option string) : io Responses.DeveloperJson :=
  _ <~ ensure_is_git_repo w repo_path ;;
  raw <~ Tools.get_commit_history_raw w repo_path since until (Some author) ;;
  lift (Responses.build_developer_stats_json repo_path author raw since until).

(** [get_file_history_raw] and [get_file_changes]; [file_exists] stands for
    [os.path.exists] on the joined path. *)
Definition get_file_history_raw (repo_path file_path : string)
    (since until : option string) (max_count : option Z) : io string :=
  run_git w repo_path
    (["log"; "--follow"; "--numstat";
      "--pretty=format:COMMIT|%H|%an|%ae|%ai|%s"]
     ++ match max_count with
        | Some n => if (n =? 0)%Z then [] else [("-" ++ Responses.str_of_Z n)%string]
        | None => []
        end
     ++ option_arg "--since=" since
     ++ option_arg "--until=" until
     ++ ["--"; file_path]).

Definition get_file_changes (file_exists : string -> string -> bool)
    (repo_path file_path : string) (since until : option string)
    (max_count : option Z) : io Responses.FileJson :=
  _ <~ ensure_is_git_repo w repo_path ;;
  raw <~ get_file_history_raw repo_path file_path since until max_count ;;
  lift (Responses.build_file_history_json repo_path file_path
          (file_exists repo_path file_path) raw).

(** [sync_repository_fetch], [sync_repository_pull], [get_sync_status] *)
Definition sync_repository_fetch (repo_path : string) : io string :=
  run_git w repo_path ["fetch"; "--all"; "--prune"; "--verbose"].

Definition sync_repository_pull (repo_path : string) (branch : option string)
  : io string :=
  match branch with
  | Some b =>
      if nonempty b then
        checkout_output <~ run_git w repo_path ["checkout"; b] ;;
        pull_output <~ run_git w repo_path ["pull"; "--verbose"] ;;
        ret (("CHECKOUT:" ++ LF ++ checkout_output) ++ LF ++ LF
             ++ ("PULL:" ++ LF ++ pull_output))%string
      else
        pull_output <~ run_git w repo_path ["pull"; "--verbose"] ;;
        ret ("PULL:" ++ LF ++ pull_output)%string
  | None =>
      pull_output <~ run_git w repo_path ["pull"; "--verbose"] ;;
      ret ("PULL:" ++ LF ++ pull_output)%string
  end.

Definition get_sync_status (repo_path : string) : io string :=
  run_git w repo_path ["status"; "--branch"; "--short"].

(** [sync_repository]; [now] is the reading of the clock when the response
    is built. *)
Definition sync_repository (now : string) (repo_path operation : string)
  : io Responses.SyncJson :=
  _ <~ ensure_is_git_repo w repo_path ;;
  if negb (String.eqb operation "fetch" || String.eqb operation "pull")
  then raise ValueError
  else
    raw_output <~ (if String.eqb operation "fetch"
                   then sync_repository_fetch repo_path
                   else sync_repository_pull repo_path None) ;;
    status_output <~ get_sync_status repo_path ;;
    lift (Responses.build_sync_json repo_path operation raw_output
            status_output now).

End InWorld.

(** The first word of a command. *)
Definition verb (cmd : string * list string) : string :=
  match snd cmd with
  | a :: _ => a
  | [] => ""
  end.

End Operations.

(* ------------------------------------------------------------------ *)
(** ** Commands as the operations issue them *)

Module Commands.

Definition check (repo_path : string) : string * list string :=
  (repo_path, ["rev-parse"; "--git-dir"]).

(** The log command of the comparison for one author. *)
Definition author_log (repo_path : string) (since until : option string)
    (author : string) : string * list string :=
  (repo_path,
   ["log"; "--numstat"; "--pretty=format:COMMIT|%H|%an|%ae|%ai|%s"; "--all"]
   ++ Tools.option_arg "--since=" since
   ++ Tools.option_arg "--until=" until
   ++ Tools.option_arg "--author=" (Some author)).



Definition status (repo_path : string) : string * list string :=
  (repo_path, ["status"; "--branch"; "--short"]).


End Commands.

(* ------------------------------------------------------------------ *)
(** ** Lines with readable numbers, and the file-history loop on lines *)

Module ParserSpec.

Definition is_ok {A : Type} (r : result A) : bool :=
  match r with Ok _ => true | Raise _ => false end.


(** The same for the file-history parser. *)
Definition file_numeric_ok (line : string) : bool :=
  let parts := split TAB line in
  negb (length parts =? 3)
  || (is_ok (FileChanges.numstat_field (item 0 parts))
      && is_ok (FileChanges.numstat_field (item 1 parts))).

(** The loop of [parse_file_history] and its final flush, on the lines. *)
Definition file_history_of_lines (lines : list string)
  : result (list FileChanges.FileHistoryRecord) :=
  st <- foldM FileChanges.step lines FileChanges.initial ;;
  Ok (FileChanges.flush st).

(** The record a sentinel opens in the file-history parser. *)
Definition file_opened (line : string) : option FileChanges.FileHistoryRecord :=
  if CommitLogSpec.valid_sentinel line
  then Some {| FileChanges.header := CommitLogSpec.header_of_line line;
               FileChanges.changes :=
                 {| FileChanges.additions := 0; FileChanges.deletions := 0;
                    FileChanges.file_path := None |} |}
  else None.

(** A text that does not begin with white space. *)
Definition starts_clean (s : string) : Prop :=
  match s with
  | "" => True
  | String c _ => is_space c = false
  end.

(** [a < b] on strings. *)
Definition str_lt (a b : string) : Prop := str_ltb a b = true.

(** The remote a stripped line of a fetch transcript names, if any: the
    second word of a line that contains [Fetching]. *)
Definition fetched_remote (line : string) : option string :=
  if contains "Fetching" line then
    match split_ws line with
    | _ :: r :: _ => Some r
    | _ => None
    end
  else None.

(** Whether a stripped line of a fetch transcript has an arrow. *)
Definition has_arrow (line : string) : bool :=
  nonempty line && contains "->" line.

Definition SLASH : nat := 47.

(** An update whose remote has no slash. *)
Definition clean_remote (u : Sync.BranchUpdate) : Prop :=
  TextSpec.count_char SLASH (Sync.remote u) = 0.

(** The status of a record follows from its counts. *)
Definition status_table (r : Sync.StatusRecord) : Prop :=
  (Sync.sync_status r = Sync.diverged <-> (0 < Sync.ahead r /\ 0 < Sync.behind r)%Z)
  /\ (Sync.sync_status r = Sync.ahead_of_remote <-> (0 < Sync.ahead r /\ Sync.behind r = 0)%Z)
  /\ (Sync.sync_status r = Sync.behind_remote <-> (Sync.ahead r = 0 /\ 0 < Sync.behind r)%Z)
  /\ (Sync.sync_status r = Sync.up_to_date <-> (Sync.ahead r = 0 /\ Sync.behind r = 0)%Z)
  /\ Sync.sync_status r <> Sync.unknown.

(** Whether the first line of a status report is a branch line. *)
Definition has_branch_line (raw : string) : bool :=
  match splitlines raw with
  | line0 :: _ => startswith "##" (strip line0)
  | [] => false
  end.

End ParserSpec.

(* ------------------------------------------------------------------ *)
(** ** Accumulators of the aggregators, one key at a time *)

Module AccumulatorSpec.

Import CommitHistory.

(** The new value of [file_stats[path]] in [analyze_developer_stats]. *)
Definition file_bump (f : FileChange) (o : option DeveloperStats.FileAcc)
  : DeveloperStats.FileAcc :=
  let a := match o with
           | Some a => a
           | None => {| DeveloperStats.acc_commits := 0;
                        DeveloperStats.acc_additions := 0;
                        DeveloperStats.acc_deletions := 0 |}
           end in
  {| DeveloperStats.acc_commits := DeveloperStats.acc_commits a + 1;
     DeveloperStats.acc_additions := DeveloperStats.acc_additions a + additions f;
     DeveloperStats.acc_deletions := DeveloperStats.acc_deletions a + deletions f |}%Z.

Definition file_acc_of (o : option DeveloperStats.FileAcc)
  : DeveloperStats.FileAcc :=
  match o with
  | Some a => a
  | None => {| DeveloperStats.acc_commits := 0;
               DeveloperStats.acc_additions := 0;
               DeveloperStats.acc_deletions := 0 |}
  end.

Definition file_bump_all (fl : list FileChange)
    (o : option DeveloperStats.FileAcc) : option DeveloperStats.FileAcc :=
  fold_left (fun o f => Some (file_bump f o)) fl o.

(** The file changes of a path over the commits. *)
Definition changes_with (p : string) (cs : list CommitRecord) : list FileChange :=
  filter (fun f => String.eqb (path f) p) (flat_map files cs).

(** The rows of [most_active_files] before they are sorted and cut. *)
Definition activity_row (entry : string * DeveloperStats.FileAcc)
  : DeveloperStats.FileActivity :=
  {| DeveloperStats.fa_path := fst entry;
     DeveloperStats.fa_commits := DeveloperStats.acc_commits (snd entry);
     DeveloperStats.fa_additions := DeveloperStats.acc_additions (snd entry);
     DeveloperStats.fa_deletions := DeveloperStats.acc_deletions (snd entry) |}.

(** The commits of a developer. *)
Definition commits_by (dev : string) (cs : list CommitRecord) : list CommitRecord :=
  filter (fun c => String.eqb (author_name (header c)) dev) cs.

(** All file changes, and the authors of the commits. *)
Definition all_changes (cs : list CommitRecord) : list FileChange :=
  flat_map files cs.

Definition authors_of (cs : list CommitRecord) : list string :=
  map (fun c => author_name (header c)) cs.

End AccumulatorSpec.

(* ================================================================== *)
(** * Properties *)

(* ------------------------------------------------------------------ *)
(** ** Loops with early exit *)

Lemma bind_Ok_inv {A B : Type} (m : result A) (k : A -> result B) (b : B) :
  (x <- m ;; k x) = Ok b -> exists a, m = Ok a /\ k a = Ok b.
Proof.
  destruct m as [a | e]; simpl; intros H.
  - exists a. split; [reflexivity | exact H].
  - discriminate H.
Qed.

Lemma foldM_app {S A : Type} (f : S -> A -> result S) (l1 l2 : list A) (s : S) :
  foldM f (l1 ++ l2) s = (s' <- foldM f l1 s ;; foldM f l2 s').
Proof.
  revert s. induction l1 as [| x l1 IH]; intros s; simpl.
  - reflexivity.
  - destruct (f s x) as [s' | e]; simpl; [apply IH | reflexivity].
Qed.

(** An invariant kept by every step holds when the loop ends normally. *)
Lemma foldM_invariant {S A : Type} (P : S -> Prop) (f : S -> A -> result S) :
  (forall s x s', P s -> f s x = Ok s' -> P s') ->
  forall l s s', P s -> foldM f l s = Ok s' -> P s'.
Proof.
  intros Hstep l. induction l as [| x l IH]; simpl; intros s s' Hs Hrun.
  - injection Hrun as <-. exact Hs.
  - apply bind_Ok_inv in Hrun. destruct Hrun as (s1 & H1 & H2).
    eapply IH; [eapply Hstep; eassumption | exact H2].
Qed.

(* ------------------------------------------------------------------ *)
(** ** Commit-log parser: the stats of a record *)

Section CommitStats.

Import CommitHistory CommitLogSpec.

Lemma close_commit_consistent (c : Pending) : stats_consistent (close_commit c).
Proof. unfold stats_consistent; simpl; auto. Qed.

Lemma flush_consistent (st : pstate) :
  Forall stats_consistent (commits st) -> Forall stats_consistent (flush st).
Proof.
  intros H. unfold flush. destruct (current_commit st) as [c |]; [| exact H].
  apply Forall_app. split; [exact H |].
  constructor; [apply close_commit_consistent | constructor].
Qed.

Lemma step_consistent (st : pstate) (line : string) (st' : pstate) :
  Forall stats_consistent (commits st) ->
  step st line = Ok st' ->
  Forall stats_consistent (commits st').
Proof.
  intros H. unfold step.
  destruct (startswith "COMMIT|" (strip line)).
  - destruct (negb (length (split_max "|" 5 (strip line)) =? 6));
      intros E; injection E as <-; simpl; apply flush_consistent, H.
  - destruct (current_commit st) as [c |].
    + destruct (nonempty (strip line)).
      * intros E. apply bind_Ok_inv in E. destruct E as (c' & _ & E).
        injection E as <-. exact H.
      * intros E; injection E as <-; exact H.
    + intros E; injection E as <-; exact H.
Qed.

Lemma parse_lines_consistent (lines : list string) (cs : list CommitRecord) :
  parse_lines lines = Ok cs -> Forall stats_consistent cs.
Proof.
  unfold parse_lines. intros E.
  apply bind_Ok_inv in E. destruct E as (st & Hrun & E).
  injection E as <-. apply flush_consistent.
  revert Hrun. apply foldM_invariant with (P := fun s => Forall stats_consistent (commits s)).
  - intros s x s'. apply step_consistent.
  - constructor.
Qed.

End CommitStats.

(** C1. Whatever the text, every record the commit-log parser returns has
    [total_files] equal to the number of its files and [total_additions],
    [total_deletions] equal to the sums of the additions and deletions of
    its files. *)
Theorem parse_commit_history_stats (raw : string)
    (cs : list CommitHistory.CommitRecord) :
  CommitHistory.parse_commit_history raw = Ok cs ->
  Forall CommitLogSpec.stats_consistent cs.
Proof.
  unfold CommitHistory.parse_commit_history.
  destruct (negb (nonempty raw)).
  - intros E; injection E as <-. constructor.
  - apply parse_lines_consistent.
Qed.

Lemma parse_commit_history_stats_witness :
  exists cs,
    CommitHistory.parse_commit_history Samples.sample_log = Ok cs
    /\ length cs = 2
    /\ Forall CommitLogSpec.stats_consistent cs.
Proof.
  eexists. split; [vm_compute; reflexivity |].
  split; [reflexivity |].
  apply (parse_commit_history_stats Samples.sample_log). vm_compute. reflexivity.
Defined.

(* ------------------------------------------------------------------ *)
(** ** Malformed numeric fields *)

(** C3. A three-field line under an open record whose numeric fields are
    neither integers nor the dash makes both history parsers raise
    [ValueError]; the dash itself is read as 0. *)
Theorem parsers_raise_on_malformed_numstat :
  CommitHistory.parse_commit_history Samples.malformed_log = Raise ValueError
  /\ FileChanges.parse_file_history Samples.malformed_log "z" = Raise ValueError
  /\ CommitHistory.numstat_field "-" = Ok 0%Z
  /\ FileChanges.numstat_field "-" = Ok 0%Z.
Proof. repeat split; vm_compute; reflexivity. Qed.

(* ------------------------------------------------------------------ *)
(** ** Empty inputs *)

(** C4. On the empty text every parser returns the empty sequence of
    records (the fetch parser empty collections, the status parser null
    branches, zero counts and the status [unknown]); on the empty sequence
    every aggregator returns zero totals and empty collections, and
    [compare_developers] five null rankings and four zero totals, leaving
    its argument empty. None of them raises. The floating-point operations
    of the dashboard are arbitrary. *)
Theorem empty_input_results (pyfloat : Type)
    (days_between : string -> string -> option Z)
    (round1_div round1_percent : Z -> Z -> pyfloat)
    (float_ltb : pyfloat -> Z -> bool) :
  CommitHistory.parse_commit_history "" = Ok []
  /\ (forall target, FileChanges.parse_file_history "" target = Ok [])
  /\ Branches.parse_branches "" = []
  /\ Sync.parse_fetch_output "" =
       {| Sync.remotes_synced := []; Sync.branches_updated := [];
          Sync.branches_pruned := []; Sync.raw_output := "" |}
  /\ Sync.parse_status_output "" =
       Ok {| Sync.current_branch := None; Sync.tracking := None;
             Sync.ahead := 0; Sync.behind := 0;
             Sync.sync_status := Sync.unknown |}
  /\ DeveloperStats.analyze_developer_stats [] =
       {| DeveloperStats.total_commits := 0;
          DeveloperStats.total_files_changed := 0;
          DeveloperStats.total_additions := 0;
          DeveloperStats.total_deletions := 0;
          DeveloperStats.most_active_files := [];
          DeveloperStats.file_types := [] |}
  /\ CompareDevelopers.compare_developers [] =
       ([],
        {| CompareDevelopers.rankings :=
             {| CompareDevelopers.most_commits := None;
                CompareDevelopers.most_files_changed := None;
                CompareDevelopers.most_additions := None;
                CompareDevelopers.most_deletions := None;
                CompareDevelopers.most_active := None |};
           CompareDevelopers.totals :=
             {| CompareDevelopers.total_commits := 0;
                CompareDevelopers.total_files_changed := 0;
                CompareDevelopers.total_additions := 0;
                CompareDevelopers.total_deletions := 0 |} |})
  /\ Dashboard.analyze_executive_summary pyfloat days_between round1_div [] =
       {| Dashboard.total_commits := 0; Dashboard.total_developers := 0;
          Dashboard.total_files_changed := 0; Dashboard.total_additions := 0;
          Dashboard.total_deletions := 0; Dashboard.net_lines := 0;
          Dashboard.avg_commits_per_day := Dashboard.Int pyfloat 0 |}
  /\ Dashboard.analyze_team_performance pyfloat round1_percent float_ltb [] =
       {| Dashboard.top_contributors := []; Dashboard.developer_count := 0;
          Dashboard.active_developers := 0; Dashboard.alerts := [] |}
  /\ Dashboard.analyze_code_health pyfloat round1_percent [] =
       {| Dashboard.hotspots := []; Dashboard.health_high_churn_files := [];
          Dashboard.file_types_distribution := [] |}.
Proof. repeat split. Qed.

(* ------------------------------------------------------------------ *)
(** ** Maximum by key *)

Section MaxBy.

Import AggregateSpec.

Context {A : Type}.

Lemma max_by_scan (key : A -> Z) (l l1 l2 : list A) (b : A) :
  (forall y, In y l1 -> (key y < key b)%Z) ->
  (forall y, In y l2 -> (key y <= key b)%Z) ->
  first_max key (l1 ++ b :: l2 ++ l)
    (fold_left (fun best y => if (key best <? key y)%Z then y else best) l b).
Proof.
  revert l1 l2 b. induction l as [| y l IH]; intros l1 l2 b H1 H2; simpl.
  - exists l1, l2. rewrite app_nil_r. auto.
  - destruct (key b <? key y)%Z eqn:E.
    + apply Z.ltb_lt in E.
      replace (l1 ++ b :: l2 ++ y :: l) with ((l1 ++ b :: l2) ++ y :: [] ++ l)
        by (rewrite <- app_assoc; reflexivity).
      apply IH.
      * intros z Hz. apply in_app_or in Hz. destruct Hz as [Hz | [<- | Hz]].
        -- specialize (H1 z Hz). lia.
        -- exact E.
        -- specialize (H2 z Hz). lia.
      * intros z [].
    + apply Z.ltb_ge in E.
      replace (l1 ++ b :: l2 ++ y :: l) with (l1 ++ b :: (l2 ++ [y]) ++ l)
        by (rewrite <- app_assoc; reflexivity).
      apply IH; [exact H1 |].
      intros z Hz. apply in_app_or in Hz. destruct Hz as [Hz | [<- | []]].
      -- apply H2, Hz.
      -- exact E.
Qed.

Lemma max_by_first_max (key : A -> Z) (x : A) (l : list A) :
  first_max key (x :: l) (PyList.max_by key x l).
Proof.
  apply (max_by_scan key l [] [] x); intros y [].
Qed.

Lemma first_max_ext (key key' : A -> Z) (l : list A) (x : A) :
  (forall a, key a = key' a) -> first_max key l x -> first_max key' l x.
Proof.
  intros E (l1 & l2 & -> & H1 & H2). exists l1, l2.
  split; [reflexivity |]. split; intros y Hy; rewrite <- !E; auto.
Qed.

Lemma max_by_map {B : Type} (f : A -> B) (key : B -> Z) (x : A) (l : list A) :
  PyList.max_by key (f x) (map f l)
  = f (PyList.max_by (fun a => key (f a)) x l).
Proof.
  unfold PyList.max_by. revert x.
  induction l as [| y l IH]; intros x; simpl; [reflexivity |].
  destruct (key (f x) <? key (f y))%Z; apply IH.
Qed.

End MaxBy.

(* ------------------------------------------------------------------ *)
(** ** Developer comparison *)

Section Comparison.

Import CompareDevelopers AggregateSpec.

Lemma store_score_keeps (key : Entry -> Z) (l : list Entry) :
  (forall a, key (store_score a) = key a) ->
  map key (map store_score l) = map key l.
Proof.
  intros E. rewrite map_map. apply map_ext. exact E.
Qed.

(** The pick of a ranking whose key reads [key'] of the original entry. *)
Lemma ranking_pick (key key' : Entry -> Z) (e : Entry) (es : list Entry) :
  (forall a, key (store_score a) = key' a) ->
  exists w,
    first_max key' (e :: es) w
    /\ pick key (PyList.max_by key (store_score e) (map store_score es))
       = Some {| pick_developer := developer w; value := key' w |}.
Proof.
  intros E. rewrite max_by_map.
  exists (PyList.max_by (fun a => key (store_score a)) e es). split.
  - apply first_max_ext with (key := fun a => key (store_score a)); [exact E |].
    apply max_by_first_max.
  - unfold pick. rewrite E. reflexivity.
Qed.

Lemma store_score_twice (a : Entry) : store_score (store_score a) = store_score a.
Proof. reflexivity. Qed.

End Comparison.

(** C5. On a non-empty list the comparator returns five rankings, each
    naming the first developer of the list whose metric is greatest
    (commits, files changed, additions, deletions, and additions plus
    deletions) with that value, and totals that are the sums over the list;
    the test's team gives Erik/45, John/150, Erik/2500, John/1200,
    Erik/3300 and the totals 113, 365, 6400, 2600. *)
Theorem compare_developers_rankings (e : CompareDevelopers.Entry)
    (es : list CompareDevelopers.Entry) :
  let ds := e :: es in
  let r := snd (CompareDevelopers.compare_developers ds) in
  let ranked key got :=
    exists w, AggregateSpec.first_max key ds w
      /\ got = Some {| CompareDevelopers.pick_developer := CompareDevelopers.developer w;
                       CompareDevelopers.value := key w |} in
  ranked CompareDevelopers.commits_of
    (CompareDevelopers.most_commits (CompareDevelopers.rankings r))
  /\ ranked CompareDevelopers.files_changed_of
       (CompareDevelopers.most_files_changed (CompareDevelopers.rankings r))
  /\ ranked CompareDevelopers.additions_of
       (CompareDevelopers.most_additions (CompareDevelopers.rankings r))
  /\ ranked CompareDevelopers.deletions_of
       (CompareDevelopers.most_deletions (CompareDevelopers.rankings r))
  /\ ranked (fun x => CompareDevelopers.additions_of x
                      + CompareDevelopers.deletions_of x)%Z
       (CompareDevelopers.most_active (CompareDevelopers.rankings r))
  /\ CompareDevelopers.totals r =
       {| CompareDevelopers.total_commits :=
            sum_Z (map CompareDevelopers.commits_of ds);
          CompareDevelopers.total_files_changed :=
            sum_Z (map CompareDevelopers.files_changed_of ds);
          CompareDevelopers.total_additions :=
            sum_Z (map CompareDevelopers.additions_of ds);
          CompareDevelopers.total_deletions :=
            sum_Z (map CompareDevelopers.deletions_of ds) |}
  /\ snd (CompareDevelopers.compare_developers CompareDevelopers.example_team) =
       {| CompareDevelopers.rankings :=
            {| CompareDevelopers.most_commits :=
                 Some (CompareDevelopers.mkPick "Erik" 45);
               CompareDevelopers.most_files_changed :=
                 Some (CompareDevelopers.mkPick "John" 150);
               CompareDevelopers.most_additions :=
                 Some (CompareDevelopers.mkPick "Erik" 2500);
               CompareDevelopers.most_deletions :=
                 Some (CompareDevelopers.mkPick "John" 1200);
               CompareDevelopers.most_active :=
                 Some (CompareDevelopers.mkPick "Erik" 3300) |};
          CompareDevelopers.totals :=
            CompareDevelopers.mkTotals 113 365 6400 2600 |}.
Proof.
  intros ds r ranked. subst ds r ranked. cbv zeta.
  unfold CompareDevelopers.compare_developers. cbn [snd].
  cbn [CompareDevelopers.rankings CompareDevelopers.totals
       CompareDevelopers.most_commits CompareDevelopers.most_files_changed
       CompareDevelopers.most_additions CompareDevelopers.most_deletions
       CompareDevelopers.most_active].
  repeat split.
  - apply ranking_pick. reflexivity.
  - apply ranking_pick. reflexivity.
  - apply ranking_pick. reflexivity.
  - apply ranking_pick. reflexivity.
  - apply ranking_pick. reflexivity.
  - change (CompareDevelopers.store_score e :: map CompareDevelopers.store_score es)
      with (map CompareDevelopers.store_score (e :: es)).
    rewrite !store_score_keeps by reflexivity. reflexivity.
Qed.

(** C10 as stated fails for the comparator: after the call the entries of
    the test's team carry a key they did not have. *)
Lemma compare_developers_changes_its_argument :
  fst (CompareDevelopers.compare_developers CompareDevelopers.example_team)
  <> CompareDevelopers.example_team.
Proof. vm_compute. discriminate. Qed.

(** C10, amended. The comparator leaves the list with the same entries in
    the same order, each with its developer and the keys of its statistics
    unchanged and, when the list is not empty, with [activity_score] set to
    additions plus deletions; a second run on the list so left changes
    nothing more and returns the same comparison. The statistics aggregator
    and the dashboard analyses only read their argument and are functions
    of it. *)
Theorem compare_developers_frame (ds : list CompareDevelopers.Entry) :
  let after := fst (CompareDevelopers.compare_developers ds) in
  Forall2
    (fun before now =>
       CompareDevelopers.developer now = CompareDevelopers.developer before
       /\ CompareDevelopers.base (CompareDevelopers.stats now)
          = CompareDevelopers.base (CompareDevelopers.stats before)
       /\ CompareDevelopers.activity_score (CompareDevelopers.stats now)
          = Some (CompareDevelopers.additions_of before
                  + CompareDevelopers.deletions_of before)%Z)
    ds after
  /\ CompareDevelopers.compare_developers after
     = (after, snd (CompareDevelopers.compare_developers ds)).
Proof.
  cbv zeta. destruct ds as [| e es].
  - split; [constructor | reflexivity].
  - unfold CompareDevelopers.compare_developers at 1. cbn [fst].
    change (CompareDevelopers.store_score e :: map CompareDevelopers.store_score es)
      with (map CompareDevelopers.store_score (e :: es)).
    split.
    + generalize (e :: es). intros l. induction l as [| a l IH]; simpl.
      * constructor.
      * constructor; [repeat split | exact IH].
    + unfold CompareDevelopers.compare_developers. cbn [map fst snd].
      rewrite map_map.
      rewrite (map_ext (fun x => CompareDevelopers.store_score
                                   (CompareDevelopers.store_score x))
                       CompareDevelopers.store_score)
        by (intros a; apply store_score_twice).
      reflexivity.
Qed.

(* ------------------------------------------------------------------ *)
(** ** The comparison operation and the external tool *)

Section Operation.

Import Tools.

Variable w : World.

Lemma run_git_trace (repo : string) (args : list string) (t : Trace) :
  fst (run_git w repo args t) = t
  \/ fst (run_git w repo args t) = t ++ [(repo, args)].
Proof.
  unfold run_git. destruct (git_on_path w); simpl; auto.
Qed.

(** The check starts at most the one command [rev-parse --git-dir]. *)
Lemma ensure_is_git_repo_trace (repo : string) (t : Trace) :
  fst (ensure_is_git_repo w repo t) = t
  \/ fst (ensure_is_git_repo w repo t)
     = t ++ [(repo, ["rev-parse"; "--git-dir"])].
Proof.
  unfold ensure_is_git_repo.
  destruct (negb (nonempty repo)); [left; reflexivity |].
  destruct (negb (isdir w repo)); [left; reflexivity |].
  unfold bind_io, run_git, ret.
  destruct (git_on_path w); [| left; reflexivity].
  right. destruct (git w (length t) repo ["rev-parse"; "--git-dir"]); reflexivity.
Qed.

Lemma invalid_author_count (repo : string) (authors : list string)
    (since until : option string) (t : Trace) :
  length authors < 2 \/ 10 < length authors ->
  compare_developer_stats w repo authors since until t
  = match ensure_is_git_repo w repo t with
    | (t', Ok _) => (t', Raise ValueError)
    | (t', Raise e) => (t', Raise e)
    end.
Proof.
  intros H. unfold compare_developer_stats, bind_io.
  destruct (ensure_is_git_repo w repo t) as [t' [[] | e]]; [| reflexivity].
  destruct (length authors <? 2) eqn:E2; [reflexivity |].
  destruct (10 <? length authors) eqn:E10; [reflexivity |].
  apply Nat.ltb_ge in E2. apply Nat.ltb_ge in E10. lia.
Qed.

End Operation.

(** C9 as stated fails where the path is no directory: the check of the
    repository comes first and its error is the one raised. *)
Lemma invalid_count_not_always_value_error :
  ~ (forall (w : Tools.World) (repo : string) (authors : list string),
        length authors < 2 \/ 10 < length authors ->
        snd (Tools.compare_developer_stats w repo authors None None [])
        = Raise ValueError).
Proof.
  intros H.
  specialize (H Tools.no_repository "/srv/none" ["Erik"] (or_introl (Nat.lt_succ_diag_r 1))).
  vm_compute in H. discriminate H.
Qed.

(** C9, amended. With fewer than 2 or more than 10 author names the
    operation never returns a value and never starts a [log] command: the
    only command it may have started is the repository check; and when that
    check passes, the error raised is [ValueError]. *)
Theorem compare_developer_stats_rejects_eagerly (w : Tools.World)
    (repo : string) (authors : list string) (since until : option string) :
  length authors < 2 \/ 10 < length authors ->
  let run := Tools.compare_developer_stats w repo authors since until [] in
  (exists e, snd run = Raise e)
  /\ existsb Tools.is_log_command (fst run) = false
  /\ (fst run = [] \/ fst run = [(repo, ["rev-parse"; "--git-dir"])])
  /\ (snd (Tools.ensure_is_git_repo w repo []) = Ok tt ->
      snd run = Raise ValueError).
Proof.
  intros H run. subst run.
  rewrite (invalid_author_count w repo authors since until [] H).
  pose proof (ensure_is_git_repo_trace w repo []) as Ht.
  destruct (Tools.ensure_is_git_repo w repo []) as [t' [[] | e]];
    cbn [fst snd] in *.
  - split; [eexists; reflexivity |].
    split; [destruct Ht as [-> | ->]; reflexivity |].
    split; [exact Ht | reflexivity].
  - split; [eexists; reflexivity |].
    split; [destruct Ht as [-> | ->]; reflexivity |].
    split; [exact Ht | discriminate].
Qed.

Lemma compare_developer_stats_rejects_eagerly_witness :
  (length ["Erik"] < 2 \/ 10 < length ["Erik"])
  /\ snd (Tools.compare_developer_stats Tools.quiet_repository "/srv/repo"
            ["Erik"] None None []) = Raise ValueError.
Proof.
  assert (H : length ["Erik"] < 2 \/ 10 < length ["Erik"]) by (left; simpl; lia).
  split; [exact H |].
  destruct (compare_developer_stats_rejects_eagerly Tools.quiet_repository
              "/srv/repo" ["Erik"] None None H) as (_ & _ & _ & Hv).
  apply Hv. reflexivity.
Defined.

(* ------------------------------------------------------------------ *)
(** ** Splitting at a one-character separator *)

Lemma count_char_app (n : nat) (a b : string) :
  TextSpec.count_char n (a ++ b)%string
  = TextSpec.count_char n a + TextSpec.count_char n b.
Proof.
  induction a as [| c a IH]; simpl; [reflexivity |]. rewrite IH. lia.
Qed.

Section SplitChar.

Import TextSpec.

(** The separator: a code below 256 and the text of that one character. *)
Variable n : nat.
Hypothesis n_small : n < 256.

Let sep : string := str1 (chr n).

Lemma code_chr : code (chr n) = n.
Proof. unfold code, chr. apply nat_ascii_embedding. exact n_small. Qed.

Lemma code_eqb_chr (c : ascii) : (code c =? n) = true <-> c = chr n.
Proof.
  rewrite Nat.eqb_eq. split.
  - intros E. unfold chr. rewrite <- E. unfold code.
    symmetry. apply ascii_nat_embedding.
  - intros ->. apply code_chr.
Qed.

Lemma prefix_sep (c : ascii) (r : string) :
  String.prefix sep (String c r) = (code c =? n).
Proof.
  unfold sep, str1. simpl.
  destruct (ascii_dec (chr n) c) as [E | E].
  - subst c. rewrite code_chr, Nat.eqb_refl. destruct r; reflexivity.
  - destruct (code c =? n) eqn:Ec; [| reflexivity].
    apply code_eqb_chr in Ec. congruence.
Qed.

Lemma split_go_zero (s : string) : split_go sep 0 0 s = [s].
Proof. destruct s; reflexivity. Qed.

(** One cut, then the rest: the recursion [split] follows. *)
Lemma split_max_cut (k : nat) (s : string) :
  split_max sep (S k) s =
  match cut_at n s with
  | Some (a, b) => a :: split_max sep k b
  | None => [s]
  end.
Proof.
  unfold split_max. induction s as [| c r IH].
  - reflexivity.
  - cbn [split_go cut_at]. rewrite prefix_sep.
    destruct (code c =? n) eqn:Ec.
    + reflexivity.
    + rewrite IH. destruct (cut_at n r) as [[a b] |]; reflexivity.
Qed.

Lemma cut_at_Some (s a b : string) :
  cut_at n s = Some (a, b) ->
  s = (a ++ sep ++ b)%string /\ count_char n a = 0.
Proof.
  revert a. induction s as [| c r IH]; intros a; simpl; [discriminate |].
  destruct (code c =? n) eqn:Ec.
  - intros E; injection E as <- <-. apply code_eqb_chr in Ec. subst c.
    split; reflexivity.
  - destruct (cut_at n r) as [[a' b'] |]; [| discriminate].
    intros E; injection E as <- <-.
    destruct (IH a' eq_refl) as [-> Hc]. split; [reflexivity |].
    simpl. rewrite Ec. exact Hc.
Qed.

Lemma cut_at_None (s : string) :
  cut_at n s = None <-> count_char n s = 0.
Proof.
  induction s as [| c r IH]; simpl; [tauto |].
  destruct (code c =? n).
  - split; [discriminate | intros H; discriminate H].
  - destruct (cut_at n r) as [[a b] |].
    + split; [discriminate |]. intros H. apply IH in H. discriminate H.
    + simpl. split; [intros _; apply IH; reflexivity | reflexivity].
Qed.

Lemma cut_at_app (a b : string) :
  count_char n a = 0 -> cut_at n (a ++ sep ++ b)%string = Some (a, b).
Proof.
  induction a as [| c a IH]; intros H.
  - unfold sep, str1. cbn [append cut_at].
    rewrite code_chr, Nat.eqb_refl. reflexivity.
  - cbn [count_char] in H. cbn [append cut_at].
    destruct (code c =? n); [discriminate H |].
    rewrite (IH H). reflexivity.
Qed.

Lemma count_char_sep : count_char n sep = 1.
Proof. unfold sep, str1. simpl. rewrite code_chr, Nat.eqb_refl. reflexivity. Qed.

(** A cap of [k] cuts gives one field more than there are cuts to make. *)
Lemma split_max_length (k : nat) (s : string) :
  length (split_max sep k s) = S (Nat.min k (count_char n s)).
Proof.
  revert s. induction k as [| k IH]; intros s.
  - unfold split_max. rewrite split_go_zero. reflexivity.
  - rewrite split_max_cut. destruct (cut_at n s) as [[a b] |] eqn:E.
    + apply cut_at_Some in E. destruct E as [-> Ha].
      cbn [length]. rewrite IH, !count_char_app, count_char_sep, Ha. simpl.
      reflexivity.
    + apply cut_at_None in E. rewrite E, Nat.min_0_r. reflexivity.
Qed.

(** A first field without separator is cut off as it stands. *)
Lemma split_max_app (k : nat) (a b : string) :
  count_char n a = 0 ->
  split_max sep (S k) (a ++ sep ++ b)%string = a :: split_max sep k b.
Proof.
  intros H. rewrite split_max_cut, (cut_at_app a b H). reflexivity.
Qed.

End SplitChar.

(* ------------------------------------------------------------------ *)
(** ** Branch-list parser *)

Section BranchList.

Import Branches BranchListSpec TextSpec.

Lemma small_pipe : PIPE < 256.
Proof. unfold PIPE. lia. Qed.

Lemma split_pipe_cut (k : nat) (s : string) :
  split_max "|" (S k) s =
  match cut_at PIPE s with
  | Some (a, b) => a :: split_max "|" k b
  | None => [s]
  end.
Proof. exact (split_max_cut PIPE small_pipe k s). Qed.

Lemma split_pipe_zero (s : string) : split_max "|" 0 s = [s].
Proof. exact (split_go_zero PIPE s). Qed.

Lemma record_of_empty : record_of "" = None.
Proof. reflexivity. Qed.

(** The body of the loop, on the stripped line. *)
Lemma branch_of_line_record (raw_line : string) :
  branch_of_line raw_line = record_of (strip raw_line).
Proof.
  unfold branch_of_line, record_of.
  destruct (strip raw_line) as [| c r] eqn:E; [reflexivity |].
  cbn [nonempty negb]. rewrite split_pipe_cut.
  destruct (cut_at PIPE (String c r)) as [[a b] |]; [| reflexivity].
  rewrite split_pipe_zero.
  cbn [length Nat.eqb negb orb item nth].
  destruct (nonempty (strip a)); reflexivity.
Qed.

Lemma parse_branches_loop (lines : list string) (acc : list BranchRecord) :
  fold_left
    (fun branches line =>
       match branch_of_line line with
       | Some b => branches ++ [b]
       | None => branches
       end) lines acc
  = acc ++ keep_some record_of (map strip lines).
Proof.
  revert acc. induction lines as [| l lines IH]; intros acc; simpl.
  - symmetry. apply app_nil_r.
  - rewrite IH, branch_of_line_record.
    destruct (record_of (strip l)); [| reflexivity].
    rewrite <- app_assoc. reflexivity.
Qed.

End BranchList.

(** C8 as stated fails on a line with a name and nothing after the pipe:
    the parser keeps it, with an empty date. *)
Lemma parse_branches_keeps_empty_date :
  Branches.parse_branches "main|"
  = [ {| Branches.name := "main"; Branches.last_commit_date := "" |} ]
  /\ Branches.parse_branches "main|" <> BranchListSpec.claimed_branches "main|".
Proof. split; [reflexivity | vm_compute; discriminate]. Qed.

(** C8, amended. The branch-list parser returns, in the order of the
    input and without reordering, one record for each line that, once
    stripped, has a pipe and a name before its first pipe that is not
    blank: the name is the stripped text before the first pipe, the date
    the stripped text after it, which may be empty and may contain pipes.
    Blank lines and all other lines are dropped. *)
Theorem parse_branches_keeps_named_lines :
  (forall raw : string,
      Branches.parse_branches raw
      = BranchListSpec.keep_some BranchListSpec.record_of
          (map strip (splitlines raw)))
  /\ (forall line a b : string,
         TextSpec.cut_at TextSpec.PIPE line = Some (a, b) ->
         line = (a ++ "|" ++ b)%string /\ TextSpec.count_char TextSpec.PIPE a = 0)
  /\ (forall line : string,
         TextSpec.cut_at TextSpec.PIPE line = None
         <-> TextSpec.count_char TextSpec.PIPE line = 0)
  /\ BranchListSpec.record_of "" = None.
Proof.
  split; [| split; [| split]].
  - intros raw. unfold Branches.parse_branches.
    rewrite parse_branches_loop. reflexivity.
  - intros line a b. exact (cut_at_Some TextSpec.PIPE small_pipe line a b).
  - intros line. exact (cut_at_None TextSpec.PIPE line).
  - reflexivity.
Qed.

Lemma parse_branches_keeps_named_lines_witness :
  TextSpec.cut_at TextSpec.PIPE "main|2025-01-02" = Some ("main", "2025-01-02")
  /\ "main|2025-01-02" = ("main" ++ "|" ++ "2025-01-02")%string.
Proof.
  assert (H : TextSpec.cut_at TextSpec.PIPE "main|2025-01-02"
              = Some ("main", "2025-01-02")) by reflexivity.
  split; [exact H |].
  destruct parse_branches_keeps_named_lines as (_ & Hcut & _).
  exact (proj1 (Hcut _ _ _ H)).
Defined.

(* ------------------------------------------------------------------ *)
(** ** Commit-log parser: where records begin and end *)

Section CommitFraming.

Import CommitHistory CommitLogSpec TextSpec.

Lemma bind_ret {A : Type} (m : result A) : (x <- m ;; Ok x) = m.
Proof. destruct m; reflexivity. Qed.

Lemma six_fields (line : string) :
  (length (split_max "|" 5 line) =? 6) = (5 <=? count_char PIPE line).
Proof.
  pose proof (split_max_length PIPE small_pipe 5 line) as H.
  change (str1 (chr PIPE)) with "|" in H. rewrite H.
  destruct (5 <=? count_char PIPE line) eqn:E.
  - apply Nat.leb_le in E. apply Nat.eqb_eq. lia.
  - apply Nat.leb_gt in E. apply Nat.eqb_neq. lia.
Qed.

Lemma six_fields_iff (line : string) :
  length (split_max "|" 5 line) = 6 <-> 5 <= count_char PIPE line.
Proof.
  rewrite <- Nat.eqb_eq, six_fields. apply Nat.leb_le.
Qed.

(** A sentinel closes the record before it and opens one if it is valid. *)
Lemma step_sentinel (st : pstate) (l : string) :
  is_sentinel (strip l) = true ->
  step st l = Ok {| commits := flush st; current_commit := opened (strip l) |}.
Proof.
  intros H. unfold step, opened, valid_sentinel, header_of_line.
  rewrite H. unfold is_sentinel in H. rewrite H, six_fields. cbn [andb].
  unfold PIPE. destruct (5 <=? count_char 124 (strip l)); reflexivity.
Qed.

Lemma step_other (st : pstate) (l : string) :
  is_sentinel (strip l) = false ->
  step st l =
  match current_commit st with
  | Some c =>
      c' <- (if nonempty (strip l) then file_line (strip l) c else Ok c) ;;
      Ok {| commits := commits st; current_commit := Some c' |}
  | None => Ok st
  end.
Proof.
  intros H. unfold step. unfold is_sentinel in H. rewrite H.
  destruct st as [cs [c |]]; cbn [current_commit commits]; [| reflexivity].
  destruct (nonempty (strip l)); reflexivity.
Qed.

(** The loop from any state, in terms of the blocks of the remaining
    lines. *)
Lemma run_blocks (lines : list string) (st : pstate) :
  run lines st =
  let '(body, bs) := blocks (map strip lines) in
  match current_commit st with
  | Some c =>
      c' <- file_changes body c ;;
      rs <- records_of_blocks bs ;;
      Ok (commits st ++ close_commit c' :: rs)
  | None =>
      rs <- records_of_blocks bs ;; Ok (commits st ++ rs)
  end.
Proof.
  unfold run. revert st. induction lines as [| l lines IH]; intros st.
  - cbn. unfold flush. destruct (current_commit st); cbn;
      [reflexivity | rewrite app_nil_r; reflexivity].
  - cbn [foldM map blocks].
    destruct (blocks (map strip lines)) as [body bs] eqn:Eb.
    destruct (is_sentinel (strip l)) eqn:Es.
    + rewrite (step_sentinel st l Es). cbn [bind]. rewrite IH.
      cbn [current_commit commits file_changes records_of_blocks record_of_block].
      unfold opened. destruct (valid_sentinel (strip l)).
      * unfold flush.
        destruct (file_changes body _) as [c' | e]; cbn [bind];
          destruct (current_commit st) as [c |]; cbn [bind]; try reflexivity;
          destruct (records_of_blocks bs) as [rs | e]; cbn [bind app];
          try reflexivity.
        rewrite <- app_assoc. reflexivity.
      * unfold flush.
        destruct (current_commit st) as [c |]; cbn [bind];
          destruct (records_of_blocks bs) as [rs | e]; cbn [bind app];
          try reflexivity.
        rewrite <- app_assoc. reflexivity.
    + rewrite (step_other st l Es).
      destruct (current_commit st) as [c |] eqn:Ec.
      * cbn [file_changes].
        destruct (if nonempty (strip l) then file_line (strip l) c else Ok c)
          as [c1 | e]; cbn [bind]; [| reflexivity].
        rewrite IH. reflexivity.
      * cbn [bind]. rewrite IH, Ec. reflexivity.
Qed.

Lemma parse_lines_records (lines : list string) :
  parse_lines lines = records (map strip lines).
Proof.
  change (parse_lines lines) with (run lines initial).
  rewrite run_blocks. unfold records.
  destruct (blocks (map strip lines)) as [body bs].
  cbn [initial current_commit commits snd app]. apply bind_ret.
Qed.

Lemma file_line_header (l : string) (c c' : Pending) :
  file_line l c = Ok c' -> p_header c' = p_header c.
Proof.
  unfold file_line. destruct (length (split TAB l) =? 3).
  - intros E. apply bind_Ok_inv in E. destruct E as (a & _ & E).
    apply bind_Ok_inv in E. destruct E as (d & _ & E).
    injection E as <-. reflexivity.
  - intros E; injection E as <-; reflexivity.
Qed.

Lemma file_changes_header (body : list string) (c c' : Pending) :
  file_changes body c = Ok c' -> p_header c' = p_header c.
Proof.
  revert c. induction body as [| l body IH]; intros c; cbn [file_changes].
  - intros E; injection E as <-; reflexivity.
  - intros E. apply bind_Ok_inv in E. destruct E as (c1 & E1 & E2).
    rewrite (IH c1 E2). destruct (nonempty l).
    + apply (file_line_header l), E1.
    + injection E1 as <-. reflexivity.
Qed.

(** The headers of the records are those of the valid sentinels. *)
Lemma records_of_blocks_headers (bs : list (string * list string))
    (cs : list CommitRecord) :
  records_of_blocks bs = Ok cs ->
  map header cs = map header_of_line (filter valid_sentinel (map fst bs)).
Proof.
  revert cs. induction bs as [| [s body] bs IH]; intros cs; cbn [records_of_blocks].
  - intros E; injection E as <-; reflexivity.
  - intros E. apply bind_Ok_inv in E. destruct E as (r & Er & E).
    apply bind_Ok_inv in E. destruct E as (rs & Ers & E).
    injection E as <-. rewrite map_app, (IH rs Ers).
    cbn [map fst filter]. unfold record_of_block in Er.
    destruct (valid_sentinel s).
    + apply bind_Ok_inv in Er. destruct Er as (c & Ec & Er).
      injection Er as <-. apply file_changes_header in Ec.
      cbn [map app header close_commit]. rewrite Ec. reflexivity.
    + injection Er as <-. reflexivity.
Qed.

Lemma blocks_sentinels (lines : list string) :
  filter valid_sentinel (map fst (snd (blocks lines)))
  = filter valid_sentinel lines.
Proof.
  induction lines as [| l lines IH]; [reflexivity |].
  cbn [blocks]. destruct (blocks lines) as [body bs].
  cbn [snd] in IH. unfold valid_sentinel at 2. cbn [filter].
  destruct (is_sentinel l) eqn:Es; cbn [snd map fst filter andb].
  - unfold valid_sentinel at 1. rewrite Es, IH. reflexivity.
  - exact IH.
Qed.

Lemma parse_lines_headers (lines : list string) (cs : list CommitRecord) :
  parse_lines lines = Ok cs ->
  map header cs
  = map header_of_line (filter valid_sentinel (map strip lines)).
Proof.
  rewrite parse_lines_records. unfold records. intros E.
  rewrite (records_of_blocks_headers _ _ E). rewrite blocks_sentinels.
  reflexivity.
Qed.

(** A valid sentinel as last line: its record is returned, without
    files. *)
Lemma parse_lines_last_sentinel (lines : list string) (l : string) :
  valid_sentinel (strip l) = true ->
  parse_lines (lines ++ [l]) =
  (rs <- parse_lines lines ;;
   Ok (rs ++ [ {| header := header_of_line (strip l); files := [];
                  stats := {| total_files := 0; total_additions := 0;
                              total_deletions := 0 |} |} ])).
Proof.
  intros Hv. unfold parse_lines. rewrite foldM_app.
  destruct (foldM step lines initial) as [st | e]; cbn [bind foldM]; [| reflexivity].
  assert (Hs : is_sentinel (strip l) = true).
  { unfold valid_sentinel in Hv. apply andb_true_iff in Hv. apply Hv. }
  rewrite (step_sentinel st l Hs). unfold opened. rewrite Hv. reflexivity.
Qed.

(** With no record open, lines that are no sentinels change nothing. *)
Lemma foldM_skipped (body : list string) (cs : list CommitRecord) :
  (forall l, In l body -> is_sentinel (strip l) = false) ->
  foldM step body {| commits := cs; current_commit := None |}
  = Ok {| commits := cs; current_commit := None |}.
Proof.
  induction body as [| l body IH]; intros H; cbn [foldM]; [reflexivity |].
  rewrite step_other by (apply H; left; reflexivity).
  cbn [current_commit bind]. apply IH. intros x Hx. apply H. right. exact Hx.
Qed.

Lemma parse_lines_discards (pre : list string) (bad : string)
    (body rest : list string) :
  is_sentinel (strip bad) = true ->
  valid_sentinel (strip bad) = false ->
  (forall l, In l body -> is_sentinel (strip l) = false) ->
  parse_lines (pre ++ bad :: body ++ rest) = parse_lines (pre ++ bad :: rest).
Proof.
  intros Hs Hv Hbody. unfold parse_lines. rewrite !foldM_app.
  destruct (foldM step pre initial) as [st | e]; cbn [bind foldM]; [| reflexivity].
  rewrite (step_sentinel st bad Hs). unfold opened. rewrite Hv. cbn [bind].
  rewrite foldM_app, (foldM_skipped body _ Hbody). reflexivity.
Qed.

Lemma header_fields (f1 f2 f3 f4 f5 : string) :
  count_char PIPE f1 = 0 -> count_char PIPE f2 = 0 ->
  count_char PIPE f3 = 0 -> count_char PIPE f4 = 0 ->
  header_of_line
    ("COMMIT|" ++ f1 ++ "|" ++ f2 ++ "|" ++ f3 ++ "|" ++ f4 ++ "|" ++ f5)%string
  = {| hash := strip f1; author_name := strip f2; author_email := strip f3;
       date := strip f4; message := strip f5 |}.
Proof.
  intros H1 H2 H3 H4. unfold header_of_line.
  change ("COMMIT|" ++ f1 ++ "|" ++ f2 ++ "|" ++ f3 ++ "|" ++ f4 ++ "|" ++ f5)%string
    with ("COMMIT" ++ str1 (chr PIPE) ++ f1 ++ str1 (chr PIPE) ++ f2
          ++ str1 (chr PIPE) ++ f3 ++ str1 (chr PIPE) ++ f4
          ++ str1 (chr PIPE) ++ f5)%string.
  change "|" with (str1 (chr PIPE)).
  rewrite (split_max_app PIPE small_pipe 4 "COMMIT") by reflexivity.
  rewrite (split_max_app PIPE small_pipe 3 f1) by exact H1.
  rewrite (split_max_app PIPE small_pipe 2 f2) by exact H2.
  rewrite (split_max_app PIPE small_pipe 1 f3) by exact H3.
  rewrite (split_max_app PIPE small_pipe 0 f4) by exact H4.
  unfold split_max. rewrite split_go_zero. reflexivity.
Qed.

End CommitFraming.

(** C2. With the lines of the text stripped: a record begins exactly at the
    lines that start with [COMMIT|] and split, with at most five cuts, into
    six pipe fields, which is to say that have at least five pipes; the
    sixth field is everything after the fifth pipe, so a subject keeps its
    pipes (the fields are stripped). The records returned are those of the
    blocks of the text, their headers those of the valid sentinels in
    order. After a sentinel with fewer fields the lines up to the next
    sentinel are attached to no record. A valid sentinel followed by no
    file line gives a record with no files, and the record open at the end
    of the text is returned. *)
Theorem commit_log_framing :
  (forall raw : string,
      CommitHistory.parse_commit_history raw
      = CommitLogSpec.records (map strip (splitlines raw)))
  /\ (forall (raw : string) (cs : list CommitHistory.CommitRecord),
         CommitHistory.parse_commit_history raw = Ok cs ->
         map CommitHistory.header cs
         = map CommitLogSpec.header_of_line
             (filter CommitLogSpec.valid_sentinel (map strip (splitlines raw))))
  /\ (forall line : string,
         length (split_max "|" 5 line) = 6
         <-> 5 <= TextSpec.count_char TextSpec.PIPE line)
  /\ (forall f1 f2 f3 f4 f5 : string,
         TextSpec.count_char TextSpec.PIPE f1 = 0 ->
         TextSpec.count_char TextSpec.PIPE f2 = 0 ->
         TextSpec.count_char TextSpec.PIPE f3 = 0 ->
         TextSpec.count_char TextSpec.PIPE f4 = 0 ->
         CommitLogSpec.header_of_line
           ("COMMIT|" ++ f1 ++ "|" ++ f2 ++ "|" ++ f3 ++ "|" ++ f4 ++ "|" ++ f5)%string
         = {| CommitHistory.hash := strip f1;
              CommitHistory.author_name := strip f2;
              CommitHistory.author_email := strip f3;
              CommitHistory.date := strip f4;
              CommitHistory.message := strip f5 |})
  /\ (forall (pre : list string) (bad : string) (body rest : list string),
         CommitLogSpec.is_sentinel (strip bad) = true ->
         CommitLogSpec.valid_sentinel (strip bad) = false ->
         (forall l, In l body -> CommitLogSpec.is_sentinel (strip l) = false) ->
         CommitHistory.parse_lines (pre ++ bad :: body ++ rest)
         = CommitHistory.parse_lines (pre ++ bad :: rest))
  /\ (forall (lines : list string) (l : string),
         CommitLogSpec.valid_sentinel (strip l) = true ->
         CommitHistory.parse_lines (lines ++ [l]) =
         (rs <- CommitHistory.parse_lines lines ;;
          Ok (rs ++ [ {| CommitHistory.header :=
                           CommitLogSpec.header_of_line (strip l);
                         CommitHistory.files := [];
                         CommitHistory.stats :=
                           {| CommitHistory.total_files := 0;
                              CommitHistory.total_additions := 0;
                              CommitHistory.total_deletions := 0 |} |} ]))).
Proof.
  assert (Hparse : forall raw,
             CommitHistory.parse_commit_history raw
             = CommitHistory.parse_lines (splitlines raw)).
  { intros raw. unfold CommitHistory.parse_commit_history.
    destruct raw; reflexivity. }
  split; [| split; [| split; [| split; [| split]]]].
  - intros raw. rewrite Hparse. apply parse_lines_records.
  - intros raw cs. rewrite Hparse. apply parse_lines_headers.
  - exact six_fields_iff.
  - exact header_fields.
  - exact parse_lines_discards.
  - exact parse_lines_last_sentinel.
Qed.

Lemma commit_log_framing_witness :
  CommitLogSpec.valid_sentinel (strip "COMMIT|def|John|j@x.org|2025-01-01|Merge a|b ")
  = true
  /\ CommitHistory.parse_lines
       ["COMMIT|bad|line"; "7" ++ TAB ++ "7" ++ TAB ++ "dropped.c";
        "COMMIT|def|John|j@x.org|2025-01-01|Merge a|b "]%string
     = Ok [ {| CommitHistory.header :=
                 {| CommitHistory.hash := "def";
                    CommitHistory.author_name := "John";
                    CommitHistory.author_email := "j@x.org";
                    CommitHistory.date := "2025-01-01";
                    CommitHistory.message := "Merge a|b" |};
               CommitHistory.files := [];
               CommitHistory.stats :=
                 {| CommitHistory.total_files := 0;
                    CommitHistory.total_additions := 0;
                    CommitHistory.total_deletions := 0 |} |} ].
Proof.
  assert (H : CommitLogSpec.valid_sentinel
                (strip "COMMIT|def|John|j@x.org|2025-01-01|Merge a|b ") = true)
    by reflexivity.
  split; [exact H |].
  destruct commit_log_framing as (_ & _ & _ & _ & _ & Hlast).
  exact (Hlast ["COMMIT|bad|line"; "7" ++ TAB ++ "7" ++ TAB ++ "dropped.c"]%string
               "COMMIT|def|John|j@x.org|2025-01-01|Merge a|b " H).
Defined.

(* ------------------------------------------------------------------ *)
(** ** Stable sort by decreasing key *)

Section SortDesc.

Context {A : Type}.
Variable key : A -> Z.

Lemma insert_desc_perm (x : A) (l : list A) :
  Permutation (PyList.insert_desc key x l) (x :: l).
Proof.
  induction l as [| y l IH]; simpl; [reflexivity |].
  destruct (key x <? key y)%Z; [| reflexivity].
  rewrite IH. apply perm_swap.
Qed.

Lemma sort_desc_perm (l : list A) : Permutation (PyList.sort_desc key l) l.
Proof.
  induction l as [| x l IH]; simpl; [reflexivity |].
  rewrite insert_desc_perm. constructor. exact IH.
Qed.

Lemma insert_desc_sorted (x : A) (l : list A) :
  StronglySorted (AggregateSpec.ge_key key) l -> StronglySorted (AggregateSpec.ge_key key) (PyList.insert_desc key x l).
Proof.
  induction l as [| y l IH]; intros Hs; simpl.
  - constructor; constructor.
  - inversion Hs as [| y' l' Hl Hy]; subst.
    destruct (key x <? key y)%Z eqn:E.
    + apply Z.ltb_lt in E. constructor; [apply IH, Hl |].
      apply Forall_forall. intros z Hz.
      apply (Permutation_in _ (insert_desc_perm x l)) in Hz.
      destruct Hz as [<- | Hz].
      * unfold AggregateSpec.ge_key. lia.
      * rewrite Forall_forall in Hy. apply Hy, Hz.
    + apply Z.ltb_ge in E. constructor; [exact Hs |].
      constructor; [exact E |].
      rewrite Forall_forall in Hy |- *. intros z Hz.
      specialize (Hy z Hz). unfold AggregateSpec.ge_key in *. lia.
Qed.

Lemma sort_desc_sorted (l : list A) : StronglySorted (AggregateSpec.ge_key key) (PyList.sort_desc key l).
Proof.
  induction l as [| x l IH]; simpl; [constructor |].
  apply insert_desc_sorted, IH.
Qed.

Lemma sort_desc_In (x : A) (l : list A) : In x (PyList.sort_desc key l) <-> In x l.
Proof.
  split; apply Permutation_in; [| symmetry]; apply sort_desc_perm.
Qed.

Lemma sort_desc_length (l : list A) : length (PyList.sort_desc key l) = length l.
Proof. apply Permutation_length, sort_desc_perm. Qed.

Lemma firstn_In (k : nat) (l : list A) (x : A) : In x (firstn k l) -> In x l.
Proof.
  intros H. rewrite <- (firstn_skipn k l). apply in_or_app. left. exact H.
Qed.

Lemma skipn_In (k : nat) (l : list A) (x : A) : In x (skipn k l) -> In x l.
Proof.
  intros H. rewrite <- (firstn_skipn k l). apply in_or_app. right. exact H.
Qed.

(** What a sorted list leaves out after its first [k] elements is not
    above anything it keeps. *)
Lemma firstn_sorted_top (k : nat) (l : list A) (x y : A) :
  StronglySorted (AggregateSpec.ge_key key) l ->
  In x (firstn k l) -> In y (skipn k l) -> (key y <= key x)%Z.
Proof.
  revert l. induction k as [| k IH]; intros l Hs Hx Hy.
  - destruct Hx.
  - destruct l as [| a l]; [destruct Hx |].
    inversion Hs as [| a' l' Hl Ha]; subst. cbn [firstn skipn] in *.
    destruct Hx as [<- | Hx].
    + rewrite Forall_forall in Ha. apply Ha. eapply skipn_In. exact Hy.
    + apply (IH l Hl Hx Hy).
Qed.

End SortDesc.

Lemma enumerate_from_In {A : Type} (i : Z) (l : list A) (j : Z) (x : A) :
  In (j, x) (PyList.enumerate_from i l) -> In x l.
Proof.
  revert i. induction l as [| a l IH]; intros i; simpl; [tauto |].
  intros [E | H]; [left; congruence | right; eapply IH; exact H].
Qed.


(* ------------------------------------------------------------------ *)
(** ** Insertion-ordered dictionaries *)

Section DictFacts.

Context {V : Type}.

Lemma upsert_keys (k : string) (f : option V -> V) (d : Dict.t V) :
  Dict.keys (Dict.upsert k f d) = PyList.set_add k (Dict.keys d).
Proof.
  unfold PyList.set_add, Dict.keys.
  induction d as [| [k' v] d IH]; [reflexivity |].
  cbn [Dict.upsert map fst existsb].
  rewrite (String.eqb_sym k k').
  destruct (String.eqb k' k); [reflexivity |].
  cbn [orb map fst]. rewrite IH.
  destruct (existsb (String.eqb k) (map fst d)); reflexivity.
Qed.

Lemma upsert_get_same (k : string) (f : option V -> V) (d : Dict.t V) :
  Dict.get k (Dict.upsert k f d) = Some (f (Dict.get k d)).
Proof.
  induction d as [| [k' v] d IH]; cbn [Dict.upsert Dict.get].
  - rewrite String.eqb_refl. reflexivity.
  - destruct (String.eqb k' k) eqn:E; cbn [Dict.get]; rewrite E;
      [reflexivity | exact IH].
Qed.

Lemma upsert_get_other (k k' : string) (f : option V -> V) (d : Dict.t V) :
  k' <> k -> Dict.get k' (Dict.upsert k f d) = Dict.get k' d.
Proof.
  intros Hne. induction d as [| [k0 v] d IH]; cbn [Dict.upsert Dict.get].
  - destruct (String.eqb k k') eqn:E; [| reflexivity].
    apply String.eqb_eq in E. congruence.
  - destruct (String.eqb k0 k) eqn:E; cbn [Dict.get].
    + apply String.eqb_eq in E. subst k0.
      destruct (String.eqb k k') eqn:E'; [| reflexivity].
      apply String.eqb_eq in E'. congruence.
    + rewrite IH. reflexivity.
Qed.

(** A loop of updates, seen from one key: only the items of that key
    count. *)
Lemma fold_upsert_get {E : Type} (key_of : E -> string)
    (upd : E -> option V -> V) (k : string) (events : list E) (d : Dict.t V) :
  Dict.get k (fold_left (fun d e => Dict.upsert (key_of e) (upd e) d) events d)
  = fold_left (fun o e => Some (upd e o))
      (filter (fun e => String.eqb (key_of e) k) events) (Dict.get k d).
Proof.
  revert d. induction events as [| e events IH]; intros d; cbn [fold_left filter].
  - reflexivity.
  - rewrite IH. destruct (String.eqb (key_of e) k) eqn:Ek.
    + apply String.eqb_eq in Ek. subst k. cbn [fold_left].
      rewrite upsert_get_same. reflexivity.
    + rewrite upsert_get_other; [reflexivity |].
      apply String.eqb_neq in Ek. congruence.
Qed.

Lemma fold_upsert_keys {E : Type} (key_of : E -> string)
    (upd : E -> option V -> V) (events : list E) (d : Dict.t V) :
  Dict.keys (fold_left (fun d e => Dict.upsert (key_of e) (upd e) d) events d)
  = fold_left (fun s x => PyList.set_add x s) (map key_of events) (Dict.keys d).
Proof.
  revert d. induction events as [| e events IH]; intros d; cbn [fold_left map].
  - reflexivity.
  - rewrite IH, upsert_keys. reflexivity.
Qed.

End DictFacts.

Section SetFacts.

Lemma set_add_NoDup (x : string) (s : list string) :
  NoDup s -> NoDup (PyList.set_add x s).
Proof.
  intros H. unfold PyList.set_add.
  destruct (existsb (String.eqb x) s) eqn:E; [exact H |].
  apply NoDup_app; [exact H | constructor; [intros [] | constructor] |].
  intros y Hy [<- | []].
  assert (existsb (String.eqb x) s = true).
  { apply existsb_exists. exists x. split; [exact Hy | apply String.eqb_refl]. }
  congruence.
Qed.

Lemma fold_set_add_NoDup (l s : list string) :
  NoDup s -> NoDup (fold_left (fun s x => PyList.set_add x s) l s).
Proof.
  revert s. induction l as [| x l IH]; intros s H; cbn [fold_left];
    [exact H | apply IH, set_add_NoDup, H].
Qed.

Lemma distinct_NoDup (l : list string) : NoDup (Dashboard.distinct l).
Proof. apply fold_set_add_NoDup. constructor. Qed.

(** In a dictionary an entry is what its key gives. *)
Lemma get_of_entry {V : Type} (d : Dict.t V) (k : string) (v : V) :
  NoDup (Dict.keys d) -> In (k, v) d -> Dict.get k d = Some v.
Proof.
  induction d as [| [k' v'] d IH]; intros Hnd Hin; [destruct Hin |].
  cbn [Dict.keys map fst] in Hnd. inversion Hnd as [| ? ? Hk Hd]; subst.
  cbn [Dict.get]. destruct Hin as [E | Hin].
  - injection E as -> ->. rewrite String.eqb_refl. reflexivity.
  - destruct (String.eqb k' k) eqn:E.
    + apply String.eqb_eq in E. subst k'. exfalso. apply Hk.
      change (In (fst (k, v)) (map fst d)). apply in_map, Hin.
    + apply IH; assumption.
Qed.

End SetFacts.

(* ------------------------------------------------------------------ *)
(** ** Dashboard: the per-file accumulator *)

Section FileAccumulator.

Import Dashboard CommitHistory AggregateSpec.

Lemma fold_left_add (l : list Z) (a : Z) :
  fold_left Z.add l a = (a + sum_Z l)%Z.
Proof.
  unfold sum_Z. revert a. induction l as [| x l IH]; intros a; cbn [fold_left].
  - lia.
  - rewrite IH, (IH (0 + x)%Z). lia.
Qed.

Lemma sum_Z_cons (x : Z) (l : list Z) : sum_Z (x :: l) = (x + sum_Z l)%Z.
Proof. unfold sum_Z at 1. cbn [fold_left]. rewrite fold_left_add. lia. Qed.

Lemma len_cons {A : Type} (x : A) (l : list A) : len (x :: l) = (1 + len l)%Z.
Proof. unfold len. cbn [length]. lia. Qed.

Lemma touch_events (a : string) (fl : list FileChange) (d : Dict.t FileStat) :
  fold_left (touch a) fl d
  = fold_left event_step (map (fun f => (a, f)) fl) d.
Proof.
  revert d. induction fl as [| f fl IH]; intros d; cbn [fold_left map];
    [reflexivity | apply IH].
Qed.

Lemma file_stats_loop (cs : list CommitRecord) (d : Dict.t FileStat) :
  fold_left
    (fun fs c => fold_left (touch (author_name (header c))) (files c) fs) cs d
  = fold_left event_step (events cs) d.
Proof.
  revert d. induction cs as [| c cs IH]; intros d; [reflexivity |].
  cbn [fold_left events flat_map]. rewrite fold_left_app, <- touch_events.
  apply IH.
Qed.

Lemma file_stats_events (cs : list CommitRecord) :
  file_stats cs = fold_left event_step (events cs) [].
Proof. apply file_stats_loop. Qed.

Lemma events_paths (cs : list CommitRecord) :
  map (fun e => path (snd e)) (events cs) = map path (flat_map files cs).
Proof.
  induction cs as [| c cs IH]; [reflexivity |].
  cbn [events flat_map]. rewrite !map_app. fold (events cs). rewrite IH.
  rewrite map_map. reflexivity.
Qed.

(** The keys of the accumulator are the touched paths, once each. *)
Lemma file_stats_keys (cs : list CommitRecord) :
  Dict.keys (file_stats cs) = touched_paths cs.
Proof.
  rewrite file_stats_events. unfold event_step.
  rewrite (fold_upsert_keys (fun e => path (snd e))
             (fun e => bump (fst e) (snd e))).
  rewrite events_paths. reflexivity.
Qed.

Lemma bump_all_fields (E : list (string * FileChange)) (o : option FileStat) :
  let s := acc_of (bump_all E o) in
  fs_commits s = (fs_commits (acc_of o) + len E)%Z
  /\ fs_developers s
     = fold_left (fun s x => PyList.set_add x s) (map fst E)
         (fs_developers (acc_of o))
  /\ fs_additions s
     = (fs_additions (acc_of o) + sum_Z (map additions (map snd E)))%Z
  /\ fs_deletions s
     = (fs_deletions (acc_of o) + sum_Z (map deletions (map snd E)))%Z.
Proof.
  revert o. induction E as [| e E IH]; intros o.
  - cbn. unfold len, sum_Z. cbn. repeat split; lia.
  - cbn zeta.
    change (bump_all (e :: E) o)
      with (bump_all E (Some (bump (fst e) (snd e) o))).
    destruct (IH (Some (bump (fst e) (snd e) o))) as (Hc & Hd & Ha & Hr).
    cbn zeta in Hc, Hd, Ha, Hr. rewrite Hc, Hd, Ha, Hr.
    cbn [acc_of map]. rewrite len_cons, !sum_Z_cons.
    unfold bump. fold (acc_of o).
    cbn [fs_commits fs_developers fs_additions fs_deletions fold_left].
    repeat split; lia.
Qed.

Lemma bump_all_Some (E : list (string * FileChange)) (o : option FileStat)
    (s : FileStat) :
  bump_all E o = Some s -> s = acc_of (bump_all E o).
Proof. intros ->. reflexivity. Qed.

(** What the accumulator holds for a path. *)
Lemma file_stats_entry (cs : list CommitRecord) (p : string) (s : FileStat) :
  In (p, s) (file_stats cs) ->
  fs_commits s = commit_count p cs
  /\ fs_developers s = distinct (touches p cs)
  /\ fs_additions s = additions_of p cs
  /\ fs_deletions s = deletions_of p cs.
Proof.
  intros Hin.
  assert (Hget : Dict.get p (file_stats cs) = Some s).
  { apply get_of_entry; [| exact Hin].
    rewrite file_stats_keys. apply distinct_NoDup. }
  rewrite file_stats_events in Hget. unfold event_step in Hget.
  rewrite (fold_upsert_get (fun e => path (snd e))
             (fun e => bump (fst e) (snd e))) in Hget.
  cbn [Dict.get] in Hget. fold (events_of p cs) in Hget.
  fold (bump_all (events_of p cs) None) in Hget.
  apply bump_all_Some in Hget.
  destruct (bump_all_fields (events_of p cs) None) as (Hc & Hd & Ha & Hr).
  cbn zeta in Hc, Hd, Ha, Hr. rewrite <- Hget in Hc, Hd, Ha, Hr.
  cbn [acc_of fs_commits fs_developers fs_additions fs_deletions] in Hc, Hd, Ha, Hr.
  unfold commit_count, additions_of, deletions_of, changes_of, touches, distinct.
  unfold len in *. rewrite length_map.
  repeat split; [lia | exact Hd | lia | lia].
Qed.

Lemma key_has_entry {V : Type} (d : Dict.t V) (k : string) :
  In k (Dict.keys d) -> exists v, In (k, v) d.
Proof.
  unfold Dict.keys. intros H. apply in_map_iff in H.
  destruct H as ([k' v] & E & H). cbn in E. subst k'. exists v. exact H.
Qed.

Lemma entry_has_key {V : Type} (d : Dict.t V) (k : string) (v : V) :
  In (k, v) d -> In k (Dict.keys d).
Proof.
  intros H. unfold Dict.keys. change k with (fst (k, v)). apply in_map, H.
Qed.

End FileAccumulator.

(* ------------------------------------------------------------------ *)
(** ** The quotient against the stability threshold *)

Section Binary64.

Import PyFloat.

Open Scope Z_scope.

Lemma round_half_even_cases (num den : Z) :
  round_half_even num den = num / den
  \/ round_half_even num den = num / den + 1.
Proof.
  unfold round_half_even.
  destruct (2 * (num mod den) <? den); [left; reflexivity |].
  destruct (den <? 2 * (num mod den)); [right; reflexivity |].
  destruct (Z.even (num / den)); [left | right]; reflexivity.
Qed.

Lemma round_half_even_bounds (num den lo hi : Z) :
  0 < den -> lo * den <= num < hi * den ->
  lo <= round_half_even num den <= hi.
Proof.
  intros Hd [Hlo Hhi].
  assert (Hq : lo <= num / den < hi).
  { split; [apply Z.div_le_lower_bound; lia | apply Z.div_lt_upper_bound; lia]. }
  destruct (round_half_even_cases num den) as [-> | ->]; lia.
Qed.

(** Against an odd integer [k], the rounded quotient is above [k] exactly
    from the midpoint [k + 1/2] on. *)
Lemma round_half_even_above (num den k : Z) :
  0 < den -> Z.odd k = true ->
  k < round_half_even num den <-> (2 * k + 1) * den <= 2 * num.
Proof.
  intros Hd Hk. unfold round_half_even.
  pose proof (Z.div_mod num den ltac:(lia)) as Hdm.
  pose proof (Z.mod_pos_bound num den Hd) as Hr.
  set (q := num / den) in *. set (r := num mod den) in *.
  destruct (2 * r <? den) eqn:E1.
  - apply Z.ltb_lt in E1. split; intros H; nia.
  - apply Z.ltb_ge in E1. destruct (den <? 2 * r) eqn:E2.
    + apply Z.ltb_lt in E2. split; intros H; nia.
    + apply Z.ltb_ge in E2. assert (Hhalf : 2 * r = den) by lia.
      destruct (Z.even q) eqn:E3.
      * assert (Hne : k <> q).
        { intros ->. rewrite <- Z.negb_even, E3 in Hk. discriminate Hk. }
        split; intros H; nia.
      * split; intros H; nia.
Qed.

Lemma gtb_threshold (m e : Z) :
  gtb {| significand := m; exponent := e |} STABILITY_THRESHOLD
  = ((-54 <? e) || ((e =? -54) && (5404319552844595 <? m))).
Proof. reflexivity. Qed.

Lemma pow2_le (a b t : Z) :
  0 <= a -> 0 <= t -> 0 <= b <= a + t -> 2 ^ b <= 2 ^ a * 2 ^ t.
Proof.
  intros Ha Ht Hb. rewrite <- Z.pow_add_r by lia.
  apply Z.pow_le_mono_r; lia.
Qed.

Lemma pow2_ge (a b t : Z) :
  0 <= a -> 0 <= t -> a + t <= b -> 2 ^ a * 2 ^ t <= 2 ^ b.
Proof.
  intros Ha Ht Hb. rewrite <- Z.pow_add_r by lia.
  apply Z.pow_le_mono_r; lia.
Qed.

(** The criterion in the binade of the threshold, where numerator and
    denominator share the factor [K]. *)
Lemma in_threshold_binade (n c K m : Z) :
  0 < K ->
  m = round_half_even (2 ^ 54 * n * K) (c * K) ->
  0 < c ->
  5404319552844595 < m <-> MIDPOINT_NUMERATOR * c <= 2 ^ 55 * n.
Proof.
  intros HK -> Hc.
  rewrite (round_half_even_above (2 ^ 54 * n * K) (c * K) 5404319552844595)
    by (try reflexivity; nia).
  unfold MIDPOINT_NUMERATOR. change (2 ^ 54) with 18014398509481984.
  change (2 ^ 55) with 36028797018963968. split; intros H; nia.
Qed.

Lemma true_div_above_threshold (n c : Z) :
  0 < n -> 0 < c ->
  gtb (true_div n c) STABILITY_THRESHOLD
  = (MIDPOINT_NUMERATOR * c <=? 2 ^ 55 * n).
Proof.
  intros Hn Hc. unfold true_div.
  pose proof (Z.log2_spec n Hn) as [HA1 HA2].
  pose proof (Z.log2_spec c Hc) as [HB1 HB2].
  pose proof (Z.log2_nonneg n) as Ha. pose proof (Z.log2_nonneg c) as Hb.
  set (a := Z.log2 n) in *. set (b := Z.log2 c) in *.
  rewrite Z.pow_succ_r in HA2, HB2 by assumption.
  rewrite (Z.pow_add_r 2 53 b) by lia.
  pose proof (pow2_le a b 0 Ha (Z.le_refl 0)) as Hle0.
  pose proof (pow2_le a b 1 Ha Z.le_0_1) as Hle1.
  pose proof (pow2_le a b 2 Ha ltac:(lia)) as Hle2.
  pose proof (pow2_ge a b 1 Ha Z.le_0_1) as Hge1.
  pose proof (pow2_ge a b 2 Ha ltac:(lia)) as Hge2.
  pose proof (pow2_ge a b 3 Ha ltac:(lia)) as Hge3.
  change (2 ^ 0) with 1 in *. change (2 ^ 1) with 2 in *.
  change (2 ^ 2) with 4 in *. change (2 ^ 3) with 8 in *.
  assert (HA0 : 0 < 2 ^ a) by (apply Z.pow_pos_nonneg; lia).
  assert (HB0 : 0 < 2 ^ b) by (apply Z.pow_pos_nonneg; lia).
  set (A := 2 ^ a) in *. set (B := 2 ^ b) in *.
  assert (Hlow : c * A < 2 * (n * B)) by nia.
  assert (Hhigh : n * B < 2 * (c * A)) by nia.
  replace (n * (2 ^ 53 * B)) with (2 ^ 53 * (n * B)) by ring.
  unfold MIDPOINT_NUMERATOR.
  change (2 ^ 53) with 9007199254740992.
  change (2 ^ 52) with 4503599627370496.
  change (2 ^ 55) with 36028797018963968.
  destruct (9007199254740992 * (c * A) <=? 9007199254740992 * (n * B)) eqn:Eab.
  - (* the quotient is at least 2^(a-b) *)
    apply Z.leb_le in Eab.
    set (m := round_half_even (9007199254740992 * (n * B)) (2 * (c * A))).
    assert (Hm : 4503599627370496 <= m <= 9007199254740992)
      by (apply round_half_even_bounds; nia).
    destruct (Z.lt_trichotomy b (a + 2)) as [Hlt | [Heq | Hgt]].
    + assert (Hcrit : 10808639105689191 * c <= 36028797018963968 * n).
      { specialize (Hle1 ltac:(lia)). nia. }
      apply Z.leb_le in Hcrit. rewrite Hcrit.
      destruct (m =? 9007199254740992); rewrite gtb_threshold;
        apply orb_true_iff; left; apply Z.ltb_lt; lia.
    + assert (HB : B = A * 4) by (specialize (Hle2 ltac:(lia));
                                  specialize (Hge2 ltac:(lia)); lia).
      assert (Hin : 5404319552844595 < m
                    <-> MIDPOINT_NUMERATOR * c <= 2 ^ 55 * n).
      { apply (in_threshold_binade n c (2 * A) m); [lia | | lia].
        subst m. f_equal; rewrite ?HB; change (2 ^ 54) with 18014398509481984;
          ring. }
      unfold MIDPOINT_NUMERATOR in Hin.
      change (2 ^ 55) with 36028797018963968 in Hin.
      destruct (m =? 9007199254740992) eqn:Em; rewrite gtb_threshold.
      * apply Z.eqb_eq in Em.
        assert (Hcrit : 10808639105689191 * c <= 36028797018963968 * n)
          by (apply Hin; lia).
        apply Z.leb_le in Hcrit. rewrite Hcrit.
        apply orb_true_iff; left; apply Z.ltb_lt; lia.
      * replace (a - b - 52) with (-54) by lia.
        change (-54 <? -54) with false. change (-54 =? -54) with true.
        cbn [orb andb].
        apply eq_iff_eq_true. rewrite Z.ltb_lt, Z.leb_le. exact Hin.
    + assert (Hcrit : ~ 10808639105689191 * c <= 36028797018963968 * n).
      { specialize (Hge3 ltac:(lia)). nia. }
      apply Z.leb_nle in Hcrit. rewrite Hcrit.
      destruct (m =? 9007199254740992) eqn:Em; rewrite gtb_threshold.
      * apply orb_false_iff. split; [apply Z.ltb_ge; lia |].
        apply andb_false_iff. right. reflexivity.
      * apply orb_false_iff. split; [apply Z.ltb_ge; lia |].
        apply andb_false_iff. left. apply Z.eqb_neq. lia.
  - (* the quotient is below 2^(a-b) *)
    apply Z.leb_gt in Eab.
    set (m := round_half_even (9007199254740992 * (n * B)) (c * A)).
    assert (Hm : 4503599627370496 <= m <= 9007199254740992)
      by (apply round_half_even_bounds; nia).
    destruct (Z.lt_trichotomy b (a + 1)) as [Hlt | [Heq | Hgt]].
    + assert (Hcrit : 10808639105689191 * c <= 36028797018963968 * n).
      { specialize (Hle0 ltac:(lia)). nia. }
      apply Z.leb_le in Hcrit. rewrite Hcrit.
      destruct (m =? 9007199254740992); rewrite gtb_threshold;
        apply orb_true_iff; left; apply Z.ltb_lt; lia.
    + assert (HB : B = A * 2) by (specialize (Hle1 ltac:(lia));
                                  specialize (Hge1 ltac:(lia)); lia).
      assert (Hin : 5404319552844595 < m
                    <-> MIDPOINT_NUMERATOR * c <= 2 ^ 55 * n).
      { apply (in_threshold_binade n c A m); [lia | | lia].
        subst m. f_equal; rewrite ?HB; change (2 ^ 54) with 18014398509481984;
          ring. }
      unfold MIDPOINT_NUMERATOR in Hin.
      change (2 ^ 55) with 36028797018963968 in Hin.
      destruct (m =? 9007199254740992) eqn:Em; rewrite gtb_threshold.
      * apply Z.eqb_eq in Em.
        assert (Hcrit : 10808639105689191 * c <= 36028797018963968 * n)
          by (apply Hin; lia).
        apply Z.leb_le in Hcrit. rewrite Hcrit.
        apply orb_true_iff; left; apply Z.ltb_lt; lia.
      * replace (a - b - 53) with (-54) by lia.
        change (-54 <? -54) with false. change (-54 =? -54) with true.
        cbn [orb andb].
        apply eq_iff_eq_true. rewrite Z.ltb_lt, Z.leb_le. exact Hin.
    + assert (Hcrit : ~ 10808639105689191 * c <= 36028797018963968 * n).
      { specialize (Hge2 ltac:(lia)). nia. }
      apply Z.leb_nle in Hcrit. rewrite Hcrit.
      destruct (m =? 9007199254740992) eqn:Em; rewrite gtb_threshold.
      * apply orb_false_iff. split; [apply Z.ltb_ge; lia |].
        apply andb_false_iff. right. reflexivity.
      * apply orb_false_iff. split; [apply Z.ltb_ge; lia |].
        apply andb_false_iff. left. apply Z.eqb_neq. lia.
Qed.

(** The test of the code, in exact arithmetic: the quotient is above the
    constant exactly from the midpoint on. *)
Lemma gt_stability_threshold_midpoint (n c : Z) :
  0 <= n -> 0 < c ->
  gt_stability_threshold n c = (MIDPOINT_NUMERATOR * c <=? 2 ^ 55 * n).
Proof.
  intros Hn Hc. unfold gt_stability_threshold.
  destruct (n =? 0) eqn:E.
  - apply Z.eqb_eq in E. subst n. symmetry. apply Z.leb_gt.
    unfold MIDPOINT_NUMERATOR. lia.
  - apply Z.eqb_neq in E. apply true_div_above_threshold; lia.
Qed.

End Binary64.

(* ------------------------------------------------------------------ *)
(** ** Dashboard: risk levels and high-churn files *)

Section CodeHealth.

Import Dashboard CommitHistory AggregateSpec.

Lemma classify_risk_spec (c d : Z) :
  (classify_risk c d = high <-> high_risk c d)
  /\ (classify_risk c d = medium <-> ~ high_risk c d /\ medium_risk c d)
  /\ (classify_risk c d = low <-> ~ high_risk c d /\ ~ medium_risk c d).
Proof.
  unfold classify_risk, high_risk, medium_risk.
  destruct (RISK_HIGH_COMMITS <? c)%Z eqn:E1;
    destruct (RISK_HIGH_DEVELOPERS <? d)%Z eqn:E2;
    destruct (RISK_MEDIUM_COMMITS <? c)%Z eqn:E3;
    destruct (RISK_MEDIUM_DEVELOPERS <? d)%Z eqn:E4;
    cbn [orb];
    rewrite ?Z.ltb_lt, ?Z.ltb_ge in *;
    repeat split; intros; try discriminate; try reflexivity; lia.
Qed.

Lemma hotspot_row_sound (cs : list CommitRecord) (p : string) (s : FileStat) :
  In (p, s) (file_stats cs) -> row_sound cs (hotspot_row (p, s)).
Proof.
  intros Hin. destruct (file_stats_entry cs p s Hin) as (Hc & Hd & _ & _).
  unfold row_sound, hotspot_row.
  cbn [h_commits h_developers h_path risk_level].
  split; [exact Hc |]. split; [unfold developer_count; rewrite Hd; reflexivity |].
  apply classify_risk_spec.
Qed.

Lemma rows_sound (cs : list CommitRecord) (h : Hotspot) :
  In h (map hotspot_row (file_stats cs)) -> row_sound cs h.
Proof.
  intros H. apply in_map_iff in H. destruct H as ([p s] & <- & Hin).
  apply hotspot_row_sound, Hin.
Qed.

Lemma with_rank_sound (cs : list CommitRecord) (i : Z) (h : Hotspot) :
  row_sound cs h -> row_sound cs (with_rank (i, h)).
Proof. intros H. exact H. Qed.

Lemma top_hotspots_sound (cs : list CommitRecord) (h : Hotspot) :
  In h (top_hotspots (file_stats cs)) -> row_sound cs h.
Proof.
  unfold top_hotspots. intros H. apply in_map_iff in H.
  destruct H as ([i h0] & <- & Hin). apply with_rank_sound.
  apply enumerate_from_In in Hin. apply firstn_In in Hin.
  apply sort_desc_In in Hin. apply rows_sound, Hin.

Qed.

Lemma rows_paths (cs : list CommitRecord) :
  map h_path (map hotspot_row (file_stats cs)) = touched_paths cs.
Proof.
  rewrite <- file_stats_keys, map_map. unfold Dict.keys.
  apply map_ext. intros [p s]. reflexivity.
Qed.

Lemma churn_row_cases (p : string) (s : FileStat) :
  churn_row (p, s) =
  if (HIGH_CHURN_THRESHOLD <? fs_additions s + fs_deletions s)%Z
  then [churn_entry p s] else [].
Proof. reflexivity. Qed.

Lemma high_churn_In (fs : Dict.t FileStat) (r : ChurnFile) :
  In r (high_churn fs) <->
  exists p s, In (p, s) fs
              /\ (HIGH_CHURN_THRESHOLD < fs_additions s + fs_deletions s)%Z
              /\ r = churn_entry p s.
Proof.
  unfold high_churn. rewrite in_flat_map. split.
  - intros ([p s] & Hin & Hr). rewrite churn_row_cases in Hr.
    destruct (HIGH_CHURN_THRESHOLD <? fs_additions s + fs_deletions s)%Z eqn:E;
      [| destruct Hr].
    destruct Hr as [<- | []]. exists p, s. apply Z.ltb_lt in E. auto.
  - intros (p & s & Hin & Hlt & ->). exists (p, s). split; [exact Hin |].
    rewrite churn_row_cases. apply Z.ltb_lt in Hlt. rewrite Hlt. left. reflexivity.
Qed.

Lemma stability_exact (n c : Z) :
  (0 <= n)%Z -> (0 < c <= EXACT_CHURN_BOUND)%Z ->
  PyFloat.gt_stability_threshold n c = true <-> (3 * c < 10 * n)%Z.
Proof.
  intros Hn Hc. rewrite gt_stability_threshold_midpoint by lia.
  unfold PyFloat.MIDPOINT_NUMERATOR, EXACT_CHURN_BOUND in *.
  rewrite Z.leb_le. change (2 ^ 55)%Z with 36028797018963968%Z. lia.
Qed.

(** Checks of the thresholds on the figures of the specification, and of
    the bound: just above it, a ratio over 3/10 rounds down to the
    constant. *)
Example thresholds_on_examples :
  classify_risk 16 2 = high
  /\ classify_risk 10 1 = medium
  /\ classify_risk 8 3 = low
  /\ classify_stability 75 150 = stable
  /\ classify_stability 15 150 = unstable
  /\ classify_stability 60 200 = unstable
  /\ (3 * 6004799503160663 < 10 * 1801439850948199)%Z
  /\ classify_stability 1801439850948199 6004799503160663 = unstable.
Proof. repeat split; vm_compute; reflexivity. Qed.

Lemma classify_stability_stable (n c : Z) :
  (0 < c)%Z ->
  classify_stability n c = stable <-> PyFloat.gt_stability_threshold n c = true.
Proof.
  intros Hc. unfold classify_stability. apply Z.ltb_lt in Hc. rewrite Hc.
  destruct (PyFloat.gt_stability_threshold n c); split; intros H;
    try reflexivity; discriminate H.
Qed.

End CodeHealth.

(** C6. In the code-health analysis every touched file has one row; a
    row carries the number of file changes of its path and the number of
    distinct authors of these, and its risk level is [high] exactly when
    the commit count exceeds 15 or the developer count exceeds 5, else
    [medium] exactly when the commit count exceeds 8 or the developer
    count exceeds 3, else [low]; this holds of the hotspots returned too.
    The high-churn candidates are exactly the files whose churn, additions
    plus deletions, exceeds 100; a candidate is [stable] exactly when the
    quotient of the absolute net change by the churn, rounded to binary64,
    is above the binary64 constant 0.3, that is when the exact quotient
    reaches the midpoint above that constant, which for a churn up to
    [EXACT_CHURN_BOUND] is to say that the exact ratio exceeds 3/10, and
    [unstable] otherwise. The files returned are the first five of the
    candidates put in the order of decreasing churn. The percentages are
    arbitrary. *)
Theorem code_health_classification (pyfloat : Type)
    (round1_percent : Z -> Z -> pyfloat)
    (cs : list CommitHistory.CommitRecord) :
  let health := Dashboard.analyze_code_health pyfloat round1_percent cs in
  let rows := map Dashboard.hotspot_row (Dashboard.file_stats cs) in
  let candidates := Dashboard.high_churn (Dashboard.file_stats cs) in
  map Dashboard.h_path rows = AggregateSpec.touched_paths cs
  /\ (forall h, In h rows \/ In h (Dashboard.hotspots pyfloat health) ->
                AggregateSpec.row_sound cs h)
  /\ (forall p, In p (AggregateSpec.touched_paths cs) ->
        (exists r, In r candidates /\ Dashboard.c_path r = p)
        <-> (100 < AggregateSpec.additions_of p cs
                   + AggregateSpec.deletions_of p cs)%Z)
  /\ (forall r, In r candidates ->
        let adds := AggregateSpec.additions_of (Dashboard.c_path r) cs in
        let dels := AggregateSpec.deletions_of (Dashboard.c_path r) cs in
        In (Dashboard.c_path r) (AggregateSpec.touched_paths cs)
        /\ Dashboard.churn r = (adds + dels)%Z
        /\ (100 < Dashboard.churn r)%Z
        /\ (Dashboard.stability r = Dashboard.stable
            <-> PyFloat.gtb
                  (PyFloat.true_div (Z.abs (adds - dels)) (Dashboard.churn r))
                  PyFloat.STABILITY_THRESHOLD = true
                /\ adds <> dels)
        /\ (Dashboard.stability r = Dashboard.stable
            <-> (PyFloat.MIDPOINT_NUMERATOR * Dashboard.churn r
                 <= 2 ^ 55 * Z.abs (adds - dels))%Z)
        /\ (Dashboard.stability r = Dashboard.unstable
            <-> Dashboard.stability r <> Dashboard.stable)
        /\ ((Dashboard.churn r <= AggregateSpec.EXACT_CHURN_BOUND)%Z ->
            (Dashboard.stability r = Dashboard.stable
             <-> (3 * Dashboard.churn r < 10 * Z.abs (adds - dels))%Z)))
  /\ (exists sorted,
        Permutation sorted candidates
        /\ StronglySorted (AggregateSpec.ge_key Dashboard.churn) sorted
        /\ Dashboard.health_high_churn_files pyfloat health = firstn 5 sorted)
  /\ length (Dashboard.health_high_churn_files pyfloat health) <= 5.
Proof.
  intros health rows candidates.
  assert (Hhot : Dashboard.hotspots pyfloat health
                 = Dashboard.top_hotspots (Dashboard.file_stats cs))
    by (subst health; destruct cs; reflexivity).
  assert (Hchurn : Dashboard.health_high_churn_files pyfloat health
                   = Dashboard.high_churn_files (Dashboard.file_stats cs))
    by (subst health; destruct cs; reflexivity).
  split; [apply rows_paths |].
  split.
  { intros h [H | H]; [apply rows_sound, H |].
    rewrite Hhot in H. apply top_hotspots_sound, H. }
  split.
  { intros p Hp. rewrite <- file_stats_keys in Hp.
    apply key_has_entry in Hp. destruct Hp as (s & Hs).
    destruct (file_stats_entry cs p s Hs) as (_ & _ & Ha & Hd).
    rewrite <- Ha, <- Hd. split.
    - intros (r & Hr & Hpath). apply high_churn_In in Hr.
      destruct Hr as (p' & s' & Hin & Hlt & ->). cbn in Hpath. subst p'.
      assert (E : Some s' = Some s).
      { assert (Hnd : NoDup (Dict.keys (Dashboard.file_stats cs)))
          by (rewrite file_stats_keys; apply distinct_NoDup).
        rewrite <- (get_of_entry (Dashboard.file_stats cs) p s' Hnd Hin).
        apply (get_of_entry (Dashboard.file_stats cs) p s Hnd Hs). }
      injection E as ->. exact Hlt.
    - intros Hlt. exists (AggregateSpec.churn_entry p s). split; [| reflexivity].
      apply high_churn_In. exists p, s. auto. }
  split.
  { intros r Hr. apply high_churn_In in Hr.
    destruct Hr as (p & s & Hin & Hlt & ->).
    destruct (file_stats_entry cs p s Hin) as (_ & _ & Ha & Hd).
    cbn [AggregateSpec.churn_entry Dashboard.c_path Dashboard.churn
         Dashboard.stability]. cbv zeta.
    rewrite <- Ha, <- Hd.
    unfold Dashboard.HIGH_CHURN_THRESHOLD in Hlt.
    assert (Hst : Dashboard.classify_stability
                    (Z.abs (Dashboard.fs_additions s - Dashboard.fs_deletions s))
                    (Dashboard.fs_additions s + Dashboard.fs_deletions s)
                  = Dashboard.stable
                  <-> PyFloat.gt_stability_threshold
                        (Z.abs (Dashboard.fs_additions s - Dashboard.fs_deletions s))
                        (Dashboard.fs_additions s + Dashboard.fs_deletions s)
                      = true)
      by (apply classify_stability_stable; lia).
    split; [rewrite <- file_stats_keys; eapply entry_has_key; exact Hin |].
    split; [reflexivity |]. split; [exact Hlt |].
    split.
    { rewrite Hst. unfold PyFloat.gt_stability_threshold.
      destruct (Z.eqb_spec
                  (Z.abs (Dashboard.fs_additions s - Dashboard.fs_deletions s)) 0)
        as [E | E].
      - split; [discriminate | intros [_ Hne]; lia].
      - split; [intros H; split; [exact H | lia] | intros [H _]; exact H]. }
    split.
    { rewrite Hst, gt_stability_threshold_midpoint by (try apply Z.abs_nonneg; lia).
      apply Z.leb_le. }
    split.
    - destruct (Dashboard.classify_stability _ _); split; intros H;
        try reflexivity; try discriminate H; try discriminate;
        exfalso; apply H; reflexivity.
    - intros Hb. rewrite Hst. apply stability_exact; [apply Z.abs_nonneg | lia]. }
  split.
  { exists (PyList.sort_desc Dashboard.churn candidates).
    split; [apply sort_desc_perm |]. split; [apply sort_desc_sorted |].
    rewrite Hchurn. reflexivity. }
  rewrite Hchurn. apply firstn_le_length.
Qed.

Lemma code_health_classification_witness :
  let cs :=
    [ {| CommitHistory.header :=
           CommitHistory.mkHeader "h1" "Erik" "e@x.org" "2025-01-02" "big";
         CommitHistory.files :=
           [ CommitHistory.mkFileChange "src/a.py" 120 30;
             CommitHistory.mkFileChange "README" 40 40 ];
         CommitHistory.stats := CommitHistory.mkStats 2 160 70 |} ] in
  In "src/a.py" (AggregateSpec.touched_paths cs)
  /\ exists r, In r (Dashboard.high_churn (Dashboard.file_stats cs))
               /\ Dashboard.c_path r = "src/a.py".
Proof.
  intros cs.
  assert (Hp : In "src/a.py" (AggregateSpec.touched_paths cs))
    by (left; reflexivity).
  split; [exact Hp |].
  destruct (code_health_classification unit (fun _ _ => tt) cs)
    as (_ & _ & Hcand & _).
  apply (Hcand "src/a.py" Hp). vm_compute. reflexivity.
Defined.

(* ------------------------------------------------------------------ *)
(** ** The extension of a path *)

Section Extension.

Import TextSpec AggregateSpec.

Lemma small_dot : DOT < 256.
Proof. unfold DOT. lia. Qed.

Lemma append_empty_r (s : string) : (s ++ "")%string = s.
Proof. induction s as [| c s IH]; cbn; [reflexivity | rewrite IH; reflexivity]. Qed.

Lemma append_assoc (a b c : string) :
  ((a ++ b) ++ c)%string = (a ++ b ++ c)%string.
Proof. induction a as [| x a IH]; cbn; [reflexivity | rewrite IH; reflexivity]. Qed.

Lemma rev_string_app (a b : string) :
  rev_string (a ++ b) = (rev_string b ++ rev_string a)%string.
Proof.
  induction a as [| x a IH]; cbn [append rev_string].
  - symmetry. apply append_empty_r.
  - rewrite IH. apply append_assoc.
Qed.

Lemma rev_string_involutive (s : string) : rev_string (rev_string s) = s.
Proof.
  induction s as [| c s IH]; [reflexivity |].
  cbn [rev_string]. rewrite rev_string_app, IH. reflexivity.
Qed.

Lemma count_char_rev (n : nat) (s : string) :
  count_char n (rev_string s) = count_char n s.
Proof.
  induction s as [| c s IH]; [reflexivity |].
  cbn [rev_string]. rewrite (count_char_app n), IH. cbn. lia.
Qed.

Lemma count_char_le_length (n : nat) (s : string) :
  count_char n s <= String.length s.
Proof.
  induction s as [| c s IH]; cbn; [lia |].
  destruct (code c =? n); lia.
Qed.

Lemma contains_dot (p : string) :
  contains "." p = negb (count_char DOT p =? 0).
Proof.
  induction p as [| c p IH]; [reflexivity |].
  cbn [contains count_char].
  change (String.prefix "." (String c p))
    with (String.prefix (str1 (chr DOT)) (String c p)).
  rewrite (prefix_sep DOT small_dot), IH.
  destruct (code c =? DOT); cbn [orb]; [reflexivity |].
  cbn [Nat.add]. reflexivity.
Qed.

Lemma after_last_dot_None (p : string) :
  after_last_dot p = None <-> count_char DOT p = 0.
Proof.
  induction p as [| c p IH]; cbn [after_last_dot count_char]; [tauto |].
  destruct (after_last_dot p) as [x |].
  - split; [discriminate |]. intros H.
    assert (Hp : count_char DOT p = 0) by lia.
    apply IH in Hp. discriminate Hp.
  - assert (Hp : count_char DOT p = 0) by (apply IH; reflexivity).
    rewrite Hp. unfold DOT. destruct (code c =? 46); cbn;
      split; intros H; try reflexivity; discriminate H.
Qed.

(** After a dot, the last field of a text is that of what follows it. *)
Lemma after_last_dot_app (a b : string) :
  after_last_dot (a ++ "." ++ b) = Some (tail_field b).
Proof.
  unfold tail_field. induction a as [| c a IH].
  - cbn. destruct (after_last_dot b); reflexivity.
  - cbn [append after_last_dot]. cbn [append] in IH. rewrite IH. reflexivity.
Qed.

Lemma tail_field_no_dot (s : string) :
  count_char DOT s = 0 -> tail_field s = s.
Proof.
  intros H. apply after_last_dot_None in H. unfold tail_field. rewrite H.
  reflexivity.
Qed.

Lemma split_dot_cut (k : nat) (s : string) :
  split_max "." (S k) s =
  match cut_at DOT s with
  | Some (a, b) => a :: split_max "." k b
  | None => [s]
  end.
Proof. exact (split_max_cut DOT small_dot k s). Qed.

Lemma split_dot_length (k : nat) (s : string) :
  length (split_max "." k s) = S (Nat.min k (count_char DOT s)).
Proof. exact (split_max_length DOT small_dot k s). Qed.

Lemma last_cons_nonempty (a : string) (l : list string) :
  l <> [] -> last (a :: l) "" = last l "".
Proof. destruct l; [congruence | reflexivity]. Qed.

(** With cuts enough for all dots, the last field is the text after the
    last dot. *)
Lemma last_split_dot (k : nat) (s : string) :
  count_char DOT s <= k -> last (split_max "." k s) "" = tail_field s.
Proof.
  revert s. induction k as [| k IH]; intros s Hk.
  - assert (H0 : count_char DOT s = 0) by lia.
    rewrite (tail_field_no_dot s H0). unfold split_max.
    rewrite (split_go_zero DOT). reflexivity.
  - rewrite split_dot_cut. destruct (cut_at DOT s) as [[a b] |] eqn:E.
    + apply (cut_at_Some DOT small_dot) in E. destruct E as [-> Ha].
      change (str1 (chr DOT)) with "." in *.
      rewrite last_cons_nonempty.
      * rewrite IH.
        -- unfold tail_field at 2. rewrite after_last_dot_app. reflexivity.
        -- rewrite !(count_char_app DOT) in Hk.
           change (count_char DOT ".") with 1 in Hk. lia.
      * intros Hnil. pose proof (split_dot_length k b) as Hl.
        rewrite Hnil in Hl. discriminate Hl.
    + apply cut_at_None in E. rewrite (tail_field_no_dot s E). reflexivity.
Qed.

Lemma developer_file_type (p : string) :
  DeveloperStats.file_type p = extension_key p.
Proof.
  unfold DeveloperStats.file_type, extension_key. rewrite contains_dot.
  destruct (count_char DOT p =? 0) eqn:E; cbn [negb].
  - apply Nat.eqb_eq, after_last_dot_None in E. rewrite E. reflexivity.
  - unfold last_item, split. change (split_go "." (String.length p) 0 p)
      with (split_max "." (String.length p) p).
    rewrite last_split_dot by apply count_char_le_length.
    unfold tail_field. destruct (after_last_dot p) as [x |] eqn:Ea; [reflexivity |].
    apply after_last_dot_None in Ea. rewrite Ea in E. discriminate E.
Qed.

Lemma dashboard_file_type (p : string) :
  Dashboard.file_type p = extension_key p.
Proof.
  unfold Dashboard.file_type, extension_key. rewrite contains_dot.
  destruct (count_char DOT p =? 0) eqn:E; cbn [negb].
  - apply Nat.eqb_eq, after_last_dot_None in E. rewrite E. reflexivity.
  - unfold rsplit_max. change (rev_string ".") with ".".
    rewrite split_dot_cut.
    destruct (cut_at DOT (rev_string p)) as [[a b] |] eqn:Ec.
    + apply (cut_at_Some DOT small_dot) in Ec. destruct Ec as [Hp Ha].
      change (str1 (chr DOT)) with "." in Hp.
      assert (Hp' : p = (rev_string b ++ "." ++ rev_string a)%string).
      { rewrite <- (rev_string_involutive p), Hp, !rev_string_app.
        rewrite append_assoc. reflexivity. }
      unfold split_max. rewrite (split_go_zero DOT).
      cbn [map rev app item nth].
      rewrite Hp', after_last_dot_app.
      rewrite tail_field_no_dot by (rewrite count_char_rev; exact Ha).
      reflexivity.
    + apply cut_at_None in Ec. rewrite count_char_rev in Ec.
      rewrite Ec in E. discriminate E.
Qed.

Lemma extension_key_dot (pre suf : string) :
  count_char DOT suf = 0 ->
  extension_key (pre ++ "." ++ suf) = ("." ++ suf)%string.
Proof.
  intros H. unfold extension_key.
  rewrite after_last_dot_app, (tail_field_no_dot suf H). reflexivity.
Qed.

Lemma extension_key_none (p : string) :
  count_char DOT p = 0 -> extension_key p = "(no extension)".
Proof.
  intros H. apply after_last_dot_None in H. unfold extension_key.
  rewrite H. reflexivity.
Qed.

End Extension.

(* ------------------------------------------------------------------ *)
(** ** Histograms of extensions *)

Section Histogram.

Import CommitHistory AggregateSpec.

Lemma developer_touch_keys (fl : list FileChange) (d : Dict.t DeveloperStats.FileAcc) :
  Dict.keys (fold_left DeveloperStats.touch fl d)
  = fold_left (fun s x => PyList.set_add x s) (map path fl) (Dict.keys d).
Proof.
  revert d. induction fl as [| f fl IH]; intros d; cbn [fold_left map].
  - reflexivity.
  - rewrite IH. unfold DeveloperStats.touch. rewrite upsert_keys.
    reflexivity.
Qed.

Lemma developer_file_stats_keys (cs : list CommitRecord) :
  Dict.keys (DeveloperStats.file_stats cs) = touched_paths cs.
Proof. apply developer_touch_keys. Qed.

Lemma count_loop {E : Type} (L : list E) (o : option Z) :
  fold_left
    (fun o _ => Some (match o with Some n => n + 1 | None => 1 end)%Z) L o
  = match L with
    | [] => o
    | _ => Some (counted o + len L)%Z
    end.
Proof.
  revert o. induction L as [| x L IH]; intros o; [reflexivity |].
  cbn [fold_left]. rewrite IH. rewrite len_cons.
  destruct L as [| y L].
  - unfold len. cbn. destruct o; f_equal; lia.
  - f_equal. rewrite len_cons. destruct o; cbn [counted]; lia.
Qed.

Lemma filter_of_map {A B : Type} (f : A -> B) (g : B -> bool) (l : list A) :
  filter g (map f l) = map f (filter (fun a => g (f a)) l).
Proof.
  induction l as [| a l IH]; cbn [map filter]; [reflexivity |].
  destruct (g (f a)); cbn [map]; rewrite IH; reflexivity.
Qed.

Lemma count_all_fold_keys (ks : list string) (c : Counter.t) :
  Dict.keys (fold_left (fun c k => Counter.incr k c) ks c)
  = fold_left (fun s x => PyList.set_add x s) ks (Dict.keys c).
Proof.
  revert c. induction ks as [| k ks IH]; intros c; cbn [fold_left].
  - reflexivity.
  - rewrite IH. unfold Counter.incr. rewrite upsert_keys. reflexivity.
Qed.

Lemma count_all_keys_NoDup (ks : list string) :
  NoDup (Dict.keys (Counter.count_all ks)).
Proof.
  unfold Counter.count_all. rewrite count_all_fold_keys.
  apply fold_set_add_NoDup. constructor.
Qed.

(** The count of a key is the number of paths that have it. *)
Lemma count_all_get (k : string) (paths : list string) :
  Dict.get k (Counter.count_all (map extension_key paths))
  = if (0 <? count_key k paths)%Z then Some (count_key k paths) else None.
Proof.
  unfold Counter.count_all.
  etransitivity.
  { exact (fold_upsert_get (fun x : string => x)
             (fun (_ : string) (o : option Z) =>
                match o with Some n => n + 1 | None => 1 end)%Z
             k (map extension_key paths) []). }
  cbn beta. rewrite count_loop, filter_of_map. unfold count_key, len.
  rewrite <- (length_map extension_key
                (filter (fun a => String.eqb (extension_key a) k) paths)).
  destruct (map extension_key
              (filter (fun a => String.eqb (extension_key a) k) paths))
    as [| x L]; [reflexivity |].
  cbn [Dict.get counted length].
  destruct (0 <? Z.of_nat (S (length L)))%Z eqn:E.
  - f_equal.
  - apply Z.ltb_ge in E. lia.
Qed.

Lemma developer_file_types (cs : list CommitRecord) :
  DeveloperStats.file_types (DeveloperStats.analyze_developer_stats cs)
  = Counter.most_common 10
      (Counter.count_all (map extension_key (touched_paths cs))).
Proof.
  destruct cs as [| c cs]; [reflexivity |].
  cbn [DeveloperStats.analyze_developer_stats DeveloperStats.file_types].
  rewrite developer_file_stats_keys.
  rewrite (map_ext _ _ developer_file_type). reflexivity.
Qed.

Lemma dashboard_file_types (pyfloat : Type) (round1_percent : Z -> Z -> pyfloat)
    (cs : list CommitRecord) :
  map (fun e => (fst e, Dashboard.count pyfloat (snd e)))
    (Dashboard.file_types_distribution pyfloat
       (Dashboard.analyze_code_health pyfloat round1_percent cs))
  = Counter.most_common 10
      (Counter.count_all (map extension_key (touched_paths cs))).
Proof.
  assert (E : Dashboard.file_types_distribution pyfloat
                (Dashboard.analyze_code_health pyfloat round1_percent cs)
              = Dashboard.distribution pyfloat round1_percent
                  (Dashboard.file_types (Dashboard.file_stats cs)))
    by (destruct cs; reflexivity).
  rewrite E. unfold Dashboard.distribution, Dashboard.file_types.
  rewrite file_stats_keys, (map_ext _ _ dashboard_file_type), map_map.
  rewrite <- (map_id (Counter.most_common 10 _)) at 2.
  apply map_ext. intros [k n]. reflexivity.
Qed.

End Histogram.

(** C7 as stated fails on any path with a dot: the key is the suffix with
    the dot in front of it, not the suffix. *)
Lemma extension_key_keeps_the_dot :
  DeveloperStats.file_type "src/main.py" = ".py"
  /\ Dashboard.file_type "src/main.py" = ".py"
  /\ AggregateSpec.claimed_key "src/main.py" = "py"
  /\ ~ (forall p, DeveloperStats.file_type p = AggregateSpec.claimed_key p).
Proof.
  repeat split; try reflexivity.
  intros H. specialize (H "src/main.py"). vm_compute in H. discriminate H.
Qed.

(** C7, amended. In the developer statistics and in the dashboard the key
    of a path is a dot followed by the text after the last dot of the
    path, or [(no extension)] when the path has no dot. The histogram has
    one count per distinct touched path under the key of that path, every
    key once; [file_types] and the keys and counts of
    [file_types_distribution] are the first ten entries of the histogram
    in the order of decreasing count. *)
Theorem extension_histograms (pyfloat : Type)
    (round1_percent : Z -> Z -> pyfloat)
    (cs : list CommitHistory.CommitRecord) :
  let paths := AggregateSpec.touched_paths cs in
  let histogram := Counter.count_all (map AggregateSpec.extension_key paths) in
  let top := firstn 10 (PyList.sort_desc snd histogram) in
  (forall p, DeveloperStats.file_type p = AggregateSpec.extension_key p
             /\ Dashboard.file_type p = AggregateSpec.extension_key p)
  /\ (forall pre suf,
         TextSpec.count_char TextSpec.DOT suf = 0 ->
         AggregateSpec.extension_key (pre ++ "." ++ suf) = ("." ++ suf)%string)
  /\ (forall p,
         TextSpec.count_char TextSpec.DOT p = 0 ->
         AggregateSpec.extension_key p = "(no extension)")
  /\ NoDup paths
  /\ NoDup (Dict.keys histogram)
  /\ (forall k,
         Dict.get k histogram
         = if (0 <? AggregateSpec.count_key k paths)%Z
           then Some (AggregateSpec.count_key k paths) else None)
  /\ Permutation (PyList.sort_desc snd histogram) histogram
  /\ StronglySorted (AggregateSpec.ge_key snd) (PyList.sort_desc snd histogram)
  /\ DeveloperStats.file_types (DeveloperStats.analyze_developer_stats cs) = top
  /\ map (fun e => (fst e, Dashboard.count pyfloat (snd e)))
       (Dashboard.file_types_distribution pyfloat
          (Dashboard.analyze_code_health pyfloat round1_percent cs)) = top
  /\ length top <= 10.
Proof.
  intros paths histogram top.
  split; [intros p; split; [apply developer_file_type | apply dashboard_file_type] |].
  split; [exact extension_key_dot |].
  split; [exact extension_key_none |].
  split; [apply distinct_NoDup |].
  split; [apply count_all_keys_NoDup |].
  split; [intros k; apply count_all_get |].
  split; [apply sort_desc_perm |].
  split; [apply sort_desc_sorted |].
  split; [apply developer_file_types |].
  split; [apply dashboard_file_types |].
  apply firstn_le_length.
Qed.

Lemma extension_histograms_witness :
  TextSpec.count_char TextSpec.DOT "gz" = 0
  /\ AggregateSpec.extension_key ("src/data.tar" ++ "." ++ "gz") = ".gz".
Proof.
  assert (H : TextSpec.count_char TextSpec.DOT "gz" = 0) by reflexivity.
  split; [exact H |].
  destruct (extension_histograms unit (fun _ _ => tt) []) as (_ & Hdot & _).
  exact (Hdot "src/data.tar" "gz" H).
Defined.

(* ================================================================== *)
(** * Further properties of the operations, parsers and aggregators *)

(* ------------------------------------------------------------------ *)
(** ** The repository check and the operations *)

Section RepositoryCheck.

Import Tools.

Variable w : World.

Lemma run_git_result (repo : string) (args : list string) (t t' : Trace)
    (out : string) :
  run_git w repo args t = (t', Ok out) ->
  git_on_path w = true
  /\ t' = t ++ [(repo, args)]
  /\ git w (length t) repo args = Output out.
Proof.
  unfold run_git. destruct (git_on_path w); [| discriminate].
  destruct (git w (length t) repo args) as [o | |]; intros E;
    inversion E; subst; auto.
Qed.

Lemma run_git_grows (repo : string) (args : list string) (t : Trace) :
  fst (run_git w repo args t) = t
  \/ fst (run_git w repo args t) = t ++ [(repo, args)].
Proof. apply run_git_trace. Qed.

Lemma bind_io_raise {A B : Type} (m : io A) (k : A -> io B) (t t' : Trace)
    (e : exn) :
  m t = (t', Raise e) -> bind_io m k t = (t', Raise e).
Proof. intros H. unfold bind_io. rewrite H. reflexivity. Qed.

Lemma bind_io_ok {A B : Type} (m : io A) (k : A -> io B) (t t' : Trace) (a : A) :
  m t = (t', Ok a) -> bind_io m k t = k a t'.
Proof. intros H. unfold bind_io. rewrite H. reflexivity. Qed.

Lemma bind_io_returns {A B : Type} (m : io A) (k : A -> io B) (t t2 : Trace)
    (b : B) :
  bind_io m k t = (t2, Ok b) ->
  exists t1 a, m t = (t1, Ok a) /\ k a t1 = (t2, Ok b).
Proof.
  unfold bind_io. destruct (m t) as [t1 [a | e]]; intros H.
  - exists t1, a. auto.
  - discriminate H.
Qed.

End RepositoryCheck.

(** X1. When the repository check returns, the path is not empty and is a
    directory, the executable was found, and exactly one command was
    started, [rev-parse --git-dir] in that directory, which succeeded. *)
Theorem ensure_is_git_repo_postcondition (w : Tools.World) (repo : string)
    (t t' : Tools.Trace) :
  Tools.ensure_is_git_repo w repo t = (t', Ok tt) ->
  nonempty repo = true
  /\ Tools.isdir w repo = true
  /\ Tools.git_on_path w = true
  /\ t' = t ++ [Commands.check repo]
  /\ exists out,
       Tools.git w (length t) repo ["rev-parse"; "--git-dir"] = Tools.Output out.
Proof.
  unfold Tools.ensure_is_git_repo.
  destruct (nonempty repo); cbn [negb]; [| discriminate].
  destruct (Tools.isdir w repo); cbn [negb]; [| discriminate].
  intros H. apply bind_io_returns in H. destruct H as (t1 & out & Hrun & Hret).
  apply run_git_result in Hrun. destruct Hrun as (Hg & Ht & Hout).
  unfold Tools.ret in Hret. injection Hret as <-.
  repeat split; auto. exists out. exact Hout.
Qed.

Lemma ensure_is_git_repo_postcondition_witness :
  Tools.ensure_is_git_repo Tools.quiet_repository "/srv/repo" []
  = ([Commands.check "/srv/repo"], Ok tt)
  /\ Tools.isdir Tools.quiet_repository "/srv/repo" = true.
Proof.
  assert (H : Tools.ensure_is_git_repo Tools.quiet_repository "/srv/repo" []
              = ([Commands.check "/srv/repo"], Ok tt)) by reflexivity.
  split; [exact H |].
  destruct (ensure_is_git_repo_postcondition _ _ _ _ H) as (_ & Hd & _).
  exact Hd.
Defined.

(** X2. Every registered operation checks the repository first: when the
    check raises, the operation raises the same error and has started no
    command beyond what the check started. *)
Theorem operations_check_repository_first (w : Tools.World) (repo : string)
    (t t' : Tools.Trace) (e : exn) :
  Tools.ensure_is_git_repo w repo t = (t', Raise e) ->
  (forall f, Operations.get_commit_history w repo f t = (t', Raise e))
  /\ Operations.get_branch_list w repo t = (t', Raise e)
  /\ (forall author since until,
         Operations.get_developer_stats w repo author since until t
         = (t', Raise e))
  /\ (forall file_exists file since until max_count,
         Operations.get_file_changes w file_exists repo file since until
           max_count t = (t', Raise e))
  /\ (forall now operation,
         Operations.sync_repository w now repo operation t = (t', Raise e))
  /\ (forall authors since until,
         Tools.compare_developer_stats w repo authors since until t
         = (t', Raise e)).
Proof.
  intros H. repeat split; intros; apply bind_io_raise; exact H.
Qed.

Lemma operations_check_repository_first_witness :
  Tools.ensure_is_git_repo Tools.no_repository "/srv/none" []
  = ([], Raise GitRepositoryError)
  /\ Operations.get_branch_list Tools.no_repository "/srv/none" []
     = ([], Raise GitRepositoryError).
Proof.
  assert (H : Tools.ensure_is_git_repo Tools.no_repository "/srv/none" []
              = ([], Raise GitRepositoryError)) by reflexivity.
  split; [exact H |].
  destruct (operations_check_repository_first _ _ _ _ _ H) as (_ & Hb & _).
  exact Hb.
Defined.

Section SyncOperation.

Import Tools Operations.

Variable w : World.

Lemma ensure_ok_trace (repo : string) (t t' : Trace) (u : unit) :
  ensure_is_git_repo w repo t = (t', Ok u) -> t' = t ++ [Commands.check repo].
Proof.
  unfold ensure_is_git_repo.
  destruct (negb (nonempty repo)); [discriminate |].
  destruct (negb (isdir w repo)); [discriminate |].
  intros H. apply bind_io_returns in H. destruct H as (t1 & out & Hrun & Hret).
  apply run_git_result in Hrun. destruct Hrun as (_ & Ht & _).
  unfold ret in Hret. injection Hret as <- _. exact Ht.
Qed.





End SyncOperation.



Section ComparisonRun.

Import Tools.

Variable w : World.

Lemma collect_returns (repo : string) (since until : option string)
    (authors : list string) (acc ds : list CompareDevelopers.Entry)
    (t t' : Trace) :
  collect w repo since until authors acc t = (t', Ok ds) ->
  exists fresh,
    ds = acc ++ fresh
    /\ map CompareDevelopers.developer fresh = authors
    /\ t' = t ++ map (Commands.author_log repo since until) authors.
Proof.
  revert acc t. induction authors as [| a authors IH]; intros acc t H.
  - cbn in H. unfold ret in H. injection H as <- <-.
    exists []. rewrite !app_nil_r. auto.
  - cbn [collect] in H. apply bind_io_returns in H.
    destruct H as (t1 & raw & Hraw & H).
    apply run_git_result in Hraw. destruct Hraw as (_ & -> & _).
    apply bind_io_returns in H. destruct H as (t2 & commits & Hparse & H).
    unfold lift in Hparse. injection Hparse as <- Hparse.
    apply IH in H. destruct H as (fresh & -> & Hdev & ->).
    exists (CompareDevelopers.fresh_entry a
              (DeveloperStats.analyze_developer_stats commits) :: fresh).
    rewrite <- !app_assoc. cbn [app map CompareDevelopers.fresh_entry
                                  CompareDevelopers.developer].
    rewrite Hdev. auto.
Qed.

Lemma compare_developers_frame_idem (ds : list CompareDevelopers.Entry) :
  snd (CompareDevelopers.compare_developers
         (map CompareDevelopers.store_score ds))
  = snd (CompareDevelopers.compare_developers ds).
Proof.
  destruct ds as [| e es]; [reflexivity |].
  unfold CompareDevelopers.compare_developers. cbn [map snd].
  rewrite map_map.
  rewrite (map_ext (fun x => CompareDevelopers.store_score
                               (CompareDevelopers.store_score x))
                   CompareDevelopers.store_score)
    by (intros a; reflexivity).
  reflexivity.
Qed.

Lemma compare_developers_after (ds : list CompareDevelopers.Entry) :
  fst (CompareDevelopers.compare_developers ds)
  = map CompareDevelopers.store_score ds.
Proof. destruct ds; reflexivity. Qed.

End ComparisonRun.

(** X4. When the comparison operation returns, it was given between 2 and
    10 authors; it started the repository check and then one [log] command
    per author, in the order of the authors and each filtered by its
    author; the developers of the response are the authors in that order,
    and each carries [activity_score], its additions plus its deletions. *)
Theorem compare_developer_stats_returns (w : Tools.World) (repo : string)
    (authors : list string) (since until : option string)
    (t' : Tools.Trace) (json : Tools.ComparisonJson) :
  Tools.compare_developer_stats w repo authors since until [] = (t', Ok json) ->
  2 <= length authors <= 10
  /\ t' = Commands.check repo
          :: map (Commands.author_log repo since until) authors
  /\ map CompareDevelopers.developer (Tools.developers json) = authors
  /\ Forall
       (fun e =>
          CompareDevelopers.activity_score (CompareDevelopers.stats e)
          = Some (CompareDevelopers.additions_of e
                  + CompareDevelopers.deletions_of e)%Z)
       (Tools.developers json)
  /\ Tools.comparison json
     = snd (CompareDevelopers.compare_developers (Tools.developers json)).
Proof.
  intros H. unfold Tools.compare_developer_stats in H.
  apply bind_io_returns in H. destruct H as (t1 & u & Hcheck & H).
  apply ensure_ok_trace in Hcheck. cbn [app] in Hcheck. subst t1.
  destruct (length authors <? 2) eqn:E2; [discriminate H |].
  destruct (10 <? length authors) eqn:E10; [discriminate H |].
  apply Nat.ltb_ge in E2. apply Nat.ltb_ge in E10.
  unfold Tools.build_comparison_json in H.
  apply bind_io_returns in H. destruct H as (t2 & ds & Hcol & H).
  apply collect_returns in Hcol. destruct Hcol as (fresh & -> & Hdev & ->).
  cbn [app] in H.
  pose proof (compare_developers_after fresh) as Hafter.
  pose proof (compare_developers_frame_idem fresh) as Hidem.
  destruct (CompareDevelopers.compare_developers fresh) as [after c] eqn:Ec.
  cbn [fst snd] in *. unfold Tools.ret in H. injection H as <- <-.
  cbn [Tools.developers Tools.comparison]. subst after.
  split; [lia |]. split; [reflexivity |].
  split; [rewrite map_map; exact Hdev |].
  split; [| symmetry; exact Hidem].
  apply Forall_forall. intros e He. apply in_map_iff in He.
  destruct He as (e0 & <- & _). reflexivity.
Qed.

Lemma compare_developer_stats_returns_witness :
  exists t' json,
    Tools.compare_developer_stats Tools.quiet_repository "/srv/repo"
      ["Erik"; "John"] None None [] = (t', Ok json)
    /\ map CompareDevelopers.developer (Tools.developers json)
       = ["Erik"; "John"].
Proof.
  assert (H : exists t' json,
             Tools.compare_developer_stats Tools.quiet_repository "/srv/repo"
               ["Erik"; "John"] None None [] = (t', Ok json))
    by (eexists; eexists; vm_compute; reflexivity).
  destruct H as (t' & json & H). exists t', json. split; [exact H |].
  destruct (compare_developer_stats_returns _ _ _ _ _ _ _ H)
    as (_ & _ & Hdev & _).
  exact Hdev.
Defined.

(* ------------------------------------------------------------------ *)
(** ** When the history parsers return *)

Section ParsersReturn.

Import CommitLogSpec ParserSpec.








End ParsersReturn.



(* ------------------------------------------------------------------ *)
(** ** Single-file history parser *)

Section FileHistory.

Import CommitLogSpec ParserSpec TextSpec.

Lemma file_step_sentinel (st : FileChanges.pstate) (l : string) :
  is_sentinel (strip l) = true ->
  FileChanges.step st l
  = Ok {| FileChanges.commits := FileChanges.flush st;
          FileChanges.current_commit := file_opened (strip l) |}.
Proof.
  intros H. unfold FileChanges.step, file_opened, valid_sentinel, header_of_line.
  rewrite H. unfold is_sentinel in H. rewrite H, six_fields. cbn [andb].
  unfold PIPE. destruct (5 <=? count_char 124 (strip l)); reflexivity.
Qed.

Lemma file_step_other (st : FileChanges.pstate) (l : string) :
  is_sentinel (strip l) = false ->
  FileChanges.step st l =
  match FileChanges.current_commit st with
  | Some c =>
      c' <- (if nonempty (strip l) then FileChanges.file_line (strip l) c
             else Ok c) ;;
      Ok {| FileChanges.commits := FileChanges.commits st;
            FileChanges.current_commit := Some c' |}
  | None => Ok st
  end.
Proof.
  intros H. unfold FileChanges.step. unfold is_sentinel in H. rewrite H.
  destruct st as [cs [c |]];
    cbn [FileChanges.current_commit FileChanges.commits]; [| reflexivity].
  destruct (nonempty (strip l)); reflexivity.
Qed.

Lemma file_line_keeps_header (l : string) (c c' : FileChanges.FileHistoryRecord) :
  FileChanges.file_line l c = Ok c' ->
  FileChanges.header c' = FileChanges.header c.
Proof.
  unfold FileChanges.file_line. destruct (length (split TAB l) =? 3).
  - intros E. apply bind_Ok_inv in E. destruct E as (a & _ & E).
    apply bind_Ok_inv in E. destruct E as (d & _ & E).
    injection E as <-. reflexivity.
  - intros E; injection E as <-; reflexivity.
Qed.

Lemma valid_is_sentinel (l : string) :
  is_sentinel l = false -> valid_sentinel l = false.
Proof. intros H. unfold valid_sentinel. rewrite H. reflexivity. Qed.

Lemma file_headers_loop (lines : list string) (st st' : FileChanges.pstate) :
  foldM FileChanges.step lines st = Ok st' ->
  map FileChanges.header (FileChanges.flush st')
  = map FileChanges.header (FileChanges.flush st)
    ++ map header_of_line (filter valid_sentinel (map strip lines)).
Proof.
  revert st. induction lines as [| l lines IH]; intros st; cbn [foldM].
  - intros E; injection E as <-. cbn. rewrite app_nil_r. reflexivity.
  - intros E. apply bind_Ok_inv in E. destruct E as (st1 & E1 & E).
    rewrite (IH st1 E). cbn [map filter]. clear IH E.
    destruct (is_sentinel (strip l)) eqn:Es.
    + rewrite (file_step_sentinel st l Es) in E1. injection E1 as <-.
      unfold file_opened. destruct (valid_sentinel (strip l)).
      * unfold FileChanges.flush at 1.
        cbn [FileChanges.current_commit FileChanges.commits map app].
        rewrite map_app, <- app_assoc. reflexivity.
      * unfold FileChanges.flush at 1.
        cbn [FileChanges.current_commit FileChanges.commits]. reflexivity.
    + rewrite (valid_is_sentinel _ Es).
      rewrite (file_step_other st l Es) in E1. f_equal.
      unfold FileChanges.flush.
      destruct (FileChanges.current_commit st) as [c |] eqn:Ec.
      * apply bind_Ok_inv in E1. destruct E1 as (c' & Ec' & E1).
        injection E1 as <-.
        cbn [FileChanges.current_commit FileChanges.commits].
        rewrite !map_app. cbn [map]. f_equal. f_equal.
        destruct (nonempty (strip l)).
        -- apply (file_line_keeps_header (strip l)), Ec'.
        -- injection Ec' as <-. reflexivity.
      * injection E1 as <-. rewrite Ec. reflexivity.
Qed.

Lemma parse_file_history_lines (raw target : string) :
  FileChanges.parse_file_history raw target
  = file_history_of_lines (splitlines raw).
Proof.
  unfold FileChanges.parse_file_history. destruct raw; reflexivity.
Qed.

Lemma file_history_headers (lines : list string)
    (rs : list FileChanges.FileHistoryRecord) :
  file_history_of_lines lines = Ok rs ->
  map FileChanges.header rs
  = map header_of_line (filter valid_sentinel (map strip lines)).
Proof.
  unfold file_history_of_lines. intros E.
  apply bind_Ok_inv in E. destruct E as (st & Hrun & E). injection E as <-.
  apply (file_headers_loop lines FileChanges.initial st Hrun).
Qed.

End FileHistory.

(** X6. Whatever the text, the records of the single-file history parser
    have the headers of the valid sentinels, in order; so, when both
    parsers return on a text, the file-history records and the commit-log
    records have the same headers in the same order. *)
Theorem parse_file_history_headers (raw target : string)
    (rs : list FileChanges.FileHistoryRecord) :
  FileChanges.parse_file_history raw target = Ok rs ->
  map FileChanges.header rs
  = map CommitLogSpec.header_of_line
      (filter CommitLogSpec.valid_sentinel (map strip (splitlines raw)))
  /\ (forall cs, CommitHistory.parse_commit_history raw = Ok cs ->
                 map CommitHistory.header cs = map FileChanges.header rs).
Proof.
  rewrite parse_file_history_lines. intros H.
  pose proof (file_history_headers _ _ H) as Hh.
  split; [exact Hh |].
  intros cs Hcs. rewrite Hh.
  assert (Hp : CommitHistory.parse_lines (splitlines raw) = Ok cs).
  { unfold CommitHistory.parse_commit_history in Hcs.
    destruct raw; [injection Hcs as <-; reflexivity | exact Hcs]. }
  apply parse_lines_headers, Hp.
Qed.

Lemma parse_file_history_headers_witness :
  exists rs,
    FileChanges.parse_file_history Samples.sample_log "src/a.py" = Ok rs
    /\ map (fun r => CommitHistory.hash (FileChanges.header r)) rs
       = ["abc"; "def"].
Proof.
  assert (H : exists rs,
             FileChanges.parse_file_history Samples.sample_log "src/a.py" = Ok rs)
    by (eexists; vm_compute; reflexivity).
  destruct H as (rs & H). exists rs. split; [exact H |].
  destruct (parse_file_history_headers _ _ _ H) as (Hh & _).
  rewrite <- (map_map FileChanges.header CommitHistory.hash), Hh.
  vm_compute. reflexivity.
Defined.

Section FileHistoryChanges.

Import CommitLogSpec ParserSpec.




End FileHistoryChanges.



(* ------------------------------------------------------------------ *)
(** ** Stripping *)

Section Stripping.

Import TextSpec ParserSpec.

Lemma lstrip_starts_clean (s : string) : starts_clean (lstrip s).
Proof.
  induction s as [| c r IH]; cbn [lstrip]; [exact I |].
  destruct (is_space c) eqn:E; [exact IH | exact E].
Qed.

Lemma lstrip_clean (s : string) : starts_clean s -> lstrip s = s.
Proof.
  destruct s as [| c r]; cbn; [reflexivity |]. intros ->. reflexivity.
Qed.

Lemma rstrip_clean_head (c : ascii) (r : string) :
  is_space c = false -> rstrip (String c r) = String c (rstrip r).
Proof.
  intros H. cbn [rstrip]. destruct (rstrip r); [rewrite H |]; reflexivity.
Qed.

Lemma rstrip_starts_clean (s : string) : starts_clean s -> starts_clean (rstrip s).
Proof.
  destruct s as [| c r]; [intros _; exact I |].
  cbn [starts_clean]. intros H. rewrite (rstrip_clean_head c r H). exact H.
Qed.

Lemma rstrip_idempotent (s : string) : rstrip (rstrip s) = rstrip s.
Proof.
  induction s as [| c r IH]; [reflexivity |].
  cbn [rstrip]. destruct (rstrip r) as [| c' r'] eqn:E.
  - destruct (is_space c) eqn:Ec; [reflexivity |].
    cbn. rewrite Ec. reflexivity.
  - change (rstrip (String c (String c' r')))
      with (match rstrip (String c' r') with
            | "" => if is_space c then "" else str1 c
            | r'' => String c r''
            end).
    rewrite IH. reflexivity.
Qed.

(** What [strip] returns has no white space left to strip. *)
Lemma strip_idempotent (s : string) : strip (strip s) = strip s.
Proof.
  unfold strip.
  rewrite (lstrip_clean (rstrip (lstrip s)))
    by (apply rstrip_starts_clean, lstrip_starts_clean).
  apply rstrip_idempotent.
Qed.

Lemma count_char_lstrip (n : nat) (s : string) :
  count_char n (lstrip s) <= count_char n s.
Proof.
  induction s as [| c r IH]; cbn [lstrip]; [lia |].
  destruct (is_space c); [cbn [count_char]; lia | lia].
Qed.

Lemma count_char_rstrip (n : nat) (s : string) :
  count_char n (rstrip s) <= count_char n s.
Proof.
  induction s as [| c r IH]; cbn [rstrip]; [lia |].
  destruct (rstrip r) as [| c' r'].
  - destruct (is_space c); cbn [count_char str1] in *; lia.
  - cbn [count_char] in *. lia.
Qed.

Lemma count_char_strip (n : nat) (s : string) :
  count_char n (strip s) <= count_char n s.
Proof.
  unfold strip. etransitivity; [apply count_char_rstrip | apply count_char_lstrip].
Qed.

End Stripping.

(* ------------------------------------------------------------------ *)
(** ** Branch records *)

Section BranchRecords.

Import Branches BranchListSpec TextSpec.

Lemma keep_some_In {A B : Type} (f : A -> option B) (l : list A) (y : B) :
  In y (keep_some f l) -> exists x, In x l /\ f x = Some y.
Proof.
  induction l as [| x l IH]; cbn [keep_some]; [intros [] |].
  destruct (f x) as [y' |] eqn:E.
  - intros [<- | H].
    + exists x. split; [left; reflexivity | exact E].
    + destruct (IH H) as (x' & Hin & Hf). exists x'. split; [right |]; assumption.
  - intros H. destruct (IH H) as (x' & Hin & Hf).
    exists x'. split; [right |]; assumption.
Qed.

Lemma keep_some_length {A B : Type} (f : A -> option B) (l : list A) :
  length (keep_some f l) <= length l.
Proof.
  induction l as [| x l IH]; cbn [keep_some length]; [lia |].
  destruct (f x); cbn [length]; lia.
Qed.

Lemma record_of_name (line : string) (b : BranchRecord) :
  record_of line = Some b ->
  nonempty (name b) = true
  /\ count_char PIPE (name b) = 0
  /\ strip (name b) = name b
  /\ strip (last_commit_date b) = last_commit_date b.
Proof.
  unfold record_of.
  destruct (cut_at PIPE line) as [[a d] |] eqn:E; [| discriminate].
  destruct (nonempty (strip a)) eqn:En; [| discriminate].
  intros H. injection H as <-. cbn [name last_commit_date].
  apply (cut_at_Some PIPE small_pipe) in E. destruct E as [_ Ha].
  pose proof (count_char_strip PIPE a) as Hle.
  repeat split; [exact En | lia | apply strip_idempotent | apply strip_idempotent].
Qed.

End BranchRecords.

(** X8. Every record of the branch-list parser has a name that is not
    empty, contains no pipe and carries no surrounding white space, and a
    date without surrounding white space; there are at most as many
    records as lines, and the response counts them. *)
Theorem parse_branches_records (raw : string) :
  (forall b, In b (Branches.parse_branches raw) ->
             nonempty (Branches.name b) = true
             /\ TextSpec.count_char TextSpec.PIPE (Branches.name b) = 0
             /\ strip (Branches.name b) = Branches.name b
             /\ strip (Branches.last_commit_date b) = Branches.last_commit_date b)
  /\ length (Branches.parse_branches raw) <= length (splitlines raw)
  /\ (forall repo,
         Responses.total_branches (Responses.build_branch_list_json repo raw)
         = len (Responses.branches (Responses.build_branch_list_json repo raw))
         /\ Responses.branches (Responses.build_branch_list_json repo raw)
            = Branches.parse_branches raw).
Proof.
  split; [| split].
  - intros b Hb. unfold Branches.parse_branches in Hb.
    rewrite parse_branches_loop in Hb. cbn [app] in Hb.
    apply keep_some_In in Hb. destruct Hb as (line & _ & Hr).
    apply (record_of_name line b Hr).
  - unfold Branches.parse_branches. rewrite parse_branches_loop. cbn [app].
    etransitivity; [apply keep_some_length |]. rewrite length_map. lia.
  - intros repo. split; reflexivity.
Qed.

Lemma parse_branches_records_witness :
  In (Branches.mkBranch "main" "2025-01-02") (Branches.parse_branches "main | 2025-01-02")
  /\ nonempty (Branches.name (Branches.mkBranch "main" "2025-01-02")) = true.
Proof.
  assert (H : In (Branches.mkBranch "main" "2025-01-02")
                 (Branches.parse_branches "main | 2025-01-02"))
    by (left; reflexivity).
  split; [exact H |].
  destruct (parse_branches_records "main | 2025-01-02") as (Hn & _).
  exact (proj1 (Hn _ H)).
Defined.

(* ------------------------------------------------------------------ *)
(** ** Fetch transcripts *)

Section FetchOutput.

Import Sync ParserSpec TextSpec.

Lemma code_inj (x y : ascii) : code x = code y -> x = y.
Proof.
  unfold code. intros H.
  rewrite <- (ascii_nat_embedding x), <- (ascii_nat_embedding y), H.
  reflexivity.
Qed.

(** Of two different strings one is below the other. *)
Lemma str_ltb_total (a b : string) :
  str_ltb a b = false -> String.eqb a b = false -> str_ltb b a = true.
Proof.
  revert b. induction a as [| x a IH]; intros b.
  - destruct b; cbn; intros H1 H2; discriminate.
  - destruct b as [| y b]; [reflexivity |].
    cbn [str_ltb]. intros Hlt Hne.
    apply orb_false_iff in Hlt. destruct Hlt as [Hxy Hrest].
    apply Nat.ltb_ge in Hxy.
    destruct (code y <? code x) eqn:Eyx; [reflexivity |].
    apply Nat.ltb_ge in Eyx. assert (Hc : code x = code y) by lia.
    apply code_inj in Hc. subst y. rewrite Nat.eqb_refl in *.
    cbn [andb orb] in *. apply IH; [exact Hrest |].
    cbn [String.eqb] in Hne. rewrite Ascii.eqb_refl in Hne. exact Hne.
Qed.

Lemma insert_str_In (x y : string) (l : list string) :
  In y (PyList.insert_str x l) <-> y = x \/ In y l.
Proof.
  induction l as [| z l IH]; cbn [PyList.insert_str In].
  - split; [intros [<- | []]; auto | intros [-> | []]; auto].
  - destruct (String.eqb x z) eqn:E.
    + apply String.eqb_eq in E. subst z. cbn [In]. split; [auto |].
      intros [-> | H]; auto.
    + destruct (str_ltb x z); cbn [In]; [split; intros H; intuition auto |].
      rewrite IH. split; intros H; intuition auto.
Qed.

Lemma sorted_set_In (y : string) (l : list string) :
  In y (PyList.sorted_set l) <-> In y l.
Proof.
  induction l as [| x l IH]; cbn [PyList.sorted_set fold_right In]; [tauto |].
  fold (PyList.sorted_set l). rewrite insert_str_In, IH.
  split; intros [H | H]; auto.
Qed.

Lemma insert_str_HdRel (x y : string) (l : list string) :
  str_lt y x -> HdRel str_lt y l -> HdRel str_lt y (PyList.insert_str x l).
Proof.
  intros Hyx Hl. destruct l as [| z l]; cbn [PyList.insert_str].
  - constructor. exact Hyx.
  - destruct (String.eqb x z); [exact Hl |].
    destruct (str_ltb x z); constructor; [exact Hyx |].
    inversion Hl; assumption.
Qed.

Lemma insert_str_sorted (x : string) (l : list string) :
  Sorted str_lt l -> Sorted str_lt (PyList.insert_str x l).
Proof.
  induction l as [| z l IH]; intros Hs; cbn [PyList.insert_str].
  - constructor; constructor.
  - destruct (String.eqb x z) eqn:E; [exact Hs |].
    destruct (str_ltb x z) eqn:Elt.
    + constructor; [exact Hs | constructor; exact Elt].
    + inversion Hs as [| z' l' Hl Hz]; subst. constructor; [apply IH, Hl |].
      apply insert_str_HdRel; [| exact Hz].
      unfold str_lt. apply str_ltb_total; [exact Elt | exact E].
Qed.

Lemma sorted_set_sorted (l : list string) : Sorted str_lt (PyList.sorted_set l).
Proof.
  induction l as [| x l IH]; cbn [PyList.sorted_set fold_right]; [constructor |].
  apply insert_str_sorted, IH.
Qed.

Lemma set_add_In (x y : string) (s : list string) :
  In y (PyList.set_add x s) <-> y = x \/ In y s.
Proof.
  unfold PyList.set_add. destruct (existsb (String.eqb x) s) eqn:E.
  - split; [auto |]. intros [-> | H]; [| exact H].
    apply existsb_exists in E. destruct E as (z & Hz & Ez).
    apply String.eqb_eq in Ez. subst z. exact Hz.
  - rewrite in_app_iff. cbn [In]. split; intros H; intuition auto.
Qed.

(** The remotes after one line. *)
Lemma fetch_step_remotes (st : fstate) (l : string) :
  remotes_set (fetch_step st l)
  = match fetched_remote (strip l) with
    | Some r => PyList.set_add r (remotes_set st)
    | None => remotes_set st
    end.
Proof.
  unfold fetch_step, fetched_remote.
  destruct (strip l) as [| c s] eqn:El; [reflexivity |].
  cbn [nonempty negb]. rewrite <- El.
  destruct (contains "Fetching" (strip l)).
  - destruct (split_ws (strip l)) as [| p0 [| p1 ps]];
      cbn [length Nat.leb item nth];
      destruct (contains "->" (strip l)); try reflexivity;
      destruct (contains "[new branch]" (strip l)); try reflexivity;
      try (destruct (arrow_target (strip l)) as [[r b] |]; reflexivity);
      destruct (contains "[deleted]" (strip l) || contains "x " (strip l));
      destruct (arrow_target (strip l)) as [[r b] |]; reflexivity.
  - destruct (contains "->" (strip l)); try reflexivity;
      destruct (contains "[new branch]" (strip l)); try reflexivity;
      try (destruct (arrow_target (strip l)) as [[r b] |]; reflexivity);
      destruct (contains "[deleted]" (strip l) || contains "x " (strip l));
      destruct (arrow_target (strip l)) as [[r b] |]; reflexivity.
Qed.

Lemma fetch_loop_remotes (lines : list string) (st : fstate) (r : string) :
  In r (remotes_set (fold_left fetch_step lines st))
  <-> In r (remotes_set st)
      \/ exists l, In l lines /\ fetched_remote (strip l) = Some r.
Proof.
  revert st. induction lines as [| l lines IH]; intros st; cbn [fold_left].
  - split; [auto | intros [H | (l & [] & _)]; exact H].
  - rewrite IH, fetch_step_remotes. split.
    + intros [H | (l' & Hin & Hf)].
      * destruct (fetched_remote (strip l)) as [r' |] eqn:E; [| auto].
        apply set_add_In in H. destruct H as [-> | H]; [| auto].
        right. exists l. split; [left; reflexivity | exact E].
      * right. exists l'. split; [right |]; assumption.
    + intros [H | (l' & [<- | Hin] & Hf)].
      * left. destruct (fetched_remote (strip l)); [apply set_add_In |]; auto.
      * left. rewrite Hf. apply set_add_In. auto.
      * right. exists l'. auto.
Qed.

End FetchOutput.

(** X9. The remotes of a fetch summary are in strictly ascending order of
    code points, hence each once; a name is among them exactly when some
    line of the transcript contains [Fetching] and has that name as its
    second word. *)
Theorem parse_fetch_output_remotes (raw : string) :
  Sorted ParserSpec.str_lt (Sync.remotes_synced (Sync.parse_fetch_output raw))
  /\ (forall r,
         In r (Sync.remotes_synced (Sync.parse_fetch_output raw))
         <-> exists l, In l (splitlines raw)
                       /\ ParserSpec.fetched_remote (strip l) = Some r).
Proof.
  unfold Sync.parse_fetch_output. destruct raw as [| c raw'].
  - cbn. split; [constructor |]. intros r. split; [intros [] |].
    intros (l & [] & _).
  - cbn [nonempty negb Sync.remotes_synced]. split; [apply sorted_set_sorted |].
    intros r. rewrite sorted_set_In, fetch_loop_remotes. cbn [Sync.remotes_set In].
    split; [intros [[] | H]; exact H | auto].
Qed.

Lemma parse_fetch_output_remotes_witness :
  let raw := ("Fetching upstream" ++ LF ++ "Fetching origin")%string in
  (exists l, In l (splitlines raw)
             /\ ParserSpec.fetched_remote (strip l) = Some "origin")
  /\ In "origin" (Sync.remotes_synced (Sync.parse_fetch_output raw)).
Proof.
  intros raw.
  assert (H : exists l, In l (splitlines raw)
                        /\ ParserSpec.fetched_remote (strip l) = Some "origin").
  { exists "Fetching origin". split; [right; left; reflexivity | reflexivity]. }
  split; [exact H |].
  destruct (parse_fetch_output_remotes raw) as (_ & Hin).
  apply Hin. exact H.
Defined.

Section FetchArrows.

Import Sync ParserSpec TextSpec.

Lemma contains_char (n : nat) (p : string) :
  n < 256 -> contains (str1 (chr n)) p = negb (count_char n p =? 0).
Proof.
  intros Hn. induction p as [| c p IH]; [reflexivity |].
  cbn [contains count_char]. rewrite (prefix_sep n Hn), IH.
  destruct (code c =? n); cbn [orb]; [reflexivity |].
  cbn [Nat.add]. reflexivity.
Qed.

Lemma small_slash : SLASH < 256.
Proof. unfold SLASH. lia. Qed.

Lemma arrow_target_remote (line r b : string) :
  arrow_target line = Some (r, b) -> count_char SLASH r = 0.
Proof.
  unfold arrow_target.
  destruct (length (split "->" line) =? 2); [| discriminate].
  set (info := strip (item 1 (split "->" line))).
  change (contains "/" info) with (contains (str1 (chr SLASH)) info).
  rewrite (contains_char SLASH info small_slash).
  destruct (count_char SLASH info =? 0) eqn:E; cbn [negb]; [discriminate |].
  change (split_max "/" 1 info) with (split_max (str1 (chr SLASH)) 1 info).
  rewrite (split_max_cut SLASH small_slash 0 info).
  destruct (cut_at SLASH info) as [[a d] |] eqn:Ec.
  - apply (cut_at_Some SLASH small_slash) in Ec. destruct Ec as [_ Ha].
    cbn [item nth]. intros H. injection H as <- _. exact Ha.
  - apply cut_at_None in Ec. rewrite Ec in E. discriminate E.
Qed.

Lemma fetch_step_arrows (st : fstate) (l : string) :
  (Forall clean_remote (f_updated st) ->
   Forall clean_remote (f_updated (fetch_step st l)))
  /\ length (f_updated (fetch_step st l)) + length (f_pruned (fetch_step st l))
     <= length (f_updated st) + length (f_pruned st)
        + (if has_arrow (strip l) then 1 else 0).
Proof.
  unfold fetch_step, has_arrow.
  destruct (nonempty (strip l)); cbn [negb andb]; [| split; [auto | lia]].
  set (st1 := if contains "Fetching" (strip l) then _ else st).
  assert (Hu : f_updated st1 = f_updated st)
    by (subst st1; destruct (contains "Fetching" (strip l)); [| reflexivity];
        destruct (2 <=? length (split_ws (strip l))); reflexivity).
  assert (Hp : f_pruned st1 = f_pruned st)
    by (subst st1; destruct (contains "Fetching" (strip l)); [| reflexivity];
        destruct (2 <=? length (split_ws (strip l))); reflexivity).
  clearbody st1.
  destruct (contains "->" (strip l)); [| rewrite Hu, Hp; split; [auto | lia]].
  destruct (contains "[new branch]" (strip l)).
  - destruct (arrow_target (strip l)) as [[r b] |] eqn:Ea;
      cbn [f_updated f_pruned]; rewrite ?Hu, ?Hp; [| split; [auto | lia]].
    split.
    + intros H. apply Forall_app. split; [exact H |].
      constructor; [| constructor]. apply (arrow_target_remote _ _ _ Ea).
    + rewrite length_app. cbn [length]. lia.
  - destruct (contains "[deleted]" (strip l) || contains "x " (strip l)).
    + destruct (arrow_target (strip l)) as [[r b] |] eqn:Ea;
        cbn [f_updated f_pruned]; rewrite ?Hu, ?Hp; [| split; [auto | lia]].
      split; [auto |]. rewrite length_app. cbn [length]. lia.
    + destruct (arrow_target (strip l)) as [[r b] |] eqn:Ea;
        cbn [f_updated f_pruned]; rewrite ?Hu, ?Hp; [| split; [auto | lia]].
      split.
      * intros H. apply Forall_app. split; [exact H |].
        constructor; [| constructor]. apply (arrow_target_remote _ _ _ Ea).
      * rewrite length_app. cbn [length]. lia.
Qed.

Lemma fetch_loop_arrows (lines : list string) (st : fstate) :
  let st' := fold_left fetch_step lines st in
  (Forall clean_remote (f_updated st) -> Forall clean_remote (f_updated st'))
  /\ length (f_updated st') + length (f_pruned st')
     <= length (f_updated st) + length (f_pruned st)
        + length (filter has_arrow (map strip lines)).
Proof.
  revert st. induction lines as [| l lines IH]; intros st; cbn zeta.
  - cbn. split; [auto | lia].
  - cbn [fold_left map filter].
    destruct (IH (fetch_step st l)) as [IH1 IH2]. cbn zeta in IH1, IH2.
    destruct (fetch_step_arrows st l) as [H1 H2].
    split; [auto |].
    destruct (has_arrow (strip l)); cbn [length]; lia.
Qed.

End FetchArrows.

(** X10. In a fetch summary the remote of every branch update contains no
    slash (the right-hand side of the arrow is cut at its first slash), and
    the updates and the pruned branches together are at most as many as the
    lines with an arrow: a line is counted once, as new, pruned or
    updated. *)
Theorem parse_fetch_output_arrows (raw : string) :
  Forall ParserSpec.clean_remote
    (Sync.branches_updated (Sync.parse_fetch_output raw))
  /\ length (Sync.branches_updated (Sync.parse_fetch_output raw))
     + length (Sync.branches_pruned (Sync.parse_fetch_output raw))
     <= length (filter ParserSpec.has_arrow (map strip (splitlines raw))).
Proof.
  unfold Sync.parse_fetch_output. destruct raw as [| c raw'].
  - cbn. split; [constructor | lia].
  - cbn [nonempty negb Sync.branches_updated Sync.branches_pruned].
    destruct (fetch_loop_arrows (splitlines (String c raw'))
                {| Sync.remotes_set := []; Sync.f_updated := [];
                   Sync.f_pruned := [] |}) as [H1 H2].
    cbn zeta in H1, H2. cbn [Sync.f_updated Sync.f_pruned length] in H1, H2.
    split; [apply H1; constructor | lia].
Qed.

(* ------------------------------------------------------------------ *)
(** ** Status reports *)

Section StatusOutput.

Import Sync ParserSpec.

Lemma parse_digits_nonneg (s : string) (acc : Z) (prev : bool) (z : Z) :
  (0 <= acc)%Z -> parse_digits acc prev s = Some z -> (0 <= z)%Z.
Proof.
  revert acc prev. induction s as [| c r IH]; intros acc prev Hacc;
    cbn [parse_digits].
  - destruct prev; [intros E; injection E as <-; exact Hacc | discriminate].
  - destruct (is_digit c).
    + apply IH. unfold digit_val. lia.
    + destruct ((code c =? 95) && prev); [| discriminate].
      destruct r; [discriminate |]. apply IH. exact Hacc.
Qed.

Lemma digit_char_codes (c : ascii) :
  is_digit_char c = true ->
  is_int_space c = false /\ (code c =? 43) = false /\ (code c =? 45) = false.
Proof.
  unfold is_digit_char, is_digit, is_int_space. set (n := code c).
  rewrite !orb_true_iff, andb_true_iff, !Nat.leb_le, !Nat.eqb_eq.
  intros H.
  repeat split;
    repeat (apply orb_false_iff; split);
    try (apply andb_false_iff);
    rewrite ?Nat.leb_gt, ?Nat.eqb_neq; lia.
Qed.

Lemma int_rstrip_digits (s : string) :
  all_chars is_digit_char s = true -> int_rstrip s = s.
Proof.
  induction s as [| c r IH]; [reflexivity |].
  cbn [all_chars int_rstrip]. intros H. apply andb_true_iff in H.
  destruct H as [Hc Hr]. rewrite (IH Hr).
  destruct (digit_char_codes c Hc) as (Hs & _ & _).
  destruct r; [rewrite Hs |]; reflexivity.
Qed.

(** What [isdigit] lets through is read as a number that is not
    negative, when it is read at all. *)
Lemma int_isdigit_nonneg (s : string) (z : Z) :
  isdigit s = true -> int s = Ok z -> (0 <= z)%Z.
Proof.
  unfold isdigit, int, int_of_string. intros H.
  apply andb_true_iff in H. destruct H as [Hne Hall].
  destruct s as [| c r]; [discriminate Hne |].
  assert (Hc : is_digit_char c = true)
    by (cbn [all_chars] in Hall; apply andb_true_iff in Hall; apply Hall).
  destruct (digit_char_codes c Hc) as (Hs & Hplus & Hminus).
  cbn [int_lstrip]. rewrite Hs, (int_rstrip_digits _ Hall), Hplus, Hminus.
  destruct (parse_digits 0 false (String c r)) as [v |] eqn:E; [| discriminate].
  intros Hz. injection Hz as <-.
  eapply parse_digits_nonneg; [| exact E]. lia.
Qed.

Lemma count_after_nonneg (word part : string) (z : Z) :
  count_after word part = Ok z -> (0 <= z)%Z.
Proof.
  unfold count_after. destruct (contains word part).
  - destruct (isdigit _) eqn:E.
    + apply int_isdigit_nonneg, E.
    + intros H. injection H as <-. lia.
  - intros H. injection H as <-. lia.
Qed.

Lemma decide_status_table (c t : option string) (a b : Z) :
  (0 <= a)%Z -> (0 <= b)%Z ->
  status_table {| current_branch := c; tracking := t; ahead := a; behind := b;
                  sync_status := decide_status a b |}.
Proof.
  intros Ha Hb. unfold status_table, decide_status.
  cbn [sync_status ahead behind].
  destruct (0 <? a)%Z eqn:Ea; destruct (0 <? b)%Z eqn:Eb; cbn [andb];
    rewrite ?Z.ltb_lt, ?Z.ltb_ge in *;
    repeat split; intros; try discriminate; try reflexivity; lia.
Qed.

End StatusOutput.

(** X11. When the status parser returns, the counts ahead and behind are
    not negative. If the first line, stripped, does not begin with [##]
    the record is the unknown one; otherwise the status is never unknown
    and follows from the counts: diverged when both are positive, ahead or
    behind when one is, up to date when both are zero. *)
Theorem parse_status_output_table (raw : string) (r : Sync.StatusRecord) :
  Sync.parse_status_output raw = Ok r ->
  (0 <= Sync.ahead r)%Z
  /\ (0 <= Sync.behind r)%Z
  /\ (ParserSpec.has_branch_line raw = false -> r = Sync.unknown_status)
  /\ (ParserSpec.has_branch_line raw = true -> ParserSpec.status_table r).
Proof.
  unfold Sync.parse_status_output, ParserSpec.has_branch_line.
  destruct raw as [| c0 raw']; cbn [nonempty negb].
  - intros E. injection E as <-. cbn. split; [lia |]. split; [lia |]. split; [reflexivity | discriminate].
  - destruct (splitlines (String c0 raw')) as [| line0 rest].
    + intros E. injection E as <-. cbn. split; [lia |]. split; [lia |]. split; [reflexivity | discriminate].
    + destruct (startswith "##" (strip line0)); cbn [negb].
      * set (info := strip (drop 3 (strip line0))).
        destruct (contains "..." info).
        -- destruct (contains "[" (strip (item 1 (split "..." info)))).
           ++ intros E. apply bind_Ok_inv in E. destruct E as (a & Ea & E).
              apply bind_Ok_inv in E. destruct E as (b & Eb & E).
              injection E as <-. apply count_after_nonneg in Ea, Eb.
              cbn [Sync.ahead Sync.behind].
              split; [exact Ea |]. split; [exact Eb |].
              split; [discriminate |].
              intros _. apply decide_status_table; assumption.
           ++ intros E. injection E as <-. cbn [Sync.ahead Sync.behind].
              split; [lia |]. split; [lia |]. split; [discriminate |].
              intros _. apply decide_status_table; lia.
        -- intros E. injection E as <-. cbn [Sync.ahead Sync.behind].
           split; [lia |]. split; [lia |]. split; [discriminate |].
           intros _. apply decide_status_table; lia.
      * intros E. injection E as <-. cbn. split; [lia |]. split; [lia |]. split; [reflexivity | discriminate].
Qed.

Lemma parse_status_output_table_witness :
  exists r,
    Sync.parse_status_output "## main...origin/main [ahead 2, behind 1]" = Ok r
    /\ ParserSpec.status_table r.
Proof.
  assert (H : exists r,
             Sync.parse_status_output "## main...origin/main [ahead 2, behind 1]"
             = Ok r) by (eexists; vm_compute; reflexivity).
  destruct H as (r & H). exists r. split; [exact H |].
  destruct (parse_status_output_table _ _ H) as (_ & _ & _ & Ht).
  apply Ht. reflexivity.
Defined.

(* ------------------------------------------------------------------ *)
(** ** Developer statistics: the most active files *)

Section MostActiveFiles.

Import CommitHistory AccumulatorSpec.

Lemma developer_file_stats_get (p : string) (fl : list FileChange)
    (d : Dict.t DeveloperStats.FileAcc) :
  Dict.get p (fold_left DeveloperStats.touch fl d)
  = file_bump_all (filter (fun f => String.eqb (path f) p) fl) (Dict.get p d).
Proof.
  exact (fold_upsert_get path file_bump p fl d).
Qed.

Lemma file_bump_all_fields (fl : list FileChange)
    (o : option DeveloperStats.FileAcc) :
  let s := file_acc_of (file_bump_all fl o) in
  DeveloperStats.acc_commits s
  = (DeveloperStats.acc_commits (file_acc_of o) + len fl)%Z
  /\ DeveloperStats.acc_additions s
     = (DeveloperStats.acc_additions (file_acc_of o)
        + sum_Z (map additions fl))%Z
  /\ DeveloperStats.acc_deletions s
     = (DeveloperStats.acc_deletions (file_acc_of o)
        + sum_Z (map deletions fl))%Z.
Proof.
  revert o. induction fl as [| f fl IH]; intros o.
  - cbn. unfold len, sum_Z. cbn. repeat split; lia.
  - cbn zeta.
    change (file_bump_all (f :: fl) o)
      with (file_bump_all fl (Some (file_bump f o))).
    destruct (IH (Some (file_bump f o))) as (Hc & Ha & Hd).
    cbn zeta in Hc, Ha, Hd. rewrite Hc, Ha, Hd.
    cbn [file_acc_of map]. rewrite len_cons, !sum_Z_cons.
    unfold file_bump. fold (file_acc_of o).
    cbn [DeveloperStats.acc_commits DeveloperStats.acc_additions
         DeveloperStats.acc_deletions].
    repeat split; lia.
Qed.

(** What the accumulator of the developer statistics holds for a path. *)
Lemma developer_file_stats_entry (cs : list CommitRecord) (p : string)
    (a : DeveloperStats.FileAcc) :
  In (p, a) (DeveloperStats.file_stats cs) ->
  DeveloperStats.acc_commits a = len (changes_with p cs)
  /\ DeveloperStats.acc_additions a = sum_Z (map additions (changes_with p cs))
  /\ DeveloperStats.acc_deletions a = sum_Z (map deletions (changes_with p cs)).
Proof.
  intros Hin.
  assert (Hget : Dict.get p (DeveloperStats.file_stats cs) = Some a).
  { apply get_of_entry; [| exact Hin].
    rewrite developer_file_stats_keys. apply distinct_NoDup. }
  unfold DeveloperStats.file_stats, DeveloperStats.all_files in Hget.
  rewrite developer_file_stats_get in Hget. cbn [Dict.get] in Hget.
  fold (changes_with p cs) in Hget.
  destruct (file_bump_all_fields (changes_with p cs) None) as (Hc & Ha & Hd).
  cbn zeta in Hc, Ha, Hd. rewrite Hget in Hc, Ha, Hd.
  cbn [file_acc_of DeveloperStats.acc_commits DeveloperStats.acc_additions
       DeveloperStats.acc_deletions] in Hc, Ha, Hd.
  repeat split; lia.
Qed.

Lemma StronglySorted_firstn {A : Type} (R : A -> A -> Prop) (k : nat)
    (l : list A) :
  StronglySorted R l -> StronglySorted R (firstn k l).
Proof.
  revert l. induction k as [| k IH]; intros l Hs; [constructor |].
  destruct l as [| x l]; [constructor |].
  inversion Hs as [| x' l' Hl Hx]; subst. cbn [firstn].
  constructor; [apply IH, Hl |].
  apply Forall_forall. intros y Hy. rewrite Forall_forall in Hx.
  apply Hx. eapply firstn_In, Hy.
Qed.

Lemma NoDup_firstn_of {A : Type} (k : nat) (l : list A) :
  NoDup l -> NoDup (firstn k l).
Proof.
  revert l. induction k as [| k IH]; intros l Hn; [constructor |].
  destruct l as [| x l]; [constructor |].
  inversion Hn as [| x' l' Hx Hl]; subst. cbn [firstn].
  constructor; [| apply IH, Hl].
  intros Hin. apply Hx. eapply firstn_In, Hin.
Qed.

Lemma most_active_rows (cs : list CommitRecord) :
  DeveloperStats.most_active_files (DeveloperStats.analyze_developer_stats cs)
  = firstn 20
      (PyList.sort_desc DeveloperStats.fa_commits
         (map activity_row (DeveloperStats.file_stats cs))).
Proof.
  destruct cs as [| c cs]; [reflexivity |].
  cbn [DeveloperStats.analyze_developer_stats DeveloperStats.most_active_files].
  f_equal. f_equal. apply map_ext. intros [p a]. reflexivity.
Qed.

End MostActiveFiles.

(** X12. The most active files of the developer statistics are at most 20,
    in the order of decreasing commit count, each path once; the entry of
    a path carries the number of file changes of that path and the sums of
    their additions and deletions; and [total_commits] is the number of
    commits. *)
Theorem most_active_files_sound (cs : list CommitHistory.CommitRecord) :
  let stats := DeveloperStats.analyze_developer_stats cs in
  let top := DeveloperStats.most_active_files stats in
  length top <= 20
  /\ StronglySorted (AggregateSpec.ge_key DeveloperStats.fa_commits) top
  /\ NoDup (map DeveloperStats.fa_path top)
  /\ (forall e, In e top ->
        let p := DeveloperStats.fa_path e in
        DeveloperStats.fa_commits e = len (AccumulatorSpec.changes_with p cs)
        /\ DeveloperStats.fa_additions e
           = sum_Z (map CommitHistory.additions (AccumulatorSpec.changes_with p cs))
        /\ DeveloperStats.fa_deletions e
           = sum_Z (map CommitHistory.deletions (AccumulatorSpec.changes_with p cs)))
  /\ DeveloperStats.total_commits stats = len cs.
Proof.
  cbv zeta. rewrite most_active_rows.
  split; [apply firstn_le_length |].
  split; [apply StronglySorted_firstn, sort_desc_sorted |].
  split.
  { rewrite <- firstn_map. apply NoDup_firstn_of.
    apply (Permutation_NoDup
             (l := map DeveloperStats.fa_path
                     (map AccumulatorSpec.activity_row
                        (DeveloperStats.file_stats cs)))).
    - apply Permutation_map. symmetry. apply sort_desc_perm.
    - rewrite map_map. cbn [AccumulatorSpec.activity_row DeveloperStats.fa_path].
      change (map (fun x => fst x) (DeveloperStats.file_stats cs))
        with (Dict.keys (DeveloperStats.file_stats cs)).
      rewrite developer_file_stats_keys. apply distinct_NoDup. }
  split.
  { intros e He. apply firstn_In in He. apply sort_desc_In in He.
    apply in_map_iff in He. destruct He as ([p a] & <- & Hin).
    cbn [AccumulatorSpec.activity_row DeveloperStats.fa_path
         DeveloperStats.fa_commits DeveloperStats.fa_additions
         DeveloperStats.fa_deletions fst snd].
    apply developer_file_stats_entry, Hin. }
  destruct cs; reflexivity.
Qed.

(* ------------------------------------------------------------------ *)
(** ** Totals of the developer statistics and of the executive summary *)

Section Totals.

Import CommitHistory AccumulatorSpec.

Lemma sum_Z_app (l1 l2 : list Z) : sum_Z (l1 ++ l2) = (sum_Z l1 + sum_Z l2)%Z.
Proof.
  unfold sum_Z. rewrite fold_left_app, !fold_left_add. lia.
Qed.

Lemma len_app {A : Type} (l1 l2 : list A) : len (l1 ++ l2) = (len l1 + len l2)%Z.
Proof. unfold len. rewrite length_app. lia. Qed.

(** Summing commit by commit is summing over all file changes. *)
Lemma sum_by_commit (g : FileChange -> Z) (cs : list CommitRecord) :
  sum_Z (map (fun c => sum_Z (map g (files c))) cs)
  = sum_Z (map g (all_changes cs)).
Proof.
  unfold all_changes. induction cs as [| c cs IH]; [reflexivity |].
  cbn [map flat_map]. rewrite sum_Z_cons, map_app, sum_Z_app, IH. reflexivity.
Qed.

Lemma len_by_commit (cs : list CommitRecord) :
  sum_Z (map (fun c => len (files c)) cs) = len (all_changes cs).
Proof.
  unfold all_changes. induction cs as [| c cs IH]; [reflexivity |].
  cbn [map flat_map]. rewrite sum_Z_cons, len_app, IH. reflexivity.
Qed.

Lemma consistent_sums (cs : list CommitRecord) :
  Forall CommitLogSpec.stats_consistent cs ->
  map (fun c => total_files (stats c)) cs = map (fun c => len (files c)) cs
  /\ map (fun c => total_additions (stats c)) cs
     = map (fun c => sum_Z (map additions (files c))) cs
  /\ map (fun c => total_deletions (stats c)) cs
     = map (fun c => sum_Z (map deletions (files c))) cs.
Proof.
  induction 1 as [| c cs (Hf & Ha & Hd) _ (IHf & IHa & IHd)];
    [repeat split |].
  cbn [map]. rewrite Hf, Ha, Hd, IHf, IHa, IHd. repeat split.
Qed.

Lemma set_add_length (x : string) (s : list string) :
  length (PyList.set_add x s) <= S (length s).
Proof.
  unfold PyList.set_add. destruct (existsb (String.eqb x) s); [lia |].
  rewrite length_app. cbn. lia.
Qed.

Lemma fold_set_add_length (l s : list string) :
  length (fold_left (fun s x => PyList.set_add x s) l s)
  <= length s + length l.
Proof.
  revert s. induction l as [| x l IH]; intros s; cbn [fold_left length];
    [lia |].
  specialize (IH (PyList.set_add x s)).
  pose proof (set_add_length x s). lia.
Qed.

Lemma distinct_length (l : list string) :
  length (Dashboard.distinct l) <= length l.
Proof. apply (fold_set_add_length l []). Qed.

Lemma commit_log_consistent (raw : string) (cs : list CommitRecord) :
  parse_commit_history raw = Ok cs -> Forall CommitLogSpec.stats_consistent cs.
Proof.
  unfold parse_commit_history.
  destruct (negb (nonempty raw)).
  - intros E; injection E as <-. constructor.
  - apply parse_lines_consistent.
Qed.

End Totals.

(** X13. On the records of any log the commit-log parser accepts, the
    developer statistics and the executive summary of the dashboard agree
    on the number of commits and on the added and deleted lines, which are
    the sums over all file changes; [total_files_changed] of the developer
    statistics counts the file changes, a path once for every commit that
    touches it, and that of the executive summary the distinct paths, so
    the latter never exceeds the former; there are no more developers than
    commits, and [net_lines] is additions minus deletions. *)
Theorem totals_agree (pyfloat : Type)
    (days_between : string -> string -> option Z)
    (round1_div : Z -> Z -> pyfloat)
    (raw : string) (cs : list CommitHistory.CommitRecord) :
  CommitHistory.parse_commit_history raw = Ok cs ->
  let dev := DeveloperStats.analyze_developer_stats cs in
  let summary :=
    Dashboard.analyze_executive_summary pyfloat days_between round1_div cs in
  let changes := AccumulatorSpec.all_changes cs in
  DeveloperStats.total_commits dev = len cs
  /\ Dashboard.total_commits pyfloat summary = len cs
  /\ DeveloperStats.total_additions dev
     = sum_Z (map CommitHistory.additions changes)
  /\ Dashboard.total_additions pyfloat summary
     = sum_Z (map CommitHistory.additions changes)
  /\ DeveloperStats.total_deletions dev
     = sum_Z (map CommitHistory.deletions changes)
  /\ Dashboard.total_deletions pyfloat summary
     = sum_Z (map CommitHistory.deletions changes)
  /\ DeveloperStats.total_files_changed dev = len changes
  /\ Dashboard.total_files_changed pyfloat summary
     = len (Dashboard.distinct (map CommitHistory.path changes))
  /\ (Dashboard.total_files_changed pyfloat summary
      <= DeveloperStats.total_files_changed dev)%Z
  /\ (Dashboard.total_developers pyfloat summary
      <= Dashboard.total_commits pyfloat summary)%Z
  /\ Dashboard.net_lines pyfloat summary
     = (Dashboard.total_additions pyfloat summary
        - Dashboard.total_deletions pyfloat summary)%Z.
Proof.
  intros Hparse. apply commit_log_consistent in Hparse.
  destruct (consistent_sums cs Hparse) as (Hf & Ha & Hd).
  cbv zeta. destruct cs as [| c cs]; [cbn; repeat split; lia |].
  set (l := c :: cs) in *.
  assert (Hfiles : DeveloperStats.total_files_changed
                     (DeveloperStats.analyze_developer_stats l)
                   = len (AccumulatorSpec.all_changes l)).
  { change (sum_Z (map (fun c => CommitHistory.total_files (CommitHistory.stats c)) l)
            = len (AccumulatorSpec.all_changes l)).
    rewrite Hf. apply len_by_commit. }
  assert (Hdistinct :
            Dashboard.total_files_changed pyfloat
              (Dashboard.analyze_executive_summary pyfloat days_between
                 round1_div l)
            = len (Dashboard.distinct
                     (map CommitHistory.path (AccumulatorSpec.all_changes l))))
    by reflexivity.
  split; [reflexivity |]. split; [reflexivity |].
  split.
  { change (sum_Z (map (fun c => CommitHistory.total_additions
                                   (CommitHistory.stats c)) l)
            = sum_Z (map CommitHistory.additions (AccumulatorSpec.all_changes l))).
    rewrite Ha. apply sum_by_commit. }
  split; [reflexivity |].
  split.
  { change (sum_Z (map (fun c => CommitHistory.total_deletions
                                   (CommitHistory.stats c)) l)
            = sum_Z (map CommitHistory.deletions (AccumulatorSpec.all_changes l))).
    rewrite Hd. apply sum_by_commit. }
  split; [reflexivity |].
  split; [exact Hfiles |].
  split; [exact Hdistinct |].
  split.
  { rewrite Hfiles, Hdistinct. unfold len.
    pose proof (distinct_length
                  (map CommitHistory.path (AccumulatorSpec.all_changes l))) as H.
    rewrite length_map in H. lia. }
  split.
  { change (len (Dashboard.distinct
                   (map (fun c => CommitHistory.author_name
                                    (CommitHistory.header c)) l))
            <= len l)%Z.
    unfold len.
    pose proof (distinct_length
                  (map (fun c => CommitHistory.author_name
                                   (CommitHistory.header c)) l)) as H.
    rewrite length_map in H. lia. }
  reflexivity.
Qed.

Lemma totals_agree_witness :
  exists cs,
    CommitHistory.parse_commit_history Samples.sample_log = Ok cs
    /\ DeveloperStats.total_additions (DeveloperStats.analyze_developer_stats cs)
       = Dashboard.total_additions unit
           (Dashboard.analyze_executive_summary unit (fun _ _ => None)
              (fun _ _ => tt) cs)
    /\ (Dashboard.total_files_changed unit
          (Dashboard.analyze_executive_summary unit (fun _ _ => None)
             (fun _ _ => tt) cs)
        <= DeveloperStats.total_files_changed
             (DeveloperStats.analyze_developer_stats cs))%Z.
Proof.
  assert (H : exists cs,
             CommitHistory.parse_commit_history Samples.sample_log = Ok cs)
    by (eexists; vm_compute; reflexivity).
  destruct H as (cs & Hcs). exists cs.
  destruct (totals_agree unit (fun _ _ => None) (fun _ _ => tt)
              Samples.sample_log cs Hcs)
    as (_ & _ & Ha & Ha' & _ & _ & _ & _ & Hle & _).
  split; [exact Hcs |]. split; [congruence | exact Hle].
Defined.

(* ------------------------------------------------------------------ *)
(** ** Ranked tables: sorted, cut and numbered from 1 *)

Section Ranked.

Context {A B : Type}.
Variable f : Z * A -> B.

Lemma ranked_nth (i : Z) (l : list A) (k : nat) (y : B) :
  nth_error (map f (PyList.enumerate_from i l)) k = Some y ->
  exists x, nth_error l k = Some x /\ y = f ((i + Z.of_nat k)%Z, x).
Proof.
  revert i k. induction l as [| a l IH]; intros i k H.
  - destruct k; discriminate H.
  - destruct k as [| k]; cbn [PyList.enumerate_from map nth_error] in *.
    + injection H as <-. exists a. split; [reflexivity |].
      f_equal. f_equal. lia.
    + destruct (IH _ _ H) as (x & Hx & ->). exists x. split; [exact Hx |].
      f_equal. f_equal. lia.
Qed.

Lemma ranked_In (i : Z) (l : list A) (y : B) :
  In y (map f (PyList.enumerate_from i l)) ->
  exists j x, In x l /\ y = f (j, x).
Proof.
  intros H. apply in_map_iff in H. destruct H as ([j x] & <- & Hin).
  exists j, x. split; [eapply enumerate_from_In, Hin | reflexivity].
Qed.

Lemma ranked_length (i : Z) (l : list A) :
  length (map f (PyList.enumerate_from i l)) = length l.
Proof.
  rewrite length_map. revert i.
  induction l as [| a l IH]; intros i; cbn; [reflexivity | rewrite IH; reflexivity].
Qed.

Lemma ranked_field {C : Type} (g : A -> C) (g' : B -> C) (i : Z) (l : list A) :
  (forall j x, g' (f (j, x)) = g x) ->
  map g' (map f (PyList.enumerate_from i l)) = map g l.
Proof.
  intros Hg. revert i. induction l as [| a l IH]; intros i; [reflexivity |].
  cbn [PyList.enumerate_from map]. rewrite Hg, IH. reflexivity.
Qed.

Lemma ranked_sorted (key : A -> Z) (key' : B -> Z) (i : Z) (l : list A) :
  (forall j x, key' (f (j, x)) = key x) ->
  StronglySorted (AggregateSpec.ge_key key) l ->
  StronglySorted (AggregateSpec.ge_key key') (map f (PyList.enumerate_from i l)).
Proof.
  intros Hk Hs. revert i.
  induction Hs as [| a l Hl IH Ha]; intros i; [constructor |].
  cbn [PyList.enumerate_from map]. constructor; [apply IH |].
  apply Forall_forall. intros y Hy. apply ranked_In in Hy.
  destruct Hy as (j & x & Hx & ->). rewrite Forall_forall in Ha.
  unfold AggregateSpec.ge_key in *. rewrite !Hk. apply Ha, Hx.
Qed.

End Ranked.

Lemma nth_error_firstn_Some {A : Type} (n k : nat) (l : list A) (x : A) :
  nth_error (firstn n l) k = Some x -> nth_error l k = Some x.
Proof.
  revert k l. induction n as [| n IH]; intros k l H.
  - destruct k; discriminate H.
  - destruct l as [| a l]; [destruct k; discriminate H |].
    destruct k as [| k]; [exact H |].
    cbn [firstn nth_error] in H |- *. apply IH, H.
Qed.

Lemma enumerate_from_firstn {A : Type} (n : nat) (i : Z) (l : list A) :
  firstn n (PyList.enumerate_from i l) = PyList.enumerate_from i (firstn n l).
Proof.
  revert i l. induction n as [| n IH]; intros i l; [reflexivity |].
  destruct l as [| a l]; [reflexivity |].
  cbn [PyList.enumerate_from firstn]. rewrite IH. reflexivity.
Qed.

(* ------------------------------------------------------------------ *)
(** ** Dashboard: the per-developer accumulator *)

Section DeveloperAccumulator.

Import Dashboard CommitHistory AccumulatorSpec.

Lemma set_add_present (x : string) (s : list string) :
  In x s -> PyList.set_add x s = s.
Proof.
  intros H. unfold PyList.set_add.
  assert (E : existsb (String.eqb x) s = true).
  { apply existsb_exists. exists x. split; [exact H | apply String.eqb_refl]. }
  rewrite E. reflexivity.
Qed.

Lemma set_add_again (x : string) (n : nat) (s : list string) :
  In x s ->
  fold_left (fun s y => PyList.set_add y s) (repeat x n) s = s.
Proof.
  intros H. induction n as [| n IH]; [reflexivity |].
  cbn [repeat fold_left]. rewrite set_add_present by exact H. exact IH.
Qed.

Lemma map_const {E : Type} (x : string) (l : list E) :
  map (fun _ => x) l = repeat x (length l).
Proof.
  induction l as [| a l IH]; [reflexivity |]. cbn. rewrite IH. reflexivity.
Qed.

Lemma dev_touch_keys (ds : Dict.t DevAcc) (c : CommitRecord) :
  Dict.keys (dev_touch ds c)
  = PyList.set_add (author_name (header c)) (Dict.keys ds).
Proof.
  unfold dev_touch. cbv zeta.
  rewrite (fold_upsert_keys (fun _ : FileChange => author_name (header c))
             (fun f o =>
                let a := dev_get o in
                {| ds_commits := ds_commits a;
                   ds_additions := (ds_additions a + additions f)%Z;
                   ds_deletions := (ds_deletions a + deletions f)%Z;
                   ds_files := PyList.set_add (path f) (ds_files a) |})).
  rewrite upsert_keys, map_const. apply set_add_again.
  apply set_add_In. left. reflexivity.
Qed.

Lemma dev_stats_keys_from (cs : list CommitRecord) (d : Dict.t DevAcc) :
  Dict.keys (fold_left dev_touch cs d)
  = fold_left (fun s x => PyList.set_add x s) (authors_of cs) (Dict.keys d).
Proof.
  revert d. induction cs as [| c cs IH]; intros d; [reflexivity |].
  cbn [fold_left authors_of map]. rewrite IH, dev_touch_keys. reflexivity.
Qed.

Lemma dev_stats_keys (cs : list CommitRecord) :
  Dict.keys (dev_stats cs) = distinct (authors_of cs).
Proof. apply (dev_stats_keys_from cs []). Qed.

(** The files of one commit, seen from the accumulator of its author. *)
Lemma dev_files_loop (fl : list FileChange) (o : option DevAcc) :
  let a :=
    dev_get
      (fold_left
         (fun o f =>
            Some (let a := dev_get o in
                  {| ds_commits := ds_commits a;
                     ds_additions := (ds_additions a + additions f)%Z;
                     ds_deletions := (ds_deletions a + deletions f)%Z;
                     ds_files := PyList.set_add (path f) (ds_files a) |}))
         fl o) in
  ds_commits a = ds_commits (dev_get o)
  /\ ds_additions a = (ds_additions (dev_get o) + sum_Z (map additions fl))%Z
  /\ ds_deletions a = (ds_deletions (dev_get o) + sum_Z (map deletions fl))%Z
  /\ ds_files a
     = fold_left (fun s x => PyList.set_add x s) (map path fl)
         (ds_files (dev_get o)).
Proof.
  revert o. induction fl as [| f fl IH]; intros o.
  - cbn. unfold sum_Z. cbn. repeat split; lia.
  - cbn [fold_left map]. cbv zeta in IH |- *.
    match goal with
    | |- context [fold_left _ fl (Some ?v)] =>
        destruct (IH (Some v)) as (Hc & Ha & Hd & Hf)
    end.
    rewrite Hc, Ha, Hd, Hf. rewrite !sum_Z_cons.
    cbn [dev_get ds_commits ds_additions ds_deletions ds_files].
    repeat split; lia.
Qed.

Lemma filter_all {E : Type} (l : list E) : filter (fun _ => true) l = l.
Proof.
  induction l as [| a l IH]; [reflexivity |]. cbn. rewrite IH. reflexivity.
Qed.

Lemma dev_touch_get_same (ds : Dict.t DevAcc) (c : CommitRecord) :
  let dev := author_name (header c) in
  let a0 := dev_get (Dict.get dev ds) in
  let a := dev_get (Dict.get dev (dev_touch ds c)) in
  ds_commits a = (ds_commits a0 + 1)%Z
  /\ ds_additions a = (ds_additions a0 + sum_Z (map additions (files c)))%Z
  /\ ds_deletions a = (ds_deletions a0 + sum_Z (map deletions (files c)))%Z
  /\ ds_files a
     = fold_left (fun s x => PyList.set_add x s) (map path (files c))
         (ds_files a0).
Proof.
  cbv zeta. unfold dev_touch. cbv zeta.
  rewrite (fold_upsert_get (fun _ : FileChange => author_name (header c))
             (fun f o =>
                let a := dev_get o in
                {| ds_commits := ds_commits a;
                   ds_additions := (ds_additions a + additions f)%Z;
                   ds_deletions := (ds_deletions a + deletions f)%Z;
                   ds_files := PyList.set_add (path f) (ds_files a) |})).
  rewrite String.eqb_refl, filter_all, upsert_get_same.
  match goal with
  | |- context [fold_left _ (files c) (Some ?v)] =>
      destruct (dev_files_loop (files c) (Some v)) as (Hc & Ha & Hd & Hf)
  end.
  cbv beta zeta in Hc, Ha, Hd, Hf |- *.
  cbn [dev_get ds_commits ds_additions ds_deletions ds_files]
    in Hc, Ha, Hd, Hf |- *.
  repeat split; assumption.
Qed.

Lemma dev_touch_get_other (ds : Dict.t DevAcc) (c : CommitRecord)
    (dev : string) :
  dev <> author_name (header c) ->
  Dict.get dev (dev_touch ds c) = Dict.get dev ds.
Proof.
  intros Hne. unfold dev_touch. cbv zeta.
  rewrite (fold_upsert_get (fun _ : FileChange => author_name (header c))
             (fun f o =>
                let a := dev_get o in
                {| ds_commits := ds_commits a;
                   ds_additions := (ds_additions a + additions f)%Z;
                   ds_deletions := (ds_deletions a + deletions f)%Z;
                   ds_files := PyList.set_add (path f) (ds_files a) |})).
  assert (E : String.eqb (author_name (header c)) dev = false)
    by (apply String.eqb_neq; congruence).
  rewrite E.
  assert (Hnone : forall l : list FileChange, filter (fun _ => false) l = [])
    by (induction l; [reflexivity | assumption]).
  rewrite Hnone. cbn [fold_left]. apply upsert_get_other, Hne.
Qed.

Lemma dev_stats_snoc (cs : list CommitRecord) (c : CommitRecord) :
  dev_stats (cs ++ [c]) = dev_touch (dev_stats cs) c.
Proof. unfold dev_stats. rewrite fold_left_app. reflexivity. Qed.

Lemma commits_by_snoc (dev : string) (cs : list CommitRecord) (c : CommitRecord) :
  commits_by dev (cs ++ [c])
  = commits_by dev cs
    ++ (if String.eqb (author_name (header c)) dev then [c] else []).
Proof.
  unfold commits_by. rewrite filter_app. cbn [filter].
  destruct (String.eqb (author_name (header c)) dev); reflexivity.
Qed.

Lemma all_changes_app (l1 l2 : list CommitRecord) :
  all_changes (l1 ++ l2) = all_changes l1 ++ all_changes l2.
Proof. apply flat_map_app. Qed.

(** What the accumulator holds for a developer: the figures of the
    developer's own commits; nothing for anyone else. *)
Lemma dev_stats_figures (cs : list CommitRecord) (dev : string) :
  let a := dev_get (Dict.get dev (dev_stats cs)) in
  let own := commits_by dev cs in
  ds_commits a = len own
  /\ ds_additions a = sum_Z (map additions (all_changes own))
  /\ ds_deletions a = sum_Z (map deletions (all_changes own))
  /\ ds_files a = distinct (map path (all_changes own)).
Proof.
  cbv zeta. induction cs as [| c cs IH] using rev_ind.
  - cbn. repeat split.
  - rewrite dev_stats_snoc, commits_by_snoc.
    destruct IH as (Hc & Ha & Hd & Hf).
    destruct (String.eqb (author_name (header c)) dev) eqn:E.
    + apply String.eqb_eq in E. subst dev.
      destruct (dev_touch_get_same (dev_stats cs) c) as (Hc' & Ha' & Hd' & Hf').
      cbv zeta in Hc', Ha', Hd', Hf'. rewrite Hc', Ha', Hd', Hf'.
      rewrite Hc, Ha, Hd, Hf.
      assert (Hone : all_changes [c] = files c)
        by (unfold all_changes; cbn [flat_map]; apply app_nil_r).
      rewrite all_changes_app, Hone, !map_app, !sum_Z_app, len_app.
      split; [reflexivity |]. split; [reflexivity |]. split; [reflexivity |].
      unfold distinct. rewrite fold_left_app. reflexivity.
    + apply String.eqb_neq in E.
      rewrite dev_touch_get_other by congruence.
      rewrite app_nil_r. repeat split; assumption.
Qed.

Lemma commits_by_In (dev : string) (cs : list CommitRecord) :
  In dev (authors_of cs) -> (1 <= len (commits_by dev cs))%Z.
Proof.
  unfold authors_of, commits_by, len. intros H. apply in_map_iff in H.
  destruct H as (c & <- & Hc).
  assert (Hin : In c (filter (fun c0 => String.eqb (author_name (header c0))
                                          (author_name (header c))) cs)).
  { apply filter_In. split; [exact Hc | apply String.eqb_refl]. }
  destruct (filter _ cs); [destruct Hin | cbn [length]; lia].
Qed.

Lemma fold_set_add_In (l s : list string) (x : string) :
  In x (fold_left (fun s y => PyList.set_add y s) l s) <-> In x l \/ In x s.
Proof.
  revert s. induction l as [| a l IH]; intros s; cbn [fold_left In].
  - tauto.
  - rewrite IH, set_add_In. intuition auto.
Qed.

Lemma distinct_In (l : list string) (x : string) :
  In x (distinct l) <-> In x l.
Proof.
  unfold distinct. rewrite fold_set_add_In. cbn [In]. tauto.
Qed.

End DeveloperAccumulator.

Section TeamTable.

Import Dashboard CommitHistory AccumulatorSpec.

Variable pyfloat : Type.
Variable round1_percent : Z -> Z -> pyfloat.
Variable float_ltb : pyfloat -> Z -> bool.

(** The table of all contributors, before it is cut to five. *)
Lemma team_tables (cs : list CommitRecord) :
  cs <> [] ->
  let team := analyze_team_performance pyfloat round1_percent float_ltb cs in
  let table :=
    map (contributor_with_rank pyfloat)
      (PyList.enumerate_from 1
         (PyList.sort_desc (Dashboard.commits pyfloat)
            (map (contributor_row pyfloat round1_percent (len cs))
               (dev_stats cs)))) in
  top_contributors pyfloat team = firstn 5 table
  /\ developer_count pyfloat team = len (dev_stats cs)
  /\ active_developers pyfloat team = len (dev_stats cs)
  /\ alerts pyfloat team
     = map (fun c => {| alert_developer := developer pyfloat c;
                        alert_commits := Dashboard.commits pyfloat c |})
         (filter (low_activity pyfloat float_ltb) table).
Proof.
  intros Hne. destruct cs as [| c cs]; [congruence |].
  cbv zeta. repeat split; reflexivity.
Qed.

Lemma contributor_of_table (cs : list CommitRecord) (c : Contributor pyfloat) :
  In c (map (contributor_with_rank pyfloat)
          (PyList.enumerate_from 1
             (PyList.sort_desc (Dashboard.commits pyfloat)
                (map (contributor_row pyfloat round1_percent (len cs))
                   (dev_stats cs))))) ->
  let own := commits_by (developer pyfloat c) cs in
  In (developer pyfloat c) (authors_of cs)
  /\ Dashboard.commits pyfloat c = len own
  /\ Dashboard.additions pyfloat c
     = sum_Z (map CommitHistory.additions (all_changes own))
  /\ Dashboard.deletions pyfloat c
     = sum_Z (map CommitHistory.deletions (all_changes own))
  /\ files_touched pyfloat c = len (distinct (map path (all_changes own)))
  /\ activity_score pyfloat c = (Dashboard.additions pyfloat c + Dashboard.deletions pyfloat c)%Z.
Proof.
  intros Hin. apply ranked_In in Hin. destruct Hin as (j & r & Hr & ->).
  apply sort_desc_In in Hr. apply in_map_iff in Hr.
  destruct Hr as ([dev s] & <- & Hs).
  cbn [contributor_with_rank contributor_row developer Dashboard.commits
       Dashboard.additions Dashboard.deletions files_touched activity_score].
  assert (Hkey : In dev (Dict.keys (dev_stats cs))).
  { change (In (fst (dev, s)) (map fst (dev_stats cs))). apply in_map, Hs. }
  assert (Hget : Dict.get dev (dev_stats cs) = Some s).
  { apply get_of_entry; [| exact Hs].
    rewrite dev_stats_keys. apply distinct_NoDup. }
  destruct (dev_stats_figures cs dev) as (Hc & Ha & Hd & Hf).
  cbv zeta in Hc, Ha, Hd, Hf. rewrite Hget in Hc, Ha, Hd, Hf.
  cbn [dev_get] in Hc, Ha, Hd, Hf.
  split; [rewrite dev_stats_keys in Hkey; apply distinct_In, Hkey |].
  rewrite Hf. repeat split; assumption.
Qed.

Lemma table_developers (cs : list CommitRecord) :
  Permutation
    (map (developer pyfloat)
       (map (contributor_with_rank pyfloat)
          (PyList.enumerate_from 1
             (PyList.sort_desc (Dashboard.commits pyfloat)
                (map (contributor_row pyfloat round1_percent (len cs))
                   (dev_stats cs))))))
    (distinct (authors_of cs)).
Proof.
  rewrite (ranked_field (contributor_with_rank pyfloat)
             (developer pyfloat) (developer pyfloat))
    by (intros j x; reflexivity).
  rewrite <- dev_stats_keys.
  etransitivity; [apply Permutation_map, sort_desc_perm |].
  rewrite map_map. unfold Dict.keys.
  erewrite map_ext; [reflexivity |]. intros [dev s]. reflexivity.
Qed.

End TeamTable.

(** X14. The team table of the dashboard: the developer count is the number
    of distinct author names, the same as the active developers and as the
    developers of the executive summary; the top contributors are at most
    five, ranked 1, 2, ... in the order returned, which is the order of
    decreasing commit count, and no developer appears twice. *)
Theorem team_performance_ranking (pyfloat : Type)
    (days_between : string -> string -> option Z)
    (round1_div round1_percent : Z -> Z -> pyfloat)
    (float_ltb : pyfloat -> Z -> bool)
    (cs : list CommitHistory.CommitRecord) :
  let team :=
    Dashboard.analyze_team_performance pyfloat round1_percent float_ltb cs in
  let summary :=
    Dashboard.analyze_executive_summary pyfloat days_between round1_div cs in
  let top := Dashboard.top_contributors pyfloat team in
  Dashboard.developer_count pyfloat team
  = len (Dashboard.distinct (AccumulatorSpec.authors_of cs))
  /\ Dashboard.active_developers pyfloat team
     = Dashboard.developer_count pyfloat team
  /\ Dashboard.total_developers pyfloat summary
     = Dashboard.developer_count pyfloat team
  /\ length top <= 5
  /\ (len top <= Dashboard.developer_count pyfloat team)%Z
  /\ (forall k c, nth_error top k = Some c ->
        Dashboard.contributor_rank pyfloat c = Some (1 + Z.of_nat k)%Z)
  /\ StronglySorted (AggregateSpec.ge_key (Dashboard.commits pyfloat)) top
  /\ NoDup (map (Dashboard.developer pyfloat) top).
Proof.
  cbv zeta. destruct cs as [| c0 cs0].
  { cbn. repeat split; try lia; try constructor.
    intros k c H. destruct k; discriminate H. }
  set (cs := c0 :: cs0).
  destruct (team_tables pyfloat round1_percent float_ltb cs)
    as (Htop & Hcount & Hactive & _); [discriminate |].
  cbv zeta in Htop. rewrite Htop, Hcount, Hactive.
  assert (Hlen : len (Dashboard.dev_stats cs)
                 = len (Dashboard.distinct (AccumulatorSpec.authors_of cs))).
  { unfold len. rewrite <- dev_stats_keys. unfold Dict.keys.
    rewrite length_map. reflexivity. }
  split; [exact Hlen |]. split; [reflexivity |].
  split; [rewrite Hlen; reflexivity |].
  split; [apply firstn_le_length |].
  split.
  { unfold len. rewrite length_firstn, ranked_length, sort_desc_length,
      length_map. lia. }
  split.
  { intros k c H. apply nth_error_firstn_Some in H.
    apply ranked_nth in H. destruct H as (x & _ & ->). reflexivity. }
  split.
  { apply StronglySorted_firstn.
    apply (ranked_sorted _ (Dashboard.commits pyfloat));
      [intros j x; reflexivity | apply sort_desc_sorted]. }
  rewrite <- firstn_map. apply NoDup_firstn_of.
  apply (Permutation_NoDup
           (l := Dashboard.distinct (AccumulatorSpec.authors_of cs)));
    [symmetry; apply table_developers | apply distinct_NoDup].
Qed.

(** X15. Every top contributor of the dashboard is an author of the log,
    and the entry carries the figures of that developer's own commits:
    their number, the sums of the additions and deletions of their file
    changes, the number of distinct paths they touch, and as activity score
    additions plus deletions. Every low-activity alert names an author with
    one or two commits, the count the alert reports. *)
Theorem team_performance_figures (pyfloat : Type)
    (round1_percent : Z -> Z -> pyfloat)
    (float_ltb : pyfloat -> Z -> bool)
    (cs : list CommitHistory.CommitRecord) :
  let team :=
    Dashboard.analyze_team_performance pyfloat round1_percent float_ltb cs in
  (forall c, In c (Dashboard.top_contributors pyfloat team) ->
     let own := AccumulatorSpec.commits_by (Dashboard.developer pyfloat c) cs in
     let changes := AccumulatorSpec.all_changes own in
     In (Dashboard.developer pyfloat c) (AccumulatorSpec.authors_of cs)
     /\ Dashboard.commits pyfloat c = len own
     /\ Dashboard.additions pyfloat c
        = sum_Z (map CommitHistory.additions changes)
     /\ Dashboard.deletions pyfloat c
        = sum_Z (map CommitHistory.deletions changes)
     /\ Dashboard.files_touched pyfloat c
        = len (Dashboard.distinct (map CommitHistory.path changes))
     /\ Dashboard.activity_score pyfloat c
        = (Dashboard.additions pyfloat c + Dashboard.deletions pyfloat c)%Z)
  /\ (forall a, In a (Dashboard.alerts pyfloat team) ->
        In (Dashboard.alert_developer a) (AccumulatorSpec.authors_of cs)
        /\ Dashboard.alert_commits a
           = len (AccumulatorSpec.commits_by (Dashboard.alert_developer a) cs)
        /\ (1 <= Dashboard.alert_commits a < 3)%Z).
Proof.
  cbv zeta. destruct cs as [| c0 cs0].
  { split; intros x []. }
  set (cs := c0 :: cs0).
  destruct (team_tables pyfloat round1_percent float_ltb cs)
    as (Htop & _ & _ & Halerts); [discriminate |].
  cbv zeta in Htop, Halerts. rewrite Htop, Halerts.
  split.
  - intros c Hc. apply firstn_In in Hc.
    apply (contributor_of_table pyfloat round1_percent cs c Hc).
  - intros a Ha. apply in_map_iff in Ha. destruct Ha as (c & <- & Hc).
    apply filter_In in Hc. destruct Hc as (Hc & Hlow).
    destruct (contributor_of_table pyfloat round1_percent cs c Hc)
      as (Hauthor & Hcommits & _).
    cbn [Dashboard.alert_developer Dashboard.alert_commits].
    split; [exact Hauthor |]. split; [exact Hcommits |].
    unfold Dashboard.low_activity in Hlow.
    apply andb_true_iff in Hlow. destruct Hlow as (_ & Hlt).
    apply Z.ltb_lt in Hlt. unfold Dashboard.LOW_ACTIVITY_COMMITS in Hlt.
    pose proof (commits_by_In _ _ Hauthor) as Hone.
    rewrite <- Hcommits in Hone. lia.
Qed.

(** X16. The hotspots of the dashboard are at most ten, ranked 1, 2, ... in
    the order returned, which is the order of decreasing commit count, and
    no path appears twice. *)
Theorem hotspots_ranking (pyfloat : Type)
    (round1_percent : Z -> Z -> pyfloat)
    (cs : list CommitHistory.CommitRecord) :
  let spots :=
    Dashboard.hotspots pyfloat
      (Dashboard.analyze_code_health pyfloat round1_percent cs) in
  length spots <= 10
  /\ length spots <= length (AggregateSpec.touched_paths cs)
  /\ (forall k h, nth_error spots k = Some h ->
        Dashboard.rank h = Some (1 + Z.of_nat k)%Z)
  /\ StronglySorted (AggregateSpec.ge_key Dashboard.h_commits) spots
  /\ NoDup (map Dashboard.h_path spots).
Proof.
  cbv zeta.
  assert (Hhot : Dashboard.hotspots pyfloat
                   (Dashboard.analyze_code_health pyfloat round1_percent cs)
                 = Dashboard.top_hotspots (Dashboard.file_stats cs))
    by (destruct cs; reflexivity).
  rewrite Hhot. unfold Dashboard.top_hotspots.
  split.
  { rewrite ranked_length. apply firstn_le_length. }
  split.
  { rewrite ranked_length, length_firstn, sort_desc_length, length_map.
    rewrite <- file_stats_keys. unfold Dict.keys. rewrite length_map. lia. }
  split.
  { intros k h H. apply ranked_nth in H. destruct H as (x & _ & ->).
    reflexivity. }
  split.
  { apply (ranked_sorted _ Dashboard.h_commits);
      [intros j x; reflexivity |].
    apply StronglySorted_firstn, sort_desc_sorted. }
  rewrite (ranked_field Dashboard.with_rank Dashboard.h_path Dashboard.h_path)
    by (intros j x; reflexivity).
  rewrite <- firstn_map. apply NoDup_firstn_of.
  apply (Permutation_NoDup
           (l := map Dashboard.h_path
                   (map Dashboard.hotspot_row (Dashboard.file_stats cs)))).
  - apply Permutation_map. symmetry. apply sort_desc_perm.
  - rewrite rows_paths. unfold AggregateSpec.touched_paths.
    apply distinct_NoDup.
Qed.

(* ------------------------------------------------------------------ *)
(** ** The summary of the commit-history response *)

(** X17. When the commit-history response is built, the parser accepted
    the text and the response carries its records. The summary counts
    the records, gives as changed files the number of all file changes and
    as added and deleted lines the sums over them; the authors, written
    [name <email>], are in strictly ascending order, each once, and are
    those of the records; the date range is absent exactly when there is
    no record. *)
Theorem build_commit_history_json_summary (repo_path raw : string)
    (filters : Responses.Filters) (j : Responses.HistoryJson) :
  Responses.build_commit_history_json repo_path raw filters = Ok j ->
  let cs := Responses.h_commits j in
  let s := Responses.h_summary j in
  let changes := AccumulatorSpec.all_changes cs in
  CommitHistory.parse_commit_history raw = Ok cs
  /\ Responses.total_commits s = len cs
  /\ Responses.total_files_changed s = len changes
  /\ Responses.total_additions s = sum_Z (map CommitHistory.additions changes)
  /\ Responses.total_deletions s = sum_Z (map CommitHistory.deletions changes)
  /\ Sorted ParserSpec.str_lt (Responses.authors s)
  /\ (forall a, In a (Responses.authors s)
                <-> exists c, In c cs
                              /\ Responses.author_label (CommitHistory.header c) = a)
  /\ (Responses.latest s = None <-> cs = [])
  /\ (Responses.earliest s = None <-> cs = []).
Proof.
  unfold Responses.build_commit_history_json. intros H.
  apply bind_Ok_inv in H. destruct H as (cs & Hparse & H).
  injection H as <-. cbv zeta. cbn [Responses.h_commits Responses.h_summary].
  split; [exact Hparse |].
  apply commit_log_consistent in Hparse.
  destruct (consistent_sums cs Hparse) as (Hf & Ha & Hd).
  destruct cs as [| c cs0].
  { cbn [Responses.history_summary Responses.total_commits
         Responses.total_files_changed Responses.total_additions
         Responses.total_deletions Responses.authors Responses.latest
         Responses.earliest].
    split; [reflexivity |]. split; [reflexivity |].
    split; [reflexivity |]. split; [reflexivity |].
    split; [constructor |].
    split; [| tauto].
    intros a. split; [intros [] | intros (c & [] & _)]. }
  remember (c :: cs0) as cs eqn:Ecs.
  assert (Hsum : Responses.history_summary cs
                 = {| Responses.total_commits := len cs;
                      Responses.total_files_changed :=
                        sum_Z (map (fun c => CommitHistory.total_files
                                               (CommitHistory.stats c)) cs);
                      Responses.total_additions :=
                        sum_Z (map (fun c => CommitHistory.total_additions
                                               (CommitHistory.stats c)) cs);
                      Responses.total_deletions :=
                        sum_Z (map (fun c => CommitHistory.total_deletions
                                               (CommitHistory.stats c)) cs);
                      Responses.authors :=
                        PyList.sorted_set
                          (map (fun c => Responses.author_label
                                           (CommitHistory.header c)) cs);
                      Responses.earliest :=
                        Some (CommitHistory.date
                                (CommitHistory.header (last cs c)));
                      Responses.latest :=
                        Some (CommitHistory.date (CommitHistory.header c)) |})
    by (subst cs; reflexivity).
  rewrite Hsum.
  cbn [Responses.total_commits Responses.total_files_changed
       Responses.total_additions Responses.total_deletions Responses.authors
       Responses.latest Responses.earliest].
  split; [reflexivity |].
  split; [rewrite Hf; apply len_by_commit |].
  split; [rewrite Ha; apply sum_by_commit |].
  split; [rewrite Hd; apply sum_by_commit |].
  split; [apply sorted_set_sorted |].
  split.
  { intros a. rewrite sorted_set_In, in_map_iff.
    split; intros (x & H1 & H2); exists x; auto. }
  subst cs. split; split; discriminate.
Qed.

Lemma build_commit_history_json_summary_witness :
  exists j,
    Responses.build_commit_history_json "repo" Samples.sample_log
      (Responses.mkFilters None None None None None) = Ok j
    /\ Responses.total_files_changed (Responses.h_summary j)
       = len (AccumulatorSpec.all_changes (Responses.h_commits j)).
Proof.
  assert (H : exists j,
             Responses.build_commit_history_json "repo" Samples.sample_log
               (Responses.mkFilters None None None None None) = Ok j)
    by (eexists; vm_compute; reflexivity).
  destruct H as (j & Hj). exists j. split; [exact Hj |].
  destruct (build_commit_history_json_summary "repo" Samples.sample_log
              (Responses.mkFilters None None None None None) j Hj)
    as (_ & _ & Hfiles & _).
  exact Hfiles.
Defined.
